(** * The PDF report pipeline of the canvas-reports plugin

    A shallow embedding of [public/services/reporting.tsx] (class
    [ReportingService]) and of the helpers it relies on, followed by the
    properties proved about it.

    Conventions of the embedding.
    - A JavaScript [number] that holds a fraction (phase weights, progress
      ratios) is an IEEE-754 binary64 value: Rocq's primitive [float], whose
      operations are the correctly rounded ones JavaScript uses.
    - A [number] that only ever holds an integer (array lengths, indices,
      page numbers, millisecond clocks, colour channels) is a [Z].
    - A JavaScript string is a [string]: one character per code unit.
    - A DOM element is identified by a [positive]; what the code reads from
      the DOM (selector matches, attributes, inline styles) is data.
    - A function that can throw returns a [Result].
    - Asynchronous code that awaits one call after the other is run in
      that order.  The panel captures joined by [Promise.all] are modelled
      twice: in array order, and interleaved under a schedule of the waits
      the browser ends. *)

From Stdlib Require Import ZArith QArith Qround Qminmax.
From Stdlib Require Import Floats Uint63 Lia String Ascii Bool.
From stdpp Require Import gmap strings list.

Set Warnings "-inexact-float".
Set Default Proof Using "Type".

Local Open Scope Z_scope.

(* ================================================================== *)
(** * Part I. Definitions                                              *)
(* ================================================================== *)

(** ** JavaScript built-ins used by the service *)

Module JS.

(** [throw new Error(message, { cause })]: the message, and the message of
    the wrapped error if there is one. *)
Record Error := mkError { message : string; cause : option string }.

Inductive Result (A : Type) : Type :=
| Ok (a : A)
| Throw (e : Error).
Arguments Ok {A} a.
Arguments Throw {A} e.

Definition bind {A B} (r : Result A) (k : A -> Result B) : Result B :=
  match r with
  | Ok a => k a
  | Throw e => Throw e
  end.

(** [x || d] on an optional string: [undefined], [null] and the empty
    string are falsy. *)
Definition truthy (s : string) : bool :=
  negb (String.eqb s EmptyString).

Definition or_else (o : option string) (d : string) : string :=
  match o with
  | Some s => if truthy s then s else d
  | None => d
  end.

(** The same on a chain [a || b] whose result may still be falsy. *)
Definition or_opt (o : option string) (d : option string) : option string :=
  match o with
  | Some s => if truthy s then Some s else d
  | None => d
  end.

(** An integer as a binary64 value (exact below [2^53]). *)
Definition Z2float (n : Z) : float :=
  let a := PrimFloat.of_uint63 (Uint63.of_Z (Z.abs n)) in
  if n <? 0 then PrimFloat.opp a else a.

(** [Math.round]: the nearest integer, ties towards [+Infinity]; [NaN],
    the infinities, the zeros and integral values are returned as they
    are, and a result of zero keeps the sign of the argument.  A finite
    double is [(-1)^s * m * 2^e]; for [e < 0] the result is
    [floor (x + 1/2)], computed exactly on integers. *)
Definition Math_round (x : float) : float :=
  match Prim2SF x with
  | S754_finite s m e =>
      if 0 <=? e then x
      else
        let twice := if s then - (2 * Z.pos m) else 2 * Z.pos m in
        let n := (twice + 2 ^ (- e)) / 2 ^ (1 - e) in
        if n =? 0 then (if s then (-0)%float else 0%float) else Z2float n
  | _ => x
  end.

(** One step of the loop of [Math.max] / [Math.min] over their arguments:
    [+0] is larger than [-0]. *)
Definition max_step (highest n : float) : float :=
  match PrimFloat.classify n, PrimFloat.classify highest with
  | PZero, NZero => n
  | _, _ => if PrimFloat.ltb highest n then n else highest
  end.

Definition min_step (lowest n : float) : float :=
  match PrimFloat.classify n, PrimFloat.classify lowest with
  | NZero, PZero => n
  | _, _ => if PrimFloat.ltb n lowest then n else lowest
  end.

(** [Math.max(a, b)] and [Math.min(a, b)]: [NaN] if an argument is. *)
Definition Math_max (a b : float) : float :=
  if PrimFloat.is_nan a || PrimFloat.is_nan b then PrimFloat.nan
  else max_step (max_step PrimFloat.neg_infinity a) b.

Definition Math_min (a b : float) : float :=
  if PrimFloat.is_nan a || PrimFloat.is_nan b then PrimFloat.nan
  else min_step (min_step PrimFloat.infinity a) b.

(** [Math.ceil(a / b)] for integers [a] and [b > 0] (the quotient of two
    integers below [2^53] by 2 is exact in binary64). *)
Definition Math_ceil_div (a b : Z) : Z := - ((- a) / b).

(** [Math.floor(a / b)] for integers [a] and [b > 0]. *)
Definition Math_floor_div (a b : Z) : Z := a / b.

(** [a % b] keeps the sign of the dividend. *)
Definition rem (a b : Z) : Z := Z.rem a b.

(** [`${n}`] for an integer. *)
Definition digit (d : Z) : string :=
  String (ascii_of_nat (48 + Z.to_nat d)) EmptyString.

Fixpoint digits (fuel : nat) (n : Z) : string :=
  match fuel with
  | O => EmptyString
  | S fuel' =>
      if n <? 10 then digit n
      else String.append (digits fuel' (n / 10)) (digit (n mod 10))
  end.

Definition toString (n : Z) : string :=
  if n <? 0 then String "-" (digits (Z.to_nat (- n)) (- n))
  else digits (S (Z.to_nat n)) n.

(** [Array.prototype.indexOf]: [-1] when absent. *)
Fixpoint indexOf_from {A} `{EqDecision A} (l : list A) (x : A) (i : Z) : Z :=
  match l with
  | [] => -1
  | y :: l' => if decide (y = x) then i else indexOf_from l' x (i + 1)
  end.

Definition indexOf {A} `{EqDecision A} (l : list A) (x : A) : Z :=
  indexOf_from l x 0.

(** [Array.prototype.slice(0, end)]: a negative [end] counts from the
    back. *)
Definition slice0 {A} (l : list A) (end_ : Z) : list A :=
  if end_ <? 0 then firstn (Z.to_nat (Z.of_nat (length l) + end_)) l
  else firstn (Z.to_nat end_) l.

(** Calls made one after the other inside one block: the first call that
    throws ends the block with its error. *)
Fixpoint inOrder (calls : list (Result unit)) : Result unit :=
  match calls with
  | [] => Ok tt
  | call :: rest => bind call (fun _ => inOrder rest)
  end.

End JS.

Import JS.

(** ** Phases and progress (PhaseOrchestrator) *)

(** [type PhaseKey = keyof typeof PHASE_CONFIG]. *)
Inductive PhaseKey : Type :=
| initialization
| data_gathering
| info_retrieval
| pdf_generation
| success.

#[global] Instance PhaseKey_eq_dec : EqDecision PhaseKey.
Proof. solve_decision. Defined.

Definition PhaseKey_to_nat (p : PhaseKey) : nat :=
  match p with
  | initialization => 0
  | data_gathering => 1
  | info_retrieval => 2
  | pdf_generation => 3
  | success => 4
  end%nat.

Definition PhaseKey_of_nat (n : nat) : option PhaseKey :=
  match n with
  | 0 => Some initialization
  | 1 => Some data_gathering
  | 2 => Some info_retrieval
  | 3 => Some pdf_generation
  | 4 => Some success
  | _ => None
  end%nat.

#[global] Program Instance PhaseKey_countable : Countable PhaseKey :=
  inj_countable PhaseKey_to_nat PhaseKey_of_nat _.
Next Obligation. by intros []. Qed.

(** [const PHASE_CONFIG = { initialization: 0.05, ... } as const]. *)
Definition PHASE_CONFIG (p : PhaseKey) : float :=
  match p with
  | initialization => 0.05
  | data_gathering => 0.65
  | info_retrieval => 0.20
  | pdf_generation => 0.05
  | success => 0.05
  end%float.

(** The decimal literals of [PHASE_CONFIG], in hundredths. *)
Definition PHASE_CONFIG_percent (p : PhaseKey) : Z :=
  match p with
  | initialization => 5
  | data_gathering => 65
  | info_retrieval => 20
  | pdf_generation => 5
  | success => 5
  end.

(** [Object.keys(PHASE_CONFIG)]: the keys in declaration order. *)
Definition phaseKeys : list PhaseKey :=
  [initialization; data_gathering; info_retrieval; pdf_generation; success].

(** [calculateProgress(phase, phaseProgress)]. *)
Definition calculateProgress (phase : PhaseKey) (phaseProgress : float) : float :=
  let currentIndex := indexOf phaseKeys phase in
  let accumulated :=
    fold_left (fun sum key => (sum + PHASE_CONFIG key)%float)
              (slice0 phaseKeys currentIndex) 0%float in
  let currentContribution :=
    (PHASE_CONFIG phase * Math_min 1 (Math_max 0 phaseProgress))%float in
  Math_round ((accumulated + currentContribution) * 100)%float.

(** The reading of the specification: the weights of the phases strictly
    before [p] in enum order, summed from the first phase on; the textbook
    clamp to an interval; the weights up to and including [p]. *)
Definition phases_before (p : PhaseKey) : list PhaseKey :=
  filter (fun q => (PhaseKey_to_nat q < PhaseKey_to_nat p)%nat) phaseKeys.

Definition accumulated_before (p : PhaseKey) : float :=
  fold_left (fun sum q => (sum + PHASE_CONFIG q)%float) (phases_before p) 0%float.

Definition clamp (lo hi x : float) : float :=
  if PrimFloat.ltb x lo then lo else if PrimFloat.ltb hi x then hi else x.

Definition cumulative_through (p : PhaseKey) : float :=
  (accumulated_before p + PHASE_CONFIG p)%float.

Definition cumulative_percent (p : PhaseKey) : Z :=
  fold_left (fun sum q => sum + PHASE_CONFIG_percent q)
            (phases_before p) 0 + PHASE_CONFIG_percent p.

(** The formula as the specification words it, on exact numbers: the
    weights are the decimals 0.05, 0.65, 0.20, 0.05 and 0.05, the progress
    ratio is a rational, sums and products are exact, and [round] is the
    nearest integer with ties upwards. *)
Definition spec_weight (p : PhaseKey) : Q :=
  (inject_Z (PHASE_CONFIG_percent p) / 100)%Q.

Definition spec_accumulated (p : PhaseKey) : Q :=
  fold_left (fun sum q => (sum + spec_weight q)%Q) (phases_before p) 0%Q.

Definition spec_clamp (x : Q) : Q := Qmin 1 (Qmax 0 x).

Definition spec_round (v : Q) : Z := Qfloor (v + (1 # 2))%Q.

Definition spec_calculateProgress (p : PhaseKey) (x : Q) : Z :=
  spec_round ((spec_accumulated p + spec_weight p * spec_clamp x) * 100)%Q.

(** The rational a finite binary64 value stands for: [(-1)^s * m * 2^e]. *)
Definition exact_value (x : float) : option Q :=
  match Prim2SF x with
  | S754_zero _ => Some 0%Q
  | S754_finite s m e =>
      Some ((if s then -1 else 1) * inject_Z (Z.pos m) * Qpower 2 e)%Q
  | _ => None
  end.

(** ** Page arithmetic (PaginationPlanner) *)

(** [calculateTotalPages(validCount)]. *)
Definition calculateTotalPages (validCount : Z) : Z :=
  let visualizationsPerPage := 2 in
  let contentPages :=
    if 0 <? validCount
    then 1 + Math_ceil_div (validCount - 1) visualizationsPerPage
    else 0 in
  3 + contentPages.

(** The ceiling of a rational [a / b] with [b > 0], by its defining
    inequalities: the least integer [c] with [a <= b * c]. *)
Definition is_ceiling (a b c : Z) : Prop :=
  a <= b * c /\ b * (c - 1) < a.

(** ** Strings *)

(** The methods of [String.prototype] whose result depends on Unicode
    tables.  The service only composes them; the properties below hold for
    every implementation that maps the empty string to itself. *)
Class StringPrototype := {
  toUpperCase : string -> string;
  toLowerCase : string -> string;
  trim : string -> string;
  toUpperCase_empty : toUpperCase EmptyString = EmptyString;
  toLowerCase_empty : toLowerCase EmptyString = EmptyString;
  trim_empty : trim EmptyString = EmptyString
}.

(** [s.charAt(0)]: the first character, or the empty string. *)
Definition charAt0 (s : string) : string :=
  match s with
  | EmptyString => EmptyString
  | String c _ => String c EmptyString
  end.

(** [s.slice(1)]. *)
Definition slice1 (s : string) : string :=
  match s with
  | EmptyString => EmptyString
  | String _ rest => rest
  end.

(** [capitalizeFirstLetter(str)]. *)
Definition capitalizeFirstLetter `{StringPrototype} (str : string) : string :=
  String.append (toUpperCase (charAt0 str)) (toLowerCase (slice1 str)).

(** The instance for ASCII text: letters [a-z] / [A-Z] change case, every
    other character is kept; [trim] removes the ASCII white space. *)
Module Ascii7.

Definition is_lower (c : ascii) : bool :=
  let n := nat_of_ascii c in ((97 <=? n) && (n <=? 122))%nat.

Definition is_upper (c : ascii) : bool :=
  let n := nat_of_ascii c in ((65 <=? n) && (n <=? 90))%nat.

Definition upper_char (c : ascii) : ascii :=
  if is_lower c then ascii_of_nat (nat_of_ascii c - 32) else c.

Definition lower_char (c : ascii) : ascii :=
  if is_upper c then ascii_of_nat (nat_of_ascii c + 32) else c.

Fixpoint map_string (f : ascii -> ascii) (s : string) : string :=
  match s with
  | EmptyString => EmptyString
  | String c rest => String (f c) (map_string f rest)
  end.

Definition is_space (c : ascii) : bool :=
  let n := nat_of_ascii c in ((n =? 32) || ((9 <=? n) && (n <=? 13)))%nat.

Fixpoint trim_start (s : string) : string :=
  match s with
  | EmptyString => EmptyString
  | String c rest => if is_space c then trim_start rest else s
  end.

Fixpoint trim_end (s : string) : string :=
  match s with
  | EmptyString => EmptyString
  | String c rest =>
      match trim_end rest with
      | EmptyString => if is_space c then EmptyString else String c EmptyString
      | rest' => String c rest'
      end
  end.

#[global] Instance ascii_prototype : StringPrototype := {|
  toUpperCase := map_string upper_char;
  toLowerCase := map_string lower_char;
  trim := fun s => trim_end (trim_start s);
  toUpperCase_empty := eq_refl;
  toLowerCase_empty := eq_refl;
  trim_empty := eq_refl
|}.

End Ascii7.

(** ** Report entries *)

(** [interface VisualizationData]; the footers carry a [pageNumber] too. *)
Module VisualizationData.
Record t := mk {
  id : string;
  title : string;
  type : string;
  data : string;
  pageNumber : option Z
}.
End VisualizationData.

Abbreviation VisualizationData := VisualizationData.t.

#[global] Instance VisualizationData_eq_dec : EqDecision VisualizationData.
Proof. solve_decision. Defined.

Module Import ReportEntries.
Import VisualizationData.

(** [createMainVisualization(panelId, title, screenshot)]. *)
Definition createMainVisualization (panelId title screenshot : string)
  : VisualizationData :=
  {| id := panelId; title := title; type := "Visualization";
     data := screenshot; pageNumber := None |}.

(** The marker pushed by [addPageBreaks]. *)
Definition pageBreakMarker (index : Z) : VisualizationData :=
  {| id := String.append "page-break-" (toString index);
     type := "PageBreak"; title := EmptyString; data := EmptyString;
     pageNumber := None |}.

(** [addPageBreaks(visualizations, index, totalPanels)]: the array after
    the call. *)
Definition addPageBreaks (visualizations : list VisualizationData)
    (index totalPanels : Z) : list VisualizationData :=
  if (rem (index + 1) 2 =? 0) && negb (index =? totalPanels - 1)
  then visualizations ++ [pageBreakMarker index]
  else visualizations.

(** [createTocVisualization], [createDashboardTitleVisualization],
    [createTimeRangeVisualization] and [createPageFooters]. *)
Definition createTocVisualization (tocImage : string) : VisualizationData :=
  {| id := "report-toc"; title := "Table of Contents";
     type := "TableOfContents"; data := tocImage; pageNumber := None |}.

Definition createDashboardTitleVisualization (image : string)
  : VisualizationData :=
  {| id := "dashboard-title"; title := "Dashboard Title";
     type := "DashboardTitle"; data := image; pageNumber := None |}.

Definition createTimeRangeVisualization (image : string) : VisualizationData :=
  {| id := "time-range"; title := "Time Range";
     type := "Header"; data := image; pageNumber := None |}.

Definition createPageFooters (images : list string) : list VisualizationData :=
  imap (fun index img =>
          {| id := String.append "footer-page-" (toString (Z.of_nat index + 1));
             title := "Page Footer"; type := "PageFooter"; data := img;
             pageNumber := Some (Z.of_nat index + 1) |})
       images.

End ReportEntries.

(** ** Panels *)

(** A DOM element. *)
Definition Element := positive.

(** What the service reads from one panel element
    ([data-test-embeddable-id]) and its subtree. *)
Record Panel := mkPanel {
  (** the panel element itself *)
  panel_element : Element;
  (** the selectors [s] for which [panel.querySelector(s)] is not null *)
  selectors : list string;
  (** [panel.closest('.react-grid-item')] *)
  grid_item : option Element;
  (** [panel.closest('.embPanel')] *)
  embPanel : option Element;
  (** [panel.querySelector('[data-title]')?.getAttribute('data-title')] *)
  data_title : option string;
  (** [panel.querySelector('.embPanel__titleText')?.textContent?.trim()] *)
  titleText : option string;
  (** [panel.getAttribute('data-test-embeddable-id')] *)
  embeddable_id : option string;
  (** [hasChildNodes()] of the element found by the empty-chart selector *)
  tvbVis_hasChildNodes : option bool;
  (** [el.textContent?.trim() || ''] of every [p] element of the panel *)
  paragraphs : list string
}.

(** The selector [[name="value"]]. *)
Definition attr_selector (name value : string) : string :=
  let quote := String (ascii_of_nat 34) EmptyString in
  String.append "[" (String.append name (String.append "="
    (String.append quote (String.append value (String.append quote "]"))))).

(** [!!panel.querySelector(selector)]. *)
Definition querySelector (panel : Panel) (selector : string) : bool :=
  bool_decide (selector ∈ selectors panel).

(** [isExcludedPanelType(panel)]. *)
Definition isExcludedPanelType (panel : Panel) : bool :=
  let excludedSelectors :=
    [".visualization.markdownVis"; attr_selector "data-test-subj" "discoverTable";
     ".icvContainer"] in
  existsb (querySelector panel) excludedSelectors.

(** [isEmptyPanel(panel)]. *)
Definition isEmptyPanel (panel : Panel) : bool :=
  match tvbVis_hasChildNodes panel with
  | Some hasChildNodes => negb hasChildNodes
  | None => false
  end.

(** [hasNoDataMessage(panel)]. *)
Definition hasNoDataMessage (panel : Panel) : bool :=
  let messages :=
    ["No data to display for the selected metrics"; "No results found"] in
  existsb (fun text => bool_decide (text ∈ messages)) (paragraphs panel).

(** [isValidPanel(panel)]. *)
Definition isValidPanel (panel : Panel) : bool :=
  negb (isExcludedPanelType panel) &&
  negb (isEmptyPanel panel) &&
  negb (hasNoDataMessage panel).

(** [getValidPanels()], on the list [document.querySelectorAll] returns. *)
Definition getValidPanels (panelElements : list Panel) : list Panel :=
  filter (fun panel => isValidPanel panel = true) panelElements.

(** [getPanelTitle(panelElement)] and [getPanelId(panelElement)]. *)
Definition getPanelTitle (panelElement : Panel) : string :=
  or_else (titleText panelElement) "Untitled Panel".

Definition getPanelId (panelElement : Panel) : string :=
  or_else (embeddable_id panelElement) "unknown".

(** [validatePanels(panels)]: the [map] step yields an entry or [null], the
    [filter] step drops the [null]s. *)
Definition validatePanels_entry (panel : Panel) : option (Panel * string) :=
  let title :=
    or_else (or_opt (data_title panel) (titleText panel)) "[No Title]" in
  if truthy title then Some (panel, title) else None.

Definition validatePanels (panels : list Panel) : list (Panel * string) :=
  omap (fun entry => entry) (map validatePanels_entry panels).

(** ** The service state touched by the phase orchestrator *)

(** [PhaseTracking.historicalDurations] is the array [getPhaseHistory]
    returned: the array stored in [phaseHistory] when the phase has one (an
    alias of it), a new empty array otherwise. *)
Inductive HistoryRef : Type :=
| StoredHistory (phase : PhaseKey)
| FreshHistory.

Record PhaseTracking := mkPhaseTracking {
  phase : PhaseKey;
  startTime : Z;
  historicalDurations : HistoryRef
}.

(** The first argument of [showModal]: the message of a phase, or the
    message of an error. *)
Inductive ModalMessage : Type :=
| PhaseMessageOf (phase : PhaseKey)
| ErrorText (text : string).

Inductive ModalType : Type := Loading | ErrorModal | SuccessModal.

Record ModalCall := mkModalCall {
  modal_message : ModalMessage;
  modal_type : ModalType;
  modal_progress : float
}.

Record Service := mkService {
  (** [private phaseHistory = new Map<PhaseKey, number[]>()] *)
  phaseHistory : gmap PhaseKey (list Z);
  (** [private phaseTracker!: PhaseTracking] *)
  phaseTracker : option PhaseTracking;
  (** [private lastPhaseProgress = 0] *)
  lastPhaseProgress : float;
  (** whether [setModalHandlers] has been called *)
  modalHandlers : bool;
  (** the calls [modalHandlers.showModal] has received, oldest first *)
  shownModals : list ModalCall;
  (** the delays passed to [setTimeout(this.hideModal, _)], oldest first *)
  scheduledDismissals : list Z;
  (** [Date.now()] *)
  now : Z
}.

(** A new [ReportingService]. *)
Definition newService (clock : Z) : Service :=
  {| phaseHistory := ∅; phaseTracker := None; lastPhaseProgress := 0%float;
     modalHandlers := false; shownModals := []; scheduledDismissals := [];
     now := clock |}.

Definition setModalHandlers (st : Service) : Service :=
  {| phaseHistory := phaseHistory st; phaseTracker := phaseTracker st;
     lastPhaseProgress := lastPhaseProgress st; modalHandlers := true;
     shownModals := shownModals st;
     scheduledDismissals := scheduledDismissals st; now := now st |}.

Definition set_phaseHistory (h : gmap PhaseKey (list Z)) (st : Service) : Service :=
  {| phaseHistory := h; phaseTracker := phaseTracker st;
     lastPhaseProgress := lastPhaseProgress st;
     modalHandlers := modalHandlers st; shownModals := shownModals st;
     scheduledDismissals := scheduledDismissals st; now := now st |}.

Definition set_phaseTracker (t : PhaseTracking) (st : Service) : Service :=
  {| phaseHistory := phaseHistory st; phaseTracker := Some t;
     lastPhaseProgress := lastPhaseProgress st;
     modalHandlers := modalHandlers st; shownModals := shownModals st;
     scheduledDismissals := scheduledDismissals st; now := now st |}.

Definition set_lastPhaseProgress (x : float) (st : Service) : Service :=
  {| phaseHistory := phaseHistory st; phaseTracker := phaseTracker st;
     lastPhaseProgress := x;
     modalHandlers := modalHandlers st; shownModals := shownModals st;
     scheduledDismissals := scheduledDismissals st; now := now st |}.

(** [this.showModal(message, type, progress)]: the getter falls back to a
    no-op when no handlers are registered. *)
Definition showModal (m : ModalMessage) (t : ModalType) (progress : float)
    (st : Service) : Service :=
  if modalHandlers st then
    {| phaseHistory := phaseHistory st; phaseTracker := phaseTracker st;
       lastPhaseProgress := lastPhaseProgress st;
       modalHandlers := modalHandlers st;
       shownModals := shownModals st ++ [mkModalCall m t progress];
       scheduledDismissals := scheduledDismissals st; now := now st |}
  else st.

(** [scheduleModalDismissal(delayMs)]: [this.hideModal] is always a function
    (the handler or the no-op), so the timer is always set. *)
Definition scheduleModalDismissal (delayMs : Z) (st : Service) : Service :=
  {| phaseHistory := phaseHistory st; phaseTracker := phaseTracker st;
     lastPhaseProgress := lastPhaseProgress st;
     modalHandlers := modalHandlers st; shownModals := shownModals st;
     scheduledDismissals := scheduledDismissals st ++ [delayMs];
     now := now st |}.

(** [phaseMessages[phase].isSuccess]. *)
Definition isSuccess (p : PhaseKey) : bool :=
  match p with
  | success => true
  | _ => false
  end.

(** [getPhaseHistory(phase)]: [this.phaseHistory.get(phase) || []]. *)
Definition getPhaseHistory (st : Service) (p : PhaseKey) : list Z :=
  default [] (phaseHistory st !! p).

Definition getPhaseHistoryRef (st : Service) (p : PhaseKey) : HistoryRef :=
  match phaseHistory st !! p with
  | Some _ => StoredHistory p
  | None => FreshHistory
  end.

(** The durations a tracker's [historicalDurations] holds when read in
    state [st]. *)
Definition readHistoryRef (st : Service) (r : HistoryRef) : list Z :=
  match r with
  | StoredHistory p => getPhaseHistory st p
  | FreshHistory => []
  end.

(** [if (history.length >= 10) history.shift(); history.push(duration)]. *)
Definition pushDuration (history : list Z) (duration : Z) : list Z :=
  (if 10 <=? Z.of_nat (length history) then tail history else history)
  ++ [duration].

(** [updatePhaseHistory(phase, duration)]. *)
Definition updatePhaseHistory (p : PhaseKey) (duration : Z) (st : Service)
  : Service :=
  let history := pushDuration (getPhaseHistory st p) duration in
  set_phaseHistory (<[p := history]> (phaseHistory st)) st.

(** [updateModalProgress()]. *)
Definition updateModalProgress (st : Service) : Service :=
  if modalHandlers st then
    match phaseTracker st with
    | Some tracker =>
        let currentProgress :=
          Math_max 0 (Math_min 100 (lastPhaseProgress st)) in
        showModal (PhaseMessageOf (phase tracker))
                  (if isSuccess (phase tracker) then SuccessModal else Loading)
                  currentProgress st
    | None => st
    end
  else st.

(** [updateProgress(phase, phaseProgress)]. *)
Definition updateProgress (p : PhaseKey) (phaseProgress : float) (st : Service)
  : Service :=
  updateModalProgress
    (set_lastPhaseProgress (calculateProgress p phaseProgress) st).

(** An asynchronous operation run inside a phase: it ends with a value or
    an error, and leaves the service in a new state (the clock has moved,
    progress may have been reported). *)
Definition Operation (T : Type) : Type := Service -> Result T * Service.

(** [executePhase(phase, operation)]. *)
Definition executePhase {T} (p : PhaseKey) (operation : Operation T)
  : Operation T :=
  fun st =>
    let startTime := now st in
    let st := set_phaseTracker
                (mkPhaseTracking p startTime (getPhaseHistoryRef st p)) st in
    let st := updateProgress p 0 st in
    match operation st with
    | (Ok result, st) =>
        let st := updateProgress p 1 st in
        let st := updatePhaseHistory p (now st - startTime) st in
        (Ok result, st)
    | (Throw error, st) =>
        let st := updatePhaseHistory p (now st - startTime) st in
        (Throw error, st)
    end.

(** The service as the operation of a phase finds it. *)
Definition phaseStarted (p : PhaseKey) (st : Service) : Service :=
  updateProgress p 0
    (set_phaseTracker (mkPhaseTracking p (now st) (getPhaseHistoryRef st p)) st).

(** Calls of [executePhase] made one after the other, whatever each one
    returns. *)
Fixpoint executePhases (calls : list (PhaseKey * Operation unit))
    (st : Service) : Service :=
  match calls with
  | [] => st
  | (p, operation) :: rest => executePhases rest (snd (executePhase p operation st))
  end.

(** No phase has more than ten durations on record. *)
Definition historyBounded (st : Service) : Prop :=
  forall p history,
    phaseHistory st !! p = Some history -> (length history <= 10)%nat.

(** An operation that leaves [phaseHistory] alone, as the handlers of the
    service do ([phaseHistory] is private and written by
    [updatePhaseHistory] only). *)
Definition keepsHistory {T} (operation : Operation T) : Prop :=
  forall st, phaseHistory (snd (operation st)) = phaseHistory st.

(** [createProgressHandler(phase, totalSteps)] returns a closure over the
    counter [currentStep]; [progressHandler] is one call of it, with the
    counter threaded. *)
Definition progressHandler (p : PhaseKey) (totalSteps : Z)
    (currentStep : Z) (st : Service) : Z * Service :=
  let currentStep := currentStep + 1 in
  let st := set_lastPhaseProgress
              (calculateProgress p (Z2float currentStep / Z2float totalSteps)%float)
              st in
  (currentStep, updateModalProgress st).

(** [handleError(error)]. *)
Definition handleError (error : Error) (st : Service) : Service :=
  let text := message error in
  let m := if truthy text then ErrorText text else PhaseMessageOf data_gathering in
  scheduleModalDismissal 3000 (showModal m ErrorModal 0 st).

(** [handleInitialization] and [handleSuccess]. *)
Definition handleInitialization : Operation unit :=
  fun st =>
    (Ok tt, showModal (PhaseMessageOf initialization) Loading
                      (calculateProgress initialization 0) st).

Definition handleSuccess : Operation unit :=
  fun st =>
    (Ok tt, scheduleModalDismissal 3000
              (showModal (PhaseMessageOf success) SuccessModal 100 st)).

(** [generatePdfReport]: the five phases in order, any failure handed to
    [handleError].  The three middle handlers are parameters: what they do
    to the page is modelled further down. *)
Definition generatePdfReport {D}
    (handleDataCollection : Operation D)
    (handleInformationRetrieval : Operation unit)
    (handlePdfGeneration : D -> Operation unit) (st : Service) : Service :=
  match executePhase initialization handleInitialization st with
  | (Throw error, st) => handleError error st
  | (Ok _, st) =>
  match executePhase data_gathering handleDataCollection st with
  | (Throw error, st) => handleError error st
  | (Ok dashboardState, st) =>
  match executePhase info_retrieval handleInformationRetrieval st with
  | (Throw error, st) => handleError error st
  | (Ok _, st) =>
  match executePhase pdf_generation (handlePdfGeneration dashboardState) st with
  | (Throw error, st) => handleError error st
  | (Ok _, st) =>
  match executePhase success handleSuccess st with
  | (Throw error, st) => handleError error st
  | (Ok _, st) => st
  end end end end end.

(** ** Inline styles and layout normalisation (LayoutNormalizer) *)

(** The six properties of [element.style] the normaliser reads and writes;
    an unset property reads as the empty string. *)
Module Style.
Record t := mk {
  top : string;
  left : string;
  width : string;
  height : string;
  position : string;
  visibility : string
}.

Definition unset : t :=
  mk EmptyString EmptyString EmptyString EmptyString EmptyString EmptyString.
End Style.

#[global] Instance Style_eq_dec : EqDecision Style.t.
Proof. solve_decision. Defined.

(** [type OriginalStyles]: every key is optional.  The objects passed to
    [storeAndApplyStyles] ([Partial<CSSStyleDeclaration>]) only use these
    keys and are values of the same type. *)
Module OriginalStyles.
Record t := mk {
  top : option string;
  left : option string;
  width : option string;
  height : option string;
  position : option string;
  visibility : option string
}.
End OriginalStyles.

(** [Object.assign(element.style, styles)]: the keys present in [styles]
    are written, the others are left alone. *)
Definition assignStyle (style : Style.t) (styles : OriginalStyles.t) : Style.t :=
  {| Style.top := default (Style.top style) (OriginalStyles.top styles);
     Style.left := default (Style.left style) (OriginalStyles.left styles);
     Style.width := default (Style.width style) (OriginalStyles.width styles);
     Style.height := default (Style.height style) (OriginalStyles.height styles);
     Style.position :=
       default (Style.position style) (OriginalStyles.position styles);
     Style.visibility :=
       default (Style.visibility style) (OriginalStyles.visibility styles) |}.

(** The inline styles of the page: an element without an entry has none of
    the six properties set. *)
Definition styleOf (page : gmap Element Style.t) (element : Element) : Style.t :=
  default Style.unset (page !! element).

Definition assignTo (element : Element) (styles : OriginalStyles.t)
    (page : gmap Element Style.t) : gmap Element Style.t :=
  <[element := assignStyle (styleOf page element) styles]> page.

(** The object literals of [preparePanelDimensions]. *)
Definition geometry (top left width height : string) : OriginalStyles.t :=
  {| OriginalStyles.top := Some top; OriginalStyles.left := Some left;
     OriginalStyles.width := Some width; OriginalStyles.height := Some height;
     OriginalStyles.position := Some "absolute";
     OriginalStyles.visibility := Some "hidden" |}.

Definition fullSize : OriginalStyles.t :=
  {| OriginalStyles.top := None; OriginalStyles.left := None;
     OriginalStyles.width := Some "100%"; OriginalStyles.height := Some "100%";
     OriginalStyles.position := None; OriginalStyles.visibility := None |}.

(** The snapshots [storeAndApplyStyles] stores for the grid item (six keys)
    and for the panel body (two keys). *)
Definition rootSnapshot (style : Style.t) : OriginalStyles.t :=
  {| OriginalStyles.top := Some (Style.top style);
     OriginalStyles.left := Some (Style.left style);
     OriginalStyles.width := Some (Style.width style);
     OriginalStyles.height := Some (Style.height style);
     OriginalStyles.position := Some (Style.position style);
     OriginalStyles.visibility := Some (Style.visibility style) |}.

Definition embPanelSnapshot (style : Style.t) : OriginalStyles.t :=
  {| OriginalStyles.top := None; OriginalStyles.left := None;
     OriginalStyles.width := Some (Style.width style);
     OriginalStyles.height := Some (Style.height style);
     OriginalStyles.position := None; OriginalStyles.visibility := None |}.

(** The state [preparePanelDimensions] works on: the page and the local
    [originalStyles : Map<HTMLElement, OriginalStyles>]. *)
Record Layout := mkLayout {
  page : gmap Element Style.t;
  originalStyles : gmap Element OriginalStyles.t
}.

(** [storeAndApplyStyles(panel, rootStyles, embPanelStyles)]. *)
Definition storeAndApplyStyles (panel : Panel)
    (rootStyles embPanelStyles : OriginalStyles.t) (l : Layout) : Layout :=
  match grid_item panel, embPanel panel with
  | Some root, Some emb =>
      let originals :=
        <[emb := embPanelSnapshot (styleOf (page l) emb)]>
          (<[root := rootSnapshot (styleOf (page l) root)]> (originalStyles l)) in
      {| page := assignTo emb embPanelStyles (assignTo root rootStyles (page l));
         originalStyles := originals |}
  | _, _ => l
  end.

(** One call of [storeAndApplyStyles] of the thirteen [forEach] loops. *)
Record LayoutJob := mkLayoutJob {
  job_panel : Panel;
  job_rootStyles : OriginalStyles.t;
  job_embPanelStyles : OriginalStyles.t
}.

Definition probe (selector : string) (panels : list Panel) : list Panel :=
  filter (fun panel => querySelector panel selector = true) panels.

Definition forEachPanel (panels : list Panel) (rootStyles : OriginalStyles.t)
  : list LayoutJob :=
  map (fun panel => mkLayoutJob panel rootStyles fullSize) panels.

(** The calls of [storeAndApplyStyles] made by [preparePanelDimensions], in
    the order the source makes them. *)
Definition layoutJobs (panels : list Panel) : list LayoutJob :=
  let chartPanels := probe ".visChart" panels in
  let pieChartPanels := probe ".arcs" chartPanels in
  let tsvbPanels := probe ".tvbVisTimeSeries" chartPanels in
  let barCharts := probe ".visAxis--y" chartPanels in
  let topNCharts := probe ".tvbVisTopN" chartPanels in
  let trendMetrics := probe ".osdRedirectCrossAppLinks" chartPanels in
  let tsvbMetrics := probe ".tvbSplitVis" chartPanels in
  let mapCharts := probe ".visChart.vgaVis" chartPanels in
  let tvbSplitVis := probe ".tvbSplitVis" chartPanels in
  let tvbTableView := probe (attr_selector "data-test-subj" "tableView") chartPanels in
  let metricPanels := probe ".mtrVis" panels in
  let tablePanels := probe ".visualization.tableVis" panels in
  let cloudPanels := probe ".tgcChart" panels in
  let markdownTsvbPanels :=
    probe (attr_selector "data-test-subj" "tsvbMarkdown") panels in
  forEachPanel tsvbPanels (geometry "540px" "964px" "948px" "384px") ++
  forEachPanel barCharts (geometry "540px" "964px" "948px" "384px") ++
  forEachPanel pieChartPanels (geometry "540px" "964px" "640px" "440px") ++
  forEachPanel topNCharts (geometry "540px" "964px" "640px" "440px") ++
  forEachPanel trendMetrics (geometry "260px" "637px" "318px" "340px") ++
  forEachPanel tsvbMetrics (geometry "320px" "637px" "637px" "200px") ++
  forEachPanel metricPanels (geometry "700px" "637px" "637px" "220px") ++
  forEachPanel tablePanels (geometry "1600px" "955px" "955px" "540px") ++
  forEachPanel tvbSplitVis (geometry "1600px" "955px" "955px" "540px") ++
  forEachPanel tvbTableView (geometry "1600px" "955px" "955px" "540px") ++
  forEachPanel cloudPanels (geometry "540px" "964px" "948px" "384px") ++
  forEachPanel mapCharts (geometry "540px" "964px" "948px" "384px") ++
  forEachPanel markdownTsvbPanels (geometry "540px" "964px" "948px" "384px").

Definition runJobs (jobs : list LayoutJob) (l : Layout) : Layout :=
  fold_left
    (fun l job =>
       storeAndApplyStyles (job_panel job) (job_rootStyles job)
                           (job_embPanelStyles job) l)
    jobs l.

(** [preparePanelDimensions(panels)]: the page after the thirteen loops, and
    the map the returned closure has captured. *)
Definition preparePanelDimensions (panels : list Panel)
    (page0 : gmap Element Style.t) : Layout :=
  runJobs (layoutJobs panels) {| page := page0; originalStyles := ∅ |}.

(** The closure [preparePanelDimensions] returns:
    [originalStyles.forEach((styles, element) =>
       Object.assign(element.style, styles))]. *)
Definition restoreLayout (originals : gmap Element OriginalStyles.t)
    (page0 : gmap Element Style.t) : gmap Element Style.t :=
  map_fold (fun element styles page => assignTo element styles page)
           page0 originals.

(** The elements a list of calls writes to. *)
Definition jobTargets (jobs : list LayoutJob) : list Element :=
  flat_map
    (fun job =>
       match grid_item (job_panel job), embPanel (job_panel job) with
       | Some root, Some emb => [root; emb]
       | _, _ => []
       end)
    jobs.

(** ** Capture (CaptureOrchestrator) *)

(** The four branches of [capturePanelScreenshot]. *)
Inductive CaptureProfile : Type :=
| ArcProfile
| TimeSeriesProfile
| MetricProfile
| DefaultProfile.

(** The selector behind [hasMetrics]. *)
Definition metricsSelector : string :=
  let tvbVis rgb :=
    String.append ".tvbVis"
      (attr_selector "style*" (String.append "background-color: rgb(" (String.append rgb ")"))) in
  String.append (tvbVis "226, 0, 116") (String.append ", "
    (String.append (tvbVis "255, 154, 30") (String.append ", "
      (String.append (tvbVis "255, 211, 41") (String.append ", "
        (tvbVis "27, 173, 162")))))).

(** The [if / else if] chain on [hasArcElements], [isTimeSeriesChart] and
    [hasMetrics]. *)
Definition selectProfile (hasArcElements isTimeSeriesChart hasMetrics : bool)
  : CaptureProfile :=
  if hasArcElements then ArcProfile
  else if isTimeSeriesChart then TimeSeriesProfile
  else if hasMetrics then MetricProfile
  else DefaultProfile.

Definition panelProfile (panel : Panel) : CaptureProfile :=
  selectProfile (querySelector panel ".arcs")
                (querySelector panel ".tvbVisTimeSeries")
                (querySelector panel metricsSelector).

(** [data[i] > 240]: reading past the end of a typed array gives
    [undefined], and [undefined > 240] is false. *)
Definition above240 (data : list Z) (i : nat) : bool :=
  match data !! i with
  | Some v => 240 <? v
  | None => false
  end.

(** The body of the loop over [imageData.data]; the chained assignment
    writes index [i+2] first.  Writing past the end of a typed array does
    nothing. *)
Definition snapAt (data : list Z) (i : nat) : list Z :=
  if above240 data i && above240 data (i + 1) && above240 data (i + 2)
  then <[i := 255]> (<[(i + 1)%nat := 255]> (<[(i + 2)%nat := 255]> data))
  else data.

(** [for (let i = 0; i < data.length; i += 4) { ... }], started at [i]. *)
Fixpoint snapLoop (fuel : nat) (i : nat) (data : list Z) : list Z :=
  match fuel with
  | O => data
  | S fuel' =>
      if (i <? length data)%nat then snapLoop fuel' (i + 4) (snapAt data i)
      else data
  end.

(** The near-white snap: the loop from [i = 0].  It ends after at most
    [data.length] rounds. *)
Definition nearWhiteSnap (data : list Z) : list Z :=
  snapLoop (length data) 0 data.

(** What [capturePanelScreenshot] does to the pixels [html2canvas] produced:
    only the default branch touches them, and only when the canvas has a 2d
    context. *)
Definition postProcess (profile : CaptureProfile) (has2dContext : bool)
    (data : list Z) : list Z :=
  match profile with
  | DefaultProfile => if has2dContext then nearWhiteSnap data else data
  | _ => data
  end.

(** A pixel of an RGBA buffer. *)
Definition pixelAt (data : list Z) (k : nat) : option (Z * Z * Z * Z) :=
  match data !! (4 * k)%nat, data !! (4 * k + 1)%nat,
        data !! (4 * k + 2)%nat, data !! (4 * k + 3)%nat with
  | Some r, Some g, Some b, Some a => Some (r, g, b, a)
  | _, _, _, _ => None
  end.

(** The snap of one pixel, as the specification words it. *)
Definition snapPixel (px : Z * Z * Z * Z) : Z * Z * Z * Z :=
  let '(r, g, b, a) := px in
  if (240 <? r) && (240 <? g) && (240 <? b) then (255, 255, 255, a) else px.

(** The snap applied pixel by pixel to an RGBA buffer. *)
Fixpoint snapBuffer (data : list Z) : list Z :=
  match data with
  | r :: g :: b :: a :: rest =>
      let '(r', g', b', a') := snapPixel (r, g, b, a) in
      r' :: g' :: b' :: a' :: snapBuffer rest
  | _ => data
  end.

(** ** Footers, table of contents and the data-gathering pipeline *)

(** What a footer element shows. *)
Record Footer := mkFooter {
  footer_title : string;
  footer_organization : string;
  footer_date : string;
  displayPage : Z;
  displayTotalPages : Z
}.

(** The elements handed to [capturePanelScreenshot]. *)
Inductive CaptureTarget : Type :=
| DashboardTitleElement (titleText : string)
| TimeRangeElement
| PanelElement (panel : Panel)
| DataTitleElement (dataTitle : string)
| FooterElement (footer : Footer)
| TocElement (sections : list (string * Z)).

(** The outcome of a call of [capturePanelScreenshot] on an element: a data
    URL, or the error it rethrows. *)
Class Capture := {
  capturePanelScreenshot : CaptureTarget -> Result string
}.

(** The computations of the data-gathering phase: they count the calls of
    the progress callback and may throw. *)
Definition Gather (A : Type) : Type := nat -> Result A * nat.

Definition ret {A} (a : A) : Gather A := fun ticks => (Ok a, ticks).

Definition throw {A} (e : Error) : Gather A := fun ticks => (Throw e, ticks).

Definition gbind {A B} (m : Gather A) (k : A -> Gather B) : Gather B :=
  fun ticks =>
    match m ticks with
    | (Ok a, ticks') => k a ticks'
    | (Throw e, ticks') => (Throw e, ticks')
    end.

Notation "'do' x <- m ; k" := (gbind m (fun x => k))
  (at level 10, x name, m at level 100, k at level 200).

(** [progressCallback?.()]. *)
Definition progressCallback : Gather unit := fun ticks => (Ok tt, S ticks).

(** [await this.capturePanelScreenshot(element, onProgress, ...)]: the
    callback runs in the [finally] block, whatever the outcome. *)
Definition captureWithProgress `{Capture} (target : CaptureTarget) : Gather string :=
  fun ticks => (capturePanelScreenshot target, S ticks).

(** The same without [onProgress]. *)
Definition captureSilently `{Capture} (target : CaptureTarget) : Gather string :=
  fun ticks => (capturePanelScreenshot target, ticks).

(** [try { ... } catch { return fallback }]. *)
Definition catch {A} (m : Gather A) (fallback : A) : Gather A :=
  fun ticks =>
    match m ticks with
    | (Ok a, ticks') => (Ok a, ticks')
    | (Throw _, ticks') => (Ok fallback, ticks')
    end.

(** The footer of page [page] in [createFooterImages]. *)
Definition footerOf (allowTableOfContents : bool)
    (organization title today : string) (totalPages page : Z) : Footer :=
  {| footer_title := title; footer_organization := organization;
     footer_date := today;
     displayPage := if allowTableOfContents then page else page - 1;
     displayTotalPages :=
       if allowTableOfContents then totalPages else totalPages - 1 |}.

(** [for (let page = 0; page <= totalPages; page++) { ... }]. *)
Fixpoint footerLoop `{Capture} (allowTableOfContents : bool)
    (organization title today : string) (totalPages : Z)
    (fuel : nat) (page : Z) (footerImages : list string)
  : Gather (list string) :=
  match fuel with
  | O => ret footerImages
  | S fuel' =>
      if page <=? totalPages then
        do footerImage <- captureSilently
          (FooterElement
             (footerOf allowTableOfContents organization title today
                       totalPages page)) ;
        do _ <- progressCallback ;
        footerLoop allowTableOfContents organization title today totalPages
                   fuel' (page + 1) (footerImages ++ [footerImage])
      else ret footerImages
  end.

(** [createFooterImages(allowTableOfContents, organization, title,
    totalPages, progressCallback)]; [today] is
    [new Date().toLocaleDateString('de-DE')]. *)
Definition createFooterImages `{Capture} (allowTableOfContents : bool)
    (organization title today : string) (totalPages : Z)
  : Gather (list string) :=
  footerLoop allowTableOfContents organization title today totalPages
             (Z.to_nat (totalPages + 1)) 0 [].

(** The [sections] array of [generateTocItems(validPanels, totalPages)]. *)
Definition tocSections (validPanels : list (Panel * string)) (totalPages : Z)
  : list (string * Z) :=
  [("Cover Page", 1); ("Report Contents", 2)] ++
  imap (fun index validPanel =>
          (snd validPanel, 3 + Math_floor_div (Z.of_nat index + 1) 2))
       validPanels ++
  [("Appendix", totalPages)].

(** [processTableOfContents(validPanels, totalPages)]. *)
Definition processTableOfContents `{Capture}
    (validPanels : list (Panel * string)) (totalPages : Z) : Gather string :=
  catch (captureSilently (TocElement (tocSections validPanels totalPages)))
        EmptyString.

(** What the service reads from the document outside the panels. *)
Record Dashboard := mkDashboard {
  (** [document.querySelectorAll('[data-test-embeddable-id]')] *)
  panelElements : list Panel;
  (** the trimmed text of the last breadcrumb, when the element exists *)
  breadcrumb : option string;
  (** whether [.euiDatePickerRange.euiDatePickerRange--inGroup] exists *)
  datePickerRange : bool;
  (** the trimmed text of [dataSharedTimefilterDuration], when it exists *)
  timefilterDuration : option string;
  (** [new Date().toLocaleDateString('de-DE')] *)
  today : string
}.

(** [getDashboardTitleText()]. *)
Definition getDashboardTitleText (dom : Dashboard) : string :=
  or_else (breadcrumb dom) "Dashboard Report".

(** [processDashboardTitle(progressCallback)]. *)
Definition processDashboardTitle `{Capture} (dom : Dashboard)
  : Gather (string * string) :=
  let titleText := getDashboardTitleText dom in
  do dashboardTitleImage <-
    catch (captureWithProgress (DashboardTitleElement titleText)) EmptyString ;
  ret (titleText, dashboardTitleImage).

(** [captureTimeRange(progressCallback)]. *)
Definition captureTimeRange `{Capture} (dom : Dashboard) : Gather string :=
  if datePickerRange dom then captureWithProgress TimeRangeElement
  else ret EmptyString.

Module Import PanelEntries.
Import VisualizationData.

(** [createDataTitleVisualization(panelElement, panelId)]. *)
Definition createDataTitleVisualization `{Capture} (panelElement : Panel)
    (panelId : string) : Gather (option VisualizationData) :=
  let dataTitle := or_else (data_title panelElement) "[No Title]" in
  catch
    (do titleScreenshot <- captureSilently (DataTitleElement dataTitle) ;
     ret (Some {| id := String.append panelId "-title"; title := dataTitle;
                  type := "visualizationTitle"; data := titleScreenshot;
                  pageNumber := None |}))
    None.

End PanelEntries.

(** The callback of [panels.map] in [processVisualizationPanels]. *)
Definition processPanel `{Capture} (totalPanels : Z) (index : Z)
    (panelElement : Panel) : Gather (list VisualizationData) :=
  let panelId := getPanelId panelElement in
  let title := getPanelTitle panelElement in
  do screenshot <- captureWithProgress (PanelElement panelElement) ;
  do _ <- progressCallback ;
  do dataTitleViz <- createDataTitleVisualization panelElement panelId ;
  let visualizations :=
    match dataTitleViz with
    | Some viz => [viz]
    | None => []
    end ++ [createMainVisualization panelId title screenshot] in
  ret (addPageBreaks visualizations index totalPanels).

(** [processVisualizationPanels(panels, progressCallback)].  The captures
    are started together and joined by [Promise.all]; they are run here in
    array order, which gives the same array when every capture succeeds.
    When a capture fails, [Promise.all] rejects with the first rejection in
    time while the other captures go on: [runSchedule], further down, runs
    the callbacks interleaved. *)
Fixpoint processPanelsFrom `{Capture} (totalPanels : Z) (index : Z)
    (panels : list Panel) : Gather (list (list VisualizationData)) :=
  match panels with
  | [] => ret []
  | panelElement :: rest =>
      do visualizations <- processPanel totalPanels index panelElement ;
      do others <- processPanelsFrom totalPanels (index + 1) rest ;
      ret (visualizations :: others)
  end.

Definition processVisualizationPanels `{Capture} (panels : list Panel)
  : Gather (list (list VisualizationData)) :=
  processPanelsFrom (Z.of_nat (length panels)) 0 panels.

(** [assembleFinalVisualizations(...)]. *)
Definition assembleFinalVisualizations `{Capture}
    (dashboardTitleImage timeRangeImage : string)
    (panelVisualizations : list (list VisualizationData))
    (footerImages : list string) (validPanels : list (Panel * string))
    (totalPages : Z) : Gather (list VisualizationData) :=
  do tocImage <- processTableOfContents validPanels totalPages ;
  let flattened := concat panelVisualizations in
  ret ([createTocVisualization tocImage] ++
       createPageFooters footerImages ++
       [createDashboardTitleVisualization dashboardTitleImage;
        createTimeRangeVisualization timeRangeImage] ++
       flattened).

(** The [try] block of [getVisualizationData]. *)
Definition captureAll `{Capture} (allowTableOfContents : bool)
    (organization : string) (dom : Dashboard) (panels : list Panel)
  : Gather (list VisualizationData) :=
  do title <- processDashboardTitle dom ;
  let '(titleText, dashboardTitleImage) := title in
  do timeRangeImage <- captureTimeRange dom ;
  do panelVisualizations <- processVisualizationPanels panels ;
  let validPanels := validatePanels panels in
  let totalPages := calculateTotalPages (Z.of_nat (length validPanels)) in
  do footerImages <- createFooterImages allowTableOfContents organization
                    titleText (today dom) totalPages ;
  assembleFinalVisualizations dashboardTitleImage timeRangeImage
    panelVisualizations footerImages validPanels totalPages.

(** The part of the browser [getVisualizationData] changes: the inline
    styles, the toasts shown, the calls of the progress callback; and, for
    the statements below, how often [preparePanelDimensions] and the closure
    it returned have run. *)
Record PageState := mkPageState {
  styles : gmap Element Style.t;
  toasts : list string;
  progressTicks : nat;
  prepareCalls : nat;
  restoreCalls : nat
}.

Definition noValidPanels : Error :=
  mkError "No report content available. The dashboard contains only empty or unsupported visualizations."
          None.

(** [getVisualizationData(allowTableOfContents, organization,
    progressCallback)]. *)
Definition getVisualizationData `{Capture} (allowTableOfContents : bool)
    (organization : string) (dom : Dashboard) (st : PageState)
  : Result (list VisualizationData) * PageState :=
  let panels := getValidPanels (panelElements dom) in
  if Z.of_nat (length panels) =? 0 then (Throw noValidPanels, st)
  else
    let toasts1 := toasts st ++ ["PDF creation possible."] in
    (* const restoreLayout = await this.preparePanelDimensions(panels) *)
    let layout := preparePanelDimensions panels (styles st) in
    (* try { ... } *)
    let '(result, ticks) :=
      captureAll allowTableOfContents organization dom panels
                 (progressTicks st) in
    (* finally { restoreLayout(); ... } *)
    (result,
     {| styles := restoreLayout (originalStyles layout) (page layout);
        toasts := toasts1;
        progressTicks := ticks;
        prepareCalls := S (prepareCalls st);
        restoreCalls := S (restoreCalls st) |}).

(** ** Names on the cover page (information retrieval, DocumentAssembler) *)

Definition DEFAULT_TENANT_NAME : string := "Private".
Definition MAX_TENANT_NAME_LENGTH : Z := 29.

(** The name fields of the service. *)
Record Names := mkNames {
  tenantName : string;
  completeName : string;
  dashboardName : string
}.

(** The field initialisers of the class. *)
Definition initialNames : Names :=
  {| tenantName := "Organization ID"; completeName := "Organization ID";
     dashboardName := "Dashboard" |}.

(** What the information-retrieval phase reads from the document. *)
Record InfoDom := mkInfoDom {
  (** whether [document.getElementById('actionsMenu')] exists *)
  actionsMenu : bool;
  (** [textContent] of [#tenantName], when the element exists *)
  tenantNameElement : option string;
  (** [textContent] of the organization cell of the details panel *)
  organizationElement : option string;
  (** [data-title] of [.dshDashboardViewport], when both exist *)
  viewportTitle : option string;
  (** what [getDashboardTitleText()] returns *)
  breadcrumbTitle : string
}.

(** [clickElement(selector)] for the actions menu. *)
Definition clickActionsMenu (dom : InfoDom) : Result unit :=
  if actionsMenu dom then Ok tt
  else Throw (mkError "Element not found: actionsMenu" None).

(** [getElementText('tenantName', DEFAULT_TENANT_NAME, true)]: it stores
    the text in [this.tenantName], discards the result of
    [capitalizeFirstLetter] and returns the stored text. *)
Definition getElementText_tenant `{StringPrototype} (dom : InfoDom)
    (names : Names) : string * Names :=
  let text := or_else (option_map trim (tenantNameElement dom))
                      DEFAULT_TENANT_NAME in
  let names := {| tenantName := text; completeName := completeName names;
                  dashboardName := dashboardName names |} in
  let _ := capitalizeFirstLetter (tenantName names) in
  (tenantName names, names).

(** [getElementText(selector, defaultValue, false)] for the organization
    cell. *)
Definition getElementText_organization `{StringPrototype} (dom : InfoDom)
    (defaultValue : string) : string :=
  or_else (option_map trim (organizationElement dom)) defaultValue.

(** [retrieveTenantInfo(progressHandler)]. *)
Definition retrieveTenantInfo `{StringPrototype} (dom : InfoDom)
    (names : Names) : Result Names :=
  match clickActionsMenu dom with
  | Throw error =>
      Throw (mkError "Tenant information retrieval failed"
                     (Some (message error)))
  | Ok _ =>
      let '(tenant, names) := getElementText_tenant dom names in
      let capitalized := capitalizeFirstLetter tenant in
      Ok {| tenantName := capitalized; completeName := capitalized;
            dashboardName := dashboardName names |}
  end.

(** The character class [[a-zA-Z0-9äüöÄÜÖß.\s]] on code units below 256. *)
Definition allowedInName (c : ascii) : bool :=
  let n := nat_of_ascii c in
  ((97 <=? n) && (n <=? 122) || (65 <=? n) && (n <=? 90) ||
   (48 <=? n) && (n <=? 57) ||
   bool_decide (n ∈ [228; 252; 246; 196; 220; 214; 223]) ||
   (n =? 46) ||
   (9 <=? n) && (n <=? 13) || (n =? 32) || (n =? 160))%nat.

Fixpoint filterString (keep : ascii -> bool) (s : string) : string :=
  match s with
  | EmptyString => EmptyString
  | String c rest =>
      if keep c then String c (filterString keep rest)
      else filterString keep rest
  end.

(** [s.lastIndexOf(' ', fromIndex)] for [fromIndex >= 0]: the largest
    index, not above [fromIndex], that holds a space; [-1] if none. *)
Fixpoint lastIndexOfSpace_from (s : string) (i fromIndex : Z) : Z :=
  match s with
  | EmptyString => -1
  | String c rest =>
      if fromIndex <? i then -1
      else
        let later := lastIndexOfSpace_from rest (i + 1) fromIndex in
        if 0 <=? later then later
        else if Ascii.eqb c " " then i else -1
  end.

Definition lastIndexOfSpace (s : string) (fromIndex : Z) : Z :=
  lastIndexOfSpace_from s 0 fromIndex.

Definition newline : string := String (ascii_of_nat 10) EmptyString.

(** [formatOrganizationName(fullText)]. *)
Definition formatOrganizationName (fullText : string) : string :=
  let sanitized := filterString allowedInName fullText in
  if Z.of_nat (String.length sanitized) <=? MAX_TENANT_NAME_LENGTH then sanitized
  else
    let lastSpaceIndex := lastIndexOfSpace sanitized MAX_TENANT_NAME_LENGTH in
    if lastSpaceIndex =? -1 then sanitized
    else
      String.append (substring 0 (Z.to_nat lastSpaceIndex) sanitized)
        (String.append newline
           (substring (Z.to_nat lastSpaceIndex + 1)
                      (String.length sanitized - (Z.to_nat lastSpaceIndex + 1))
                      sanitized)).

(** [retrieveOrganizationNameInfo(progressHandler)]: the toggle button is
    clicked only if it exists, so this step does not throw. *)
Definition retrieveOrganizationNameInfo `{StringPrototype} (dom : InfoDom)
    (names : Names) : Names :=
  let organizationText := getElementText_organization dom (tenantName names) in
  {| tenantName := tenantName names;
     completeName := formatOrganizationName organizationText;
     dashboardName := dashboardName names |}.

(** [retrieveDashboardInfo(progressHandler)]. *)
Definition retrieveDashboardInfo (dom : InfoDom) (names : Names) : Names :=
  {| tenantName := tenantName names; completeName := completeName names;
     dashboardName :=
       match viewportTitle dom with
       | Some t => if truthy t then t else breadcrumbTitle dom
       | None => breadcrumbTitle dom
       end |}.

(** The three retrievals of [handleInformationRetrieval].  They are started
    together; each first waits on a 100 ms timer (the dashboard one after
    its body), and the timers fire in the order they were set, so the
    bodies run in this order: tenant, organization. *)
Definition handleInformationRetrieval_names `{StringPrototype}
    (dom : InfoDom) (names : Names) : Result Names :=
  let names := retrieveDashboardInfo dom names in
  match retrieveTenantInfo dom names with
  | Throw error => Throw error
  | Ok names => Ok (retrieveOrganizationNameInfo dom names)
  end.

(** [interface TextPositions]. *)
Record TextPosition := mkTextPosition { x : float; y : float; size : float }.

Record TextPositions := mkTextPositions {
  tenant_name : TextPosition;
  dashboard_name : TextPosition;
  timestamp : TextPosition
}.

(** [const mmToPoints = (mm: number) => mm * 2.83465]. *)
Definition mmToPoints (mm : float) : float := (mm * 2.83465)%float.

(** A call of [page.drawText(text, { x, y, size, color, font })]. *)
Inductive Font : Type := HelveticaBold | Helvetica.

Record DrawText := mkDrawText {
  text : string;
  at_x : float;
  at_y : float;
  font_size : float;
  font : Font
}.

(** The three [drawText] calls of [addCoverPage]; [formattedTimestamp] is
    [getFormattedTimestamp()]. *)
Definition coverPageTexts (textPositions : TextPositions) (names : Names)
    (formattedTimestamp : string) : list DrawText :=
  [ mkDrawText (completeName names)
               (mmToPoints (x (tenant_name textPositions)))
               (mmToPoints (y (tenant_name textPositions)))
               (size (tenant_name textPositions)) HelveticaBold;
    mkDrawText (dashboardName names)
               (mmToPoints (x (dashboard_name textPositions)))
               (mmToPoints (y (dashboard_name textPositions)))
               (size (dashboard_name textPositions)) HelveticaBold;
    mkDrawText formattedTimestamp
               (mmToPoints (x (timestamp textPositions)))
               (mmToPoints (y (timestamp textPositions)))
               (size (timestamp textPositions)) Helvetica ].

(** A page of a PDF document: a page copied from the template or from the
    report, with the texts drawn on it. *)
Inductive Page : Type :=
| TemplatePage (index : nat) (drawn : list DrawText)
| ReportPage (index : nat).

(** The documents [copyPages] reads from. *)
Inductive PdfSource : Type := TemplateDocument | ReportDocument.

(** The calls the service makes into pdf-lib.  Each of them can throw:
    [copyPages] on a page index the source does not have or on a page it
    cannot copy, [embedFont] on a font it cannot embed, [drawText] on a
    text the font cannot encode.  Their outcomes are parameters.  One fact
    about the library is used: [copyPages] does not succeed on an index
    outside the source document. *)
Class PdfLib := {
  (** [source.getPageCount()] *)
  pageCount : PdfSource -> nat;
  (** [mergedPdf.copyPages(source, indices)] *)
  copyPages : PdfSource -> list nat -> Result unit;
  (** [mergedPdf.embedFont(name)] *)
  embedFont : Font -> Result unit;
  (** [page.drawText(text, { x, y, size, color, font })] *)
  drawText : DrawText -> Result unit;
  copyPages_in_range : forall source indices,
    copyPages source indices = Ok tt ->
    Forall (fun index => (index < pageCount source)%nat) indices
}.

(** [addCoverPage(textPositions, mergedPdf, template)]: the first template
    page is copied and added, the two fonts are embedded ([Promise.all] of
    two calls that settle in the order they are made), and the three texts
    are drawn in order. *)
Definition addCoverPage `{PdfLib} (textPositions : TextPositions)
    (names : Names) (formattedTimestamp : string) : Result Page :=
  bind (copyPages TemplateDocument [0%nat]) (fun _ =>
  bind (embedFont HelveticaBold) (fun _ =>
  bind (embedFont Helvetica) (fun _ =>
    let texts := coverPageTexts textPositions names formattedTimestamp in
    bind (inOrder (map drawText texts)) (fun _ =>
      Ok (TemplatePage 0 texts))))).

(** [addReportPages(mergedPdf, reportDoc)]: every page of the report,
    [reportDoc.getPageIndices()], is copied and added in order. *)
Definition addReportPages `{PdfLib} : Result (list Page) :=
  let indices := seq 0 (pageCount ReportDocument) in
  bind (copyPages ReportDocument indices) (fun _ =>
    Ok (map ReportPage indices)).

(** [addFinalPage(mergedPdf, templateDoc)]: the second template page. *)
Definition addFinalPage `{PdfLib} : Result Page :=
  bind (copyPages TemplateDocument [1%nat]) (fun _ =>
    Ok (TemplatePage 1 [])).

(** [mergePdfContent(textPositions, mergedPdf, template, report)] on a new
    [mergedPdf], called without a progress callback: [addCoverPage],
    [addReportPages], [addFinalPage].  The result is the list of pages of
    [mergedPdf]; a failure leaves no merged document to save. *)
Definition mergePdfContent `{PdfLib} (textPositions : TextPositions)
    (names : Names) (formattedTimestamp : string) : Result (list Page) :=
  bind (addCoverPage textPositions names formattedTimestamp) (fun cover =>
  bind addReportPages (fun report =>
  bind addFinalPage (fun finalPage =>
    Ok ([cover] ++ report ++ [finalPage])))).

(** ** Sample collaborators and pages, for the examples *)

(** A capture that always succeeds, with the same data URL. *)
Definition steadyCapture : Capture :=
  {| capturePanelScreenshot := fun _ => Ok "data:image/png;base64,AAAA" |}.

(** A capture that fails on the footer that shows page [page], and
    succeeds elsewhere. *)
Definition footerFailingAt (page : Z) : Capture :=
  {| capturePanelScreenshot := fun target =>
       match target with
       | FooterElement f =>
           if displayPage f =? page
           then Throw (mkError "Unable to find element in cloned iframe" None)
           else Ok "data:image/png;base64,AAAA"
       | _ => Ok "data:image/png;base64,AAAA"
       end |}.

(** A capture that fails on every panel and succeeds elsewhere. *)
Definition panelFailingCapture : Capture :=
  {| capturePanelScreenshot := fun target =>
       match target with
       | PanelElement _ => Throw (mkError "Tainted canvases may not be exported" None)
       | _ => Ok "data:image/png;base64,AAAA"
       end |}.

(** An operation that takes [ms] milliseconds and ends with [outcome]. *)
Definition timedOperation (ms : Z) (outcome : Result unit) : Operation unit :=
  fun st =>
    (outcome,
     {| phaseHistory := phaseHistory st; phaseTracker := phaseTracker st;
        lastPhaseProgress := lastPhaseProgress st;
        modalHandlers := modalHandlers st; shownModals := shownModals st;
        scheduledDismissals := scheduledDismissals st; now := now st + ms |}).

(** Twelve runs of the data-gathering phase, the last one failing. *)
Definition sampleCalls : list (PhaseKey * Operation unit) :=
  map (fun ms => (data_gathering, timedOperation ms (Ok tt)))
      [100; 200; 300; 400; 500; 600; 700; 800; 900; 1000; 1100] ++
  [(data_gathering,
    timedOperation 1200 (Throw (mkError "No Dashboard selected." None)))].

(** A TSVB panel with split series: it matches the probes [tsvbMetrics] and
    [tvbSplitVis], which use the same selector. *)
Definition splitSeriesPanel : Panel :=
  {| panel_element := 3%positive;
     selectors := [".visChart"; ".tvbSplitVis"];
     grid_item := Some 1%positive; embPanel := Some 2%positive;
     data_title := Some "Requests per host"; titleText := Some "Requests";
     embeddable_id := Some "panel-7"; tvbVis_hasChildNodes := Some true;
     paragraphs := [] |}.

(** A bar chart: one probe. *)
Definition barChartPanel : Panel :=
  {| panel_element := 6%positive;
     selectors := [".visChart"; ".visAxis--y"];
     grid_item := Some 4%positive; embPanel := Some 5%positive;
     data_title := None; titleText := None;
     embeddable_id := Some "panel-8"; tvbVis_hasChildNodes := None;
     paragraphs := [] |}.

(** A markdown panel: excluded from the report. *)
Definition markdownPanel : Panel :=
  {| panel_element := 9%positive;
     selectors := [".visualization.markdownVis"];
     grid_item := Some 7%positive; embPanel := Some 8%positive;
     data_title := None; titleText := Some "Notes";
     embeddable_id := Some "panel-9"; tvbVis_hasChildNodes := None;
     paragraphs := [] |}.

(** A page where the grid items of the first two panels are laid out by the
    dashboard grid. *)
Definition samplePage : gmap Element Style.t :=
  {[ 1%positive := Style.mk "10px" "20px" "300px" "200px" "absolute" EmptyString;
     2%positive := Style.unset;
     4%positive := Style.mk "220px" "20px" "300px" "200px" "absolute" EmptyString ]}.

Definition sampleDashboard (panels : list Panel) : Dashboard :=
  {| panelElements := panels; breadcrumb := Some "Web traffic";
     datePickerRange := true; timefilterDuration := Some "Last 7 days";
     today := "2.11.2026" |}.

Definition samplePageState : PageState :=
  {| styles := samplePage; toasts := []; progressTicks := 0;
     prepareCalls := 0; restoreCalls := 0 |}.

(** A job of the shape [preparePanelDimensions] issues: a full geometry for
    the grid item, width and height for the panel body. *)
Definition wellShaped (job : LayoutJob) : Prop :=
  job_embPanelStyles job = fullSize
  /\ exists top left width height,
       job_rootStyles job = geometry top left width height.

(** What holds between the page a run of jobs started from and the layout
    it has reached, [done] being the elements written so far. *)
Definition snapshotsExact (page0 : gmap Element Style.t) (l : Layout)
    (done : list Element) : Prop :=
  (forall el, el ∉ done ->
     styleOf (page l) el = styleOf page0 el /\ originalStyles l !! el = None)
  /\ (forall el, el ∈ done ->
        exists styles,
          originalStyles l !! el = Some styles
          /\ assignStyle (styleOf (page l) el) styles = styleOf page0 el).

(** ** The entries of one panel, the pairs and the pages of the report *)

Module Import PanelShape.
Import VisualizationData.

(** The entry [createDataTitleVisualization] builds from a captured title. *)
Definition dataTitleVisualization (panelElement : Panel)
    (titleScreenshot : string) : VisualizationData :=
  {| id := String.append (getPanelId panelElement) "-title";
     title := or_else (data_title panelElement) "[No Title]";
     type := "visualizationTitle"; data := titleScreenshot;
     pageNumber := None |}.

(** What [processVisualizationPanels] yields for the panel at [index] once
    its screenshot is taken: the title entry if the title capture
    succeeded, the main entry, and the page break [addPageBreaks] adds. *)
Definition panelEntries `{Capture} (totalPanels index : Z)
    (panelElement : Panel) (screenshot : string) : list VisualizationData :=
  addPageBreaks
    (match capturePanelScreenshot
             (DataTitleElement (or_else (data_title panelElement) "[No Title]")) with
     | Ok titleScreenshot => [dataTitleVisualization panelElement titleScreenshot]
     | Throw _ => []
     end ++
     [createMainVisualization (getPanelId panelElement)
                              (getPanelTitle panelElement) screenshot])
    index totalPanels.

(** The entry [PdfDocument] puts before a visualization that has no title
    entry. *)
Definition autoTitle (viz : VisualizationData) : VisualizationData :=
  {| id := String.append "auto-title-" (id viz); type := "visualizationTitle";
     title := "Untitled Visualization"; data := EmptyString;
     pageNumber := None |}.

End PanelShape.

Definition hasType (t : string) (viz : VisualizationData) : bool :=
  String.eqb (VisualizationData.type viz) t.

(** [['visualizationTitle', 'Visualization'].includes(viz.type)]. *)
Definition isPairEntry (viz : VisualizationData) : bool :=
  hasType "visualizationTitle" viz || hasType "Visualization" viz.

(** The callback of the [forEach] that builds [pairs]: the state is
    [pairs] and [currentPair]. *)
Definition pairStep
    (state : list (list VisualizationData) * list VisualizationData)
    (viz : VisualizationData)
  : list (list VisualizationData) * list VisualizationData :=
  let '(pairs, currentPair) := state in
  if hasType "visualizationTitle" viz then
    ((if (0 <? Z.of_nat (length currentPair)) then pairs ++ [currentPair]
      else pairs),
     [viz])
  else
    let currentPair :=
      if Z.of_nat (length currentPair) =? 0 then [autoTitle viz]
      else currentPair in
    (pairs ++ [currentPair ++ [viz]], []).

(** [pairs] in [PdfDocument]. *)
Definition buildPairs (visualizations : list VisualizationData)
  : list (list VisualizationData) :=
  fst (fold_left pairStep
                 (filter (fun viz => isPairEntry viz = true) visualizations)
                 ([], [])).

(** [for (let i = 0; i < remainingPairs.length; i += itemsPerPage)
      pages.push(remainingPairs.slice(i, i + itemsPerPage))]. *)
Fixpoint pagesLoop {A} (fuel : nat) (i : nat) (remainingPairs : list A)
    (pages : list (list A)) : list (list A) :=
  match fuel with
  | O => pages
  | S fuel' =>
      if (i <? length remainingPairs)%nat then
        pagesLoop fuel' (i + 2) remainingPairs
                  (pages ++ [take 2 (drop i remainingPairs)])
      else pages
  end.

(** [pages] in [PdfDocument]: the first pair alone, then two per page. *)
Definition buildPages {A} (pairs : list A) : list (list A) :=
  match pairs with
  | [] => []
  | first :: remainingPairs =>
      pagesLoop (length remainingPairs) 0 remainingPairs [[first]]
  end.



(** The list cut into runs of two, the last run being shorter when the
    length is odd. *)
Fixpoint chunk2 {A} (l : list A) : list (list A) :=
  match l with
  | [] => []
  | [a] => [[a]]
  | a :: b :: rest => [a; b] :: chunk2 rest
  end.

(** A pair as [PdfDocument] builds them: a title entry alone (a title that
    was followed by another title), or a title entry and a visualization. *)
Definition wellFormedPair (pair : list VisualizationData) : Prop :=
  exists t,
    hasType "visualizationTitle" t = true
    /\ (pair = [t]
        \/ exists v, hasType "Visualization" v = true /\ pair = [t; v]).

(** [currentPair] between two steps: empty, or one title entry. *)
Definition pendingTitle (currentPair : list VisualizationData) : Prop :=
  currentPair = []
  \/ exists t, currentPair = [t] /\ hasType "visualizationTitle" t = true.




(** An operation that always succeeds, or always throws [e]. *)
Definition alwaysSucceeds {T} (operation : Operation T) : Prop :=
  forall st, exists result st', operation st = (Ok result, st').

Definition alwaysThrows {T} (operation : Operation T) (e : Error) : Prop :=
  forall st, exists st', operation st = (Throw e, st').

(** A data collection that takes [ms] milliseconds, and handlers for the
    two phases after it. *)
Definition timedCollection (ms : Z) (outcome : Result (list VisualizationData))
  : Operation (list VisualizationData) :=
  fun st =>
    (outcome,
     {| phaseHistory := phaseHistory st; phaseTracker := phaseTracker st;
        lastPhaseProgress := lastPhaseProgress st;
        modalHandlers := modalHandlers st; shownModals := shownModals st;
        scheduledDismissals := scheduledDismissals st; now := now st + ms |}).

(** ** The capture of one element, step by step *)

(** What [capturePanelScreenshot] changes in the document: the inline
    visibility of the captured element, the clones attached to
    [document.body], and the calls of [onProgress].  Nodes are numbered in
    the order [cloneNode] creates them. *)
Record CaptureDom := mkCaptureDom {
  elementVisibility : string;
  bodyChildren : list positive;
  nextNode : positive;
  onProgressCalls : nat
}.

(** The canvas [html2canvas] resolves with. *)
Record Canvas := mkCanvas {
  pixels : list Z;
  has2dContext : bool
}.

(** [document.body.removeChild(node)]. *)
Definition removeChild (node : positive) (children : list positive)
  : list positive :=
  filter (fun child => child <> node) children.

(** [capturePanelScreenshot(element, onProgress, scale, visualizationType)]
    from the [try] on, for an element that exists.  [profile] is the branch
    the structure of the element selects, [render] what [html2canvas] does
    in that branch, [toDataURL] the PNG encoder of the canvas. *)
Definition captureSteps (profile : CaptureProfile) (onProgress : bool)
    (render : Result Canvas) (toDataURL : list Z -> string)
    (dom : CaptureDom) : Result string * CaptureDom :=
  let originalVisibility := elementVisibility dom in
  (* original.style.visibility = 'hidden'; clonedElement = original.cloneNode(true) *)
  let firstClone := nextNode dom in
  (* document.body.appendChild(clonedElement) *)
  let body := bodyChildren dom ++ [firstClone] in
  let '(clonedElement, body, next) :=
    match profile with
    | ArcProfile =>
        (* clonedElement = original.cloneNode(true); appendChild;
           try { html2canvas } finally { removeChild(clonedElement);
           original.style.visibility = 'hidden' } *)
        let secondClone := Pos.succ firstClone in
        let body := body ++ [secondClone] in
        (secondClone, removeChild secondClone body, Pos.succ secondClone)
    | _ => (firstClone, body, Pos.succ firstClone)
    end in
  let result :=
    match render with
    | Ok canvas =>
        Ok (toDataURL (postProcess profile (has2dContext canvas) (pixels canvas)))
    | Throw error => Throw error
    end in
  (* finally { cleanupCaptureElements(...); onProgress?.() } *)
  let body :=
    if bool_decide (clonedElement ∈ body) then removeChild clonedElement body
    else body in
  (result,
   {| elementVisibility := originalVisibility;
      bodyChildren := body;
      nextNode := next;
      onProgressCalls :=
        if onProgress then S (onProgressCalls dom) else onProgressCalls dom |}).

(** Every attached clone was created before the next node. *)
Definition nodesKnown (dom : CaptureDom) : Prop :=
  Forall (fun child => (child < nextNode dom)%positive) (bodyChildren dom).

(** ** The asset service *)

(** [class AssetService]: the two caches.  [null] is [None]. *)
Record AssetService := mkAssetService {
  logoCache : option string;
  templateCache : option string;
  (** the GET requests sent so far, oldest first *)
  requests : list string
}.

(** [getLogo()]: [response] is what the GET request resolves or rejects
    with, should one be sent. *)
Definition getLogo (response : Result string) (service : AssetService)
  : Result string * AssetService :=
  match logoCache service with
  | Some cached =>
      if truthy cached then (Ok cached, service)
      else
        let sent := requests service ++ ["/api/canvas_report_data_analyzer/assets/logo"] in
        match response with
        | Ok data => (Ok data, mkAssetService (Some data) (templateCache service) sent)
        | Throw error =>
            (Throw (mkError (String.append "Failed to fetch logo: " (message error)) None),
             mkAssetService (logoCache service) (templateCache service) sent)
        end
  | None =>
      let sent := requests service ++ ["/api/canvas_report_data_analyzer/assets/logo"] in
      match response with
      | Ok data => (Ok data, mkAssetService (Some data) (templateCache service) sent)
      | Throw error =>
          (Throw (mkError (String.append "Failed to fetch logo: " (message error)) None),
           mkAssetService (logoCache service) (templateCache service) sent)
      end
  end.

(** [clearCache()]. *)
Definition clearCache (service : AssetService) : AssetService :=
  mkAssetService None None (requests service).

(** The calls [mergePdfContent] makes into pdf-lib, in the order it makes
    them. *)
Definition pdfLibCalls `{PdfLib} (textPositions : TextPositions)
    (names : Names) (formattedTimestamp : string) : list (Result unit) :=
  [copyPages TemplateDocument [0%nat]; embedFont HelveticaBold;
   embedFont Helvetica]
  ++ map drawText (coverPageTexts textPositions names formattedTimestamp)
  ++ [copyPages ReportDocument (seq 0 (pageCount ReportDocument));
      copyPages TemplateDocument [1%nat]].

(** A pdf-lib whose template has [templatePages] pages and whose report has
    [reportPages]: it copies the pages a document has, embeds both fonts,
    and draws the texts made of 7-bit characters only. *)
Definition samplePdfLib (templatePages reportPages : nat) : PdfLib.
Proof.
  refine {|
    pageCount := fun source =>
      match source with
      | TemplateDocument => templatePages
      | ReportDocument => reportPages
      end;
    copyPages := fun source indices =>
      if forallb (fun index =>
                    (index <? match source with
                              | TemplateDocument => templatePages
                              | ReportDocument => reportPages
                              end)%nat) indices
      then Ok tt
      else Throw (mkError "Cannot copy a page the document does not have" None);
    embedFont := fun _ => Ok tt;
    drawText := fun call =>
      if forallb (fun c => (nat_of_ascii c <? 128)%nat)
                 (list_ascii_of_string (text call))
      then Ok tt
      else Throw (mkError "WinAnsi cannot encode the text" None)
  |}.
  intros source indices Hcopy.
  destruct (forallb _ indices) eqn:Hall; [|discriminate].
  apply Forall_forall. intros index Hin.
  rewrite forallb_forall in Hall.
  apply Nat.ltb_lt, Hall. now apply list_elem_of_In.
Defined.

(** ** The panel captures as [Promise.all] runs them *)

(** [processVisualizationPanels] starts the callback of [panels.map] for
    every panel before any of them has finished.  Each callback waits three
    times inside [capturePanelScreenshot] (for the [html2canvas] module,
    for the 500 ms timer, for [html2canvas] itself) and then for the
    capture of its title; the waits of the title capture touch only the
    temporary title element and count as one.  A [PanelTask] says which
    wait the callback of one panel has reached. *)
Inductive PanelTask : Type :=
| AwaitingImport
| AwaitingTimer (originalVisibility : string)
| AwaitingCanvas (originalVisibility : string)
| AwaitingTitle (screenshot : string)
| Fulfilled (visualizations : list VisualizationData)
| Rejected (error : Error).

(** [original.style.visibility = value]. *)
Definition visibilityOnly (value : string) : OriginalStyles.t :=
  {| OriginalStyles.top := None; OriginalStyles.left := None;
     OriginalStyles.width := None; OriginalStyles.height := None;
     OriginalStyles.position := None;
     OriginalStyles.visibility := Some value |}.

Definition setVisibility (element : Element) (value : string)
    (page : gmap Element Style.t) : gmap Element Style.t :=
  assignTo element (visibilityOnly value) page.

(** The callback of [panels.map] from one wait to the next. *)
Definition resumePanel `{Capture} (totalPanels index : Z) (panel : Panel)
    (task : PanelTask) (page : gmap Element Style.t) (ticks : nat)
  : PanelTask * gmap Element Style.t * nat :=
  match task with
  | AwaitingImport =>
      (* originalVisibility = original.style.visibility;
         original.style.visibility = 'hidden'; ...
         await new Promise(resolve => setTimeout(resolve, 500)) *)
      (AwaitingTimer (Style.visibility (styleOf page (panel_element panel))),
       setVisibility (panel_element panel) "hidden" page, ticks)
  | AwaitingTimer originalVisibility =>
      (* canvas = await html2canvas(clonedElement, ...) *)
      (AwaitingCanvas originalVisibility, page, ticks)
  | AwaitingCanvas originalVisibility =>
      (* finally { cleanupCaptureElements(...); onProgress?.() } *)
      let page := setVisibility (panel_element panel) originalVisibility page in
      match capturePanelScreenshot (PanelElement panel) with
      | Throw error => (Rejected error, page, S ticks)
      | Ok screenshot =>
          (* progressCallback?.();
             await this.createDataTitleVisualization(panelElement, panelId) *)
          (AwaitingTitle screenshot, page, S (S ticks))
      end
  | AwaitingTitle screenshot =>
      let panelId := getPanelId panel in
      let title := getPanelTitle panel in
      match createDataTitleVisualization panel panelId ticks with
      | (Ok dataTitleViz, ticks) =>
          let visualizations :=
            match dataTitleViz with
            | Some viz => [viz]
            | None => []
            end ++ [createMainVisualization panelId title screenshot] in
          (Fulfilled (addPageBreaks visualizations index totalPanels),
           page, ticks)
      | (Throw error, ticks) => (Rejected error, page, ticks)
      end
  | Fulfilled _ | Rejected _ => (task, page, ticks)
  end.

(** The callbacks of one call of [processVisualizationPanels], the page
    and the progress count they share, and the promise [Promise.all]
    returned: pending ([None]), fulfilled or rejected. *)
Record Batch := mkBatch {
  batch_page : gmap Element Style.t;
  batch_ticks : nat;
  batch_tasks : list PanelTask;
  batch_promise : option (Result (list (list VisualizationData)))
}.

Definition fulfilled (task : PanelTask) : option (list VisualizationData) :=
  match task with
  | Fulfilled visualizations => Some visualizations
  | _ => None
  end.

(** [Promise.all] after the callback that became [task] has moved: it
    rejects with the first rejection, fulfils with the array of results
    once every callback has fulfilled, and never changes once settled. *)
Definition settle (task : PanelTask) (tasks : list PanelTask)
    (promise : option (Result (list (list VisualizationData))))
  : option (Result (list (list VisualizationData))) :=
  match promise with
  | Some outcome => Some outcome
  | None =>
      match task with
      | Rejected error => Some (Throw error)
      | _ => Ok <$> mapM fulfilled tasks
      end
  end.

(** [panels.map(async (panelElement, index) => ...)] up to the first wait
    of every callback, and [Promise.all] of the promises. *)
Definition startBatch (panels : list Panel) (page : gmap Element Style.t)
    (ticks : nat) : Batch :=
  {| batch_page := page; batch_ticks := ticks;
     batch_tasks := map (fun _ => AwaitingImport) panels;
     batch_promise := match panels with
                      | [] => Some (Ok [])
                      | _ => None
                      end |}.

(** The wait of the callback of panel [i] ends. *)
Definition resume `{Capture} (panels : list Panel) (i : nat) (b : Batch)
  : Batch :=
  match panels !! i, batch_tasks b !! i with
  | Some panel, Some task =>
      let '(task', page, ticks) :=
        resumePanel (Z.of_nat (length panels)) (Z.of_nat i) panel task
                    (batch_page b) (batch_ticks b) in
      let tasks := <[i := task']> (batch_tasks b) in
      {| batch_page := page; batch_ticks := ticks; batch_tasks := tasks;
         batch_promise := settle task' tasks (batch_promise b) |}
  | _, _ => b
  end.

(** A schedule is the order in which the browser ends the waits: the index
    of the panel whose callback runs next, step by step. *)
Definition runSchedule `{Capture} (panels : list Panel) (schedule : list nat)
    (b : Batch) : Batch :=
  fold_left (fun b i => resume panels i b) schedule b.

Definition withPage (page : gmap Element Style.t) (b : Batch) : Batch :=
  {| batch_page := page; batch_ticks := batch_ticks b;
     batch_tasks := batch_tasks b; batch_promise := batch_promise b |}.

(** [getVisualizationData] with the panel captures interleaved.
    [beforeFinally] are the waits that end until the [finally] block is
    entered, [duringFinally] those that end during its 100 ms.  The result
    is [None] when [Promise.all] has not settled after [beforeFinally];
    otherwise it is what [getVisualizationData] returns or throws, the page
    at that moment, and the callbacks, some of which may not have
    finished. *)
Definition getVisualizationData_scheduled `{Capture}
    (allowTableOfContents : bool) (organization : string) (dom : Dashboard)
    (beforeFinally duringFinally : list nat) (st : PageState)
  : option (Result (list VisualizationData) * PageState * list PanelTask) :=
  let panels := getValidPanels (panelElements dom) in
  if Z.of_nat (length panels) =? 0 then Some (Throw noValidPanels, st, [])
  else
    let toasts1 := toasts st ++ ["PDF creation possible."] in
    (* const restoreLayout = await this.preparePanelDimensions(panels) *)
    let layout := preparePanelDimensions panels (styles st) in
    (* try { ... } *)
    let attempt :=
      match (do title <- processDashboardTitle dom ;
             do timeRangeImage <- captureTimeRange dom ;
             ret (title, timeRangeImage)) (progressTicks st) with
      | (Throw error, ticks) =>
          Some (Throw error, mkBatch (page layout) ticks [] None)
      | (Ok ((titleText, dashboardTitleImage), timeRangeImage), ticks) =>
          let b := runSchedule panels beforeFinally
                     (startBatch panels (page layout) ticks) in
          match batch_promise b with
          | None => None
          | Some (Throw error) => Some (Throw error, b)
          | Some (Ok panelVisualizations) =>
              let validPanels := validatePanels panels in
              let totalPages :=
                calculateTotalPages (Z.of_nat (length validPanels)) in
              let '(result, ticks) :=
                (do footerImages <-
                   createFooterImages allowTableOfContents organization
                     titleText (today dom) totalPages ;
                 assembleFinalVisualizations dashboardTitleImage
                   timeRangeImage panelVisualizations footerImages
                   validPanels totalPages) (batch_ticks b) in
              Some (result,
                    mkBatch (batch_page b) ticks (batch_tasks b)
                            (batch_promise b))
          end
      end in
    match attempt with
    | None => None
    | Some (result, b) =>
        (* finally { restoreLayout();
                     await new Promise(resolve => setTimeout(resolve, 100)) } *)
        let b := runSchedule panels duringFinally
                   (withPage (restoreLayout (originalStyles layout)
                                            (batch_page b)) b) in
        Some (result,
              {| styles := batch_page b; toasts := toasts1;
                 progressTicks := batch_ticks b;
                 prepareCalls := S (prepareCalls st);
                 restoreCalls := S (restoreCalls st) |},
              batch_tasks b)
    end.

(** The callbacks still to finish when [getVisualizationData] has thrown
    [error]. *)
Definition leftRunning (error : Error) (st : PageState)
    (tasks : list PanelTask) : Batch :=
  mkBatch (styles st) (progressTicks st) tasks (Some (Throw error)).

(** The grid items [preparePanelDimensions] writes to. *)
Definition gridItems (panels : list Panel) : list Element :=
  omap (fun job => grid_item (job_panel job)) (layoutJobs panels).

(** A callback that has returned or thrown. *)
Definition finished (task : PanelTask) : Prop :=
  match task with
  | Fulfilled _ | Rejected _ => True
  | _ => False
  end.

(** A schedule that lets every callback run to its end: the callback of
    every panel is resumed four times or more. *)
Definition completeSchedule (panels : list Panel) (schedule : list nat)
  : Prop :=
  forall i, (i < length panels)%nat ->
            (4 <= length (filter (fun j => j = i) schedule))%nat.

(** What holds of a callback between two steps, [base] being the page
    without the visibility the running captures have set. *)
Definition taskState `{Capture} (totalPanels : Z)
    (base page : gmap Element Style.t) (i : nat) (panel : Panel)
    (task : PanelTask) : Prop :=
  let element := panel_element panel in
  match task with
  | AwaitingImport => styleOf page element = styleOf base element
  | AwaitingTimer v | AwaitingCanvas v =>
      v = Style.visibility (styleOf base element)
      /\ styleOf page element
         = assignStyle (styleOf base element) (visibilityOnly "hidden")
  | AwaitingTitle screenshot =>
      styleOf page element = styleOf base element
      /\ capturePanelScreenshot (PanelElement panel) = Ok screenshot
  | Fulfilled visualizations =>
      styleOf page element = styleOf base element
      /\ exists screenshot,
           capturePanelScreenshot (PanelElement panel) = Ok screenshot
           /\ visualizations
              = panelEntries totalPanels (Z.of_nat i) panel screenshot
  | Rejected error =>
      styleOf page element = styleOf base element
      /\ capturePanelScreenshot (PanelElement panel) = Throw error
  end.

(** The calls of the progress callback a callback has made. *)
Definition ticksOf (task : PanelTask) : nat :=
  match task with
  | AwaitingTitle _ | Fulfilled _ => 2
  | Rejected _ => 1
  | _ => 0
  end.

Definition batchInvariant `{Capture} (panels : list Panel)
    (base : gmap Element Style.t) (ticks0 : nat) (b : Batch) : Prop :=
  length (batch_tasks b) = length panels
  /\ (forall i panel task,
        panels !! i = Some panel -> batch_tasks b !! i = Some task ->
        taskState (Z.of_nat (length panels)) base (batch_page b) i panel task)
  /\ (forall el, el ∉ panel_element <$> panels ->
                 styleOf (batch_page b) el = styleOf base el)
  /\ batch_ticks b = (ticks0 + sum_list (map ticksOf (batch_tasks b)))%nat
  /\ match batch_promise b with
     | None =>
         Forall (fun task => forall e, task <> Rejected e) (batch_tasks b)
         /\ mapM fulfilled (batch_tasks b) = None
     | Some (Ok visualizations) =>
         mapM fulfilled (batch_tasks b) = Some visualizations
     | Some (Throw e) =>
         exists panel,
           panel ∈ panels
           /\ capturePanelScreenshot (PanelElement panel) = Throw e
     end.

(** How far a callback has come: the waits it has behind it. *)
Definition stage (task : PanelTask) : nat :=
  match task with
  | AwaitingImport => 0
  | AwaitingTimer _ => 1
  | AwaitingCanvas _ => 2
  | AwaitingTitle _ => 3
  | Fulfilled _ | Rejected _ => 4
  end.

(** A callback whose capture of the panel has hidden the panel and has not
    yet put its visibility back. *)
Definition capturing (task : PanelTask) : Prop :=
  match task with
  | AwaitingTimer _ | AwaitingCanvas _ => True
  | _ => False
  end.

(** A capture that fails on the panel whose element is [element], and
    succeeds elsewhere. *)
Definition failingOnPanel (element : Element) : Capture :=
  {| capturePanelScreenshot := fun target =>
       match target with
       | PanelElement panel =>
           if decide (panel_element panel = element)
           then Throw (mkError "Tainted canvases may not be exported" None)
           else Ok "data:image/png;base64,AAAA"
       | _ => Ok "data:image/png;base64,AAAA"
       end |}.

(* ================================================================== *)
(** * Part II. Properties                                              *)
(* ================================================================== *)

(** ** Binary64 comparisons *)

Section Binary64.

Lemma SFcompare_finite_antisym s m e m' e' :
  SFcompare (S754_finite s m' e') (S754_finite s m e) =
  option_map CompOpp (SFcompare (S754_finite s m e) (S754_finite s m' e')).
Proof.
  cbv [SFcompare option_map].
  rewrite (Z.compare_antisym e e').
  destruct (e ?= e'); destruct s; cbv [CompOpp]; try reflexivity.
  all: fold (Pos.compare m m'); fold (Pos.compare m' m);
    rewrite (Pos.compare_antisym m m'); destruct (m ?= m')%positive;
    reflexivity.
Qed.

Lemma SFcompare_finite_Eq s m e m' e' :
  SFcompare (S754_finite s m e) (S754_finite s m' e') = Some Eq ->
  m = m' /\ e = e'.
Proof.
  cbv [SFcompare]. destruct (e ?= e') eqn:He; destruct s; try discriminate.
  all: fold (Pos.compare m m'); destruct (m ?= m')%positive eqn:Hm;
    try discriminate.
  all: intros _; split; [now apply Pos.compare_eq | now apply Z.compare_eq].
Qed.

Lemma SFcompare_finite_Some s m e s' m' e' :
  SFcompare (S754_finite s m e) (S754_finite s' m' e') <> None.
Proof.
  cbv [SFcompare]. destruct s, s'; try discriminate;
    destruct (e ?= e'); try discriminate;
    fold (Pos.compare m m'); destruct (m ?= m')%positive; discriminate.
Qed.

Lemma SFcompare_finite_refl s m e :
  SFcompare (S754_finite s m e) (S754_finite s m e) = Some Eq.
Proof.
  cbv [SFcompare]. rewrite Z.compare_refl. fold (Pos.compare m m).
  rewrite Pos.compare_refl. now destruct s.
Qed.

Lemma is_nan_spec (x : float) :
  PrimFloat.is_nan x =
  match Prim2SF x with S754_nan => true | _ => false end.
Proof.
  unfold is_nan. rewrite FloatAxioms.eqb_spec.
  destruct (Prim2SF x) as [s|s| |s m e]; try reflexivity.
  - now destruct s.
  - unfold SFeqb. now rewrite SFcompare_finite_refl.
Qed.

(** [Math.max(0, x)] and [Math.min(1, y)] as case distinctions. *)
Lemma Math_max_zero (x : float) :
  Math_max 0 x =
  if PrimFloat.is_nan x then PrimFloat.nan
  else if PrimFloat.ltb 0 x then x else 0%float.
Proof.
  unfold Math_max.
  change (PrimFloat.is_nan 0) with false. cbn [orb].
  destruct (PrimFloat.is_nan x); [reflexivity|].
  change (max_step neg_infinity 0) with 0%float.
  unfold max_step. change (classify 0) with PZero.
  destruct (classify x); reflexivity.
Qed.

Lemma Math_min_one (y : float) :
  Math_min 1 y =
  if PrimFloat.is_nan y then PrimFloat.nan
  else if PrimFloat.ltb y 1 then y else 1%float.
Proof.
  unfold Math_min.
  change (PrimFloat.is_nan 1) with false. cbn [orb].
  destruct (PrimFloat.is_nan y); [reflexivity|].
  change (min_step infinity 1) with 1%float.
  unfold min_step. change (classify 1) with PNormal.
  destruct (classify y); reflexivity.
Qed.

(** The service's clamp is the textbook one, except that it turns [-0]
    into [+0]. *)
Lemma Math_min_max_clamp (x : float) :
  classify x <> NZero ->
  Math_min 1 (Math_max 0 x) = clamp 0 1 x.
Proof.
  intros Hnz. rewrite Math_min_one, Math_max_zero. unfold clamp.
  rewrite classify_spec in Hnz.
  pose proof (is_nan_spec x) as Hn.
  pose proof (FloatAxioms.ltb_spec 0 x) as H0x.
  pose proof (FloatAxioms.ltb_spec x 0) as Hx0.
  pose proof (FloatAxioms.ltb_spec 1 x) as H1x.
  pose proof (FloatAxioms.ltb_spec x 1) as Hx1.
  change (Prim2SF 0) with (S754_zero false) in *.
  set (one := Prim2SF 1) in *.
  destruct (Prim2SF x) as [s|s| |s m e] eqn:Hx.
  - destruct s; [exfalso; apply Hnz; reflexivity|].
    assert (x = 0%float) as -> by (apply Prim2SF_inj; rewrite Hx; reflexivity).
    reflexivity.
  - subst one.
    destruct s; rewrite Hn, H0x; cbv [SFltb SFcompare];
      rewrite ?Hx0, ?Hn, ?Hx1, ?H1x; reflexivity.
  - assert (x = nan) as -> by (apply Prim2SF_inj; rewrite Hx; reflexivity).
    reflexivity.
  - destruct s; cbn in Hn, H0x, Hx0; rewrite Hn, H0x, Hx0; [reflexivity|].
    rewrite Hn, Hx1, H1x. unfold SFltb.
    change one with (S754_finite false 4503599627370496 (-52)).
    rewrite (SFcompare_finite_antisym false m e).
    destruct (SFcompare (S754_finite false m e) _) as [[ | | ]|] eqn:Hc;
      cbv [option_map CompOpp]; try reflexivity.
    + apply SFcompare_finite_Eq in Hc as [-> ->].
      symmetry. apply Prim2SF_inj. exact Hx.
    + now apply SFcompare_finite_Some in Hc.
Qed.

Lemma Math_min_max_neg_zero (x : float) :
  classify x = NZero -> x = (-0)%float.
Proof.
  rewrite classify_spec. intros H. apply Prim2SF_inj.
  destruct (Prim2SF x) as [s|s| |s m e] eqn:Hx.
  - destruct s; [reflexivity | discriminate].
  - destruct s; discriminate.
  - discriminate.
  - exfalso. revert H. unfold SF64classify, SFclassify.
    destruct s;
      repeat match goal with
             | |- context [if ?c then _ else _] => destruct c
             end; discriminate.
Qed.

Lemma clamp_idempotent (x : float) :
  clamp 0 1 (clamp 0 1 x) = clamp 0 1 x.
Proof.
  unfold clamp.
  destruct (PrimFloat.ltb x 0) eqn:Hx0; [reflexivity|].
  destruct (PrimFloat.ltb 1 x) eqn:H1x; [reflexivity|].
  now rewrite Hx0, H1x.
Qed.

End Binary64.

(** ** Progress *)

Lemma calculateProgress_unfold (p : PhaseKey) (x : float) :
  calculateProgress p x =
  Math_round ((accumulated_before p
               + PHASE_CONFIG p * Math_min 1 (Math_max 0 x)) * 100)%float.
Proof. destruct p; reflexivity. Qed.

Lemma calculateProgress_clamp (p : PhaseKey) (x : float) :
  calculateProgress p x =
  Math_round ((accumulated_before p + PHASE_CONFIG p * clamp 0 1 x) * 100)%float.
Proof.
  rewrite calculateProgress_unfold.
  destruct (classify x) eqn:Hc;
    try (rewrite Math_min_max_clamp; [reflexivity | rewrite Hc; discriminate]).
  apply Math_min_max_neg_zero in Hc. subst x.
  destruct p; vm_compute; reflexivity.
Qed.

(** C1, as stated, fails on the numbers of the code.  Summed as the code
    sums them, the five binary64 weights give [1.0000000000000002], not 1.
    And the formula read on exact numbers is not what the code returns: at
    the double [0.3] (exactly [5404319552844595 / 2^54]) in the
    data-gathering phase the exact value is just below 24.5 and rounds to
    24, while the code, rounding after each binary64 operation, returns
    25. *)
Lemma calculateProgress_binary64_rounding :
  fold_left (fun sum q => (sum + PHASE_CONFIG q)%float) phaseKeys 0%float
  <> 1%float
  /\ exact_value 0.3 = Some (5404319552844595 # 18014398509481984)%Q
  /\ spec_calculateProgress data_gathering
       (5404319552844595 # 18014398509481984) = 24
  /\ calculateProgress data_gathering 0.3 = 25%float
  /\ calculateProgress data_gathering 0.3 <> Z2float 24.
Proof.
  split; [|split; [|split; [|split]]]; try (vm_compute; reflexivity).
  - intros Hsum.
    apply (f_equal (fun x => PrimFloat.eqb x 1)) in Hsum.
    vm_compute in Hsum. discriminate.
  - intros Hsame.
    apply (f_equal (fun x => PrimFloat.eqb x 25)) in Hsame.
    vm_compute in Hsame. discriminate.
Qed.

(** C1 (amended). For every phase and every binary64 progress ratio,
    [calculateProgress] returns
    [round ((accumulated + weight * clamp (ratio, 0, 1)) * 100)] with the
    sums and products taken in binary64 arithmetic, where [accumulated]
    sums the weights of the phases strictly before the phase in enum
    order.  The weights are the doubles nearest to 0.05, 0.65, 0.20, 0.05
    and 0.05, decimals that sum to exactly 1; the binary64 sum of the five
    weights is [1.0000000000000002].  At ratio 1 the result is the rounded
    cumulative weight through the phase (5, 70, 90, 95 and 100), and a
    ratio outside [0,1] gives the result of its clamped value. *)
Theorem calculateProgress_weighted_formula :
  (forall p x,
     calculateProgress p x =
     Math_round ((accumulated_before p + PHASE_CONFIG p * clamp 0 1 x) * 100)%float)
  /\ (forall p, PHASE_CONFIG p = (Z2float (PHASE_CONFIG_percent p) / 100)%float)
  /\ fold_left (fun sum q => sum + PHASE_CONFIG_percent q) phaseKeys 0 = 100
  /\ fold_left (fun sum q => (sum + PHASE_CONFIG q)%float) phaseKeys 0%float
     = 1.0000000000000002%float
  /\ (forall p,
        calculateProgress p 1 = Math_round (cumulative_through p * 100)%float
        /\ calculateProgress p 1 = Z2float (cumulative_percent p))
  /\ (forall p x, calculateProgress p x = calculateProgress p (clamp 0 1 x))
  /\ (forall p, calculateProgress p (-0.5) = calculateProgress p 0
             /\ calculateProgress p 1.5 = calculateProgress p 1).
Proof.
  split; [exact calculateProgress_clamp|].
  split; [intros []; vm_compute; reflexivity|].
  split; [reflexivity|].
  split; [vm_compute; reflexivity|].
  split; [intros []; split; vm_compute; reflexivity|].
  split.
  - intros p x. rewrite (calculateProgress_clamp p (clamp 0 1 x)).
    rewrite clamp_idempotent. apply calculateProgress_clamp.
  - intros []; split; vm_compute; reflexivity.
Qed.

(** ** Page arithmetic *)

Lemma Math_ceil_div_2_is_ceiling (a : Z) : is_ceiling a 2 (Math_ceil_div a 2).
Proof.
  unfold is_ceiling, Math_ceil_div.
  pose proof (Z.div_mod (- a) 2 ltac:(lia)).
  pose proof (Z.mod_pos_bound (- a) 2 ltac:(lia)).
  lia.
Qed.

Lemma is_ceiling_unique (a b c c' : Z) :
  0 < b -> is_ceiling a b c -> is_ceiling a b c' -> c = c'.
Proof. unfold is_ceiling. intros Hb [H1 H2] [H3 H4]. nia. Qed.

(** C2 (amended). For every panel count [N >= 0], [calculateTotalPages N] is
    [3 + contentPages], where [contentPages] is 0 when [N = 0] and
    [1 + ceil ((N - 1) / 2)] otherwise; concretely 0, 1, 2, 3, 4 and 5
    panels give 3, 4, 5, 5, 6 and 6 pages. *)
Theorem calculateTotalPages_formula (N : Z) :
  0 <= N ->
  (exists contentPages,
      calculateTotalPages N = 3 + contentPages
      /\ (N = 0 -> contentPages = 0)
      /\ (0 < N ->
          exists c, is_ceiling (N - 1) 2 c /\ contentPages = 1 + c))
  /\ map calculateTotalPages [0; 1; 2; 3; 4; 5] = [3; 4; 5; 5; 6; 6].
Proof.
  intros HN. split; [|reflexivity].
  unfold calculateTotalPages.
  destruct (0 <? N) eqn:Hpos.
  - apply Z.ltb_lt in Hpos.
    exists (1 + Math_ceil_div (N - 1) 2). split; [reflexivity|].
    split; [lia|]. intros _.
    exists (Math_ceil_div (N - 1) 2). split; [|reflexivity].
    apply Math_ceil_div_2_is_ceiling.
  - apply Z.ltb_ge in Hpos.
    exists 0. split; [reflexivity|]. split; [reflexivity|lia].
Qed.

Lemma calculateTotalPages_formula_witness :
  0 <= 5 /\
  ((exists contentPages,
      calculateTotalPages 5 = 3 + contentPages
      /\ (5 = 0 -> contentPages = 0)
      /\ (0 < 5 ->
          exists c, is_ceiling (5 - 1) 2 c /\ contentPages = 1 + c))
   /\ map calculateTotalPages [0; 1; 2; 3; 4; 5] = [3; 4; 5; 5; 6; 6]).
Proof. split; [lia | apply (calculateTotalPages_formula 5); lia]. Defined.

(** C2 as stated fails: two panels give five pages (one on the first
    content page, one on the second), not four. *)
Lemma calculateTotalPages_two_panels :
  calculateTotalPages 2 = 5 /\ calculateTotalPages 2 <> 4.
Proof. split; [reflexivity | discriminate]. Qed.

(** ** Footers *)

Section Footers.
Context `{Capture}.
Variables (allowTableOfContents : bool) (organization title today : string).
Variable totalPages : Z.

Local Abbreviation footer page :=
  (FooterElement
     (footerOf allowTableOfContents organization title today totalPages page)).

Local Abbreviation loop :=
  (footerLoop allowTableOfContents organization title today totalPages).

(** While the captures succeed the loop appends one image per page and
    calls the progress callback once per page; it stops on its own test,
    whatever fuel is left. *)
Lemma footerLoop_succeeds (n extra : nat) :
  forall (page : Z) (acc : list string) (ticks : nat),
    page + Z.of_nat n = totalPages + 1 ->
    (forall k, page <= k <= totalPages ->
               exists img, capturePanelScreenshot (footer k) = Ok img) ->
    exists images,
      loop (n + extra)%nat page acc ticks = (Ok (acc ++ images), (ticks + n)%nat)
      /\ length images = n
      /\ forall (j : nat) img,
           (j < n)%nat ->
           capturePanelScreenshot (footer (page + Z.of_nat j)) = Ok img ->
           images !! j = Some img.
Proof.
  induction n as [|n IH]; intros page acc ticks Hpage Hok.
  - exists []. rewrite app_nil_r, Nat.add_0_r. split; [|split; [reflexivity|lia]].
    destruct extra as [|extra']; [reflexivity|].
    cbn. replace (page <=? totalPages) with false by (symmetry; lia).
    reflexivity.
  - destruct (Hok page ltac:(lia)) as [img Himg].
    destruct (IH (page + 1) (acc ++ [img]) (S ticks) ltac:(lia)) as
      (images & Hrun & Hlen & Hnth).
    { intros k Hk. apply Hok. lia. }
    exists (img :: images). split; [|split].
    + cbn. replace (page <=? totalPages) with true by (symmetry; lia).
      unfold gbind, captureSilently, progressCallback.
      rewrite Himg. rewrite Hrun.
      rewrite <- app_assoc. f_equal. lia.
    + cbn. now rewrite Hlen.
    + intros [|j] img' Hj Hcap.
      * rewrite Z.add_0_r in Hcap. cbn. congruence.
      * cbn. apply Hnth; [lia|].
        replace (page + 1 + Z.of_nat j) with (page + Z.of_nat (S j)) by lia.
        exact Hcap.
Qed.

(** The first capture that fails ends the loop with its error; the
    progress callback has run once for every page before it. *)
Lemma footerLoop_fails (n extra : nat) :
  forall (page : Z) (acc : list string) (ticks : nat) failing e,
    page + Z.of_nat n = failing ->
    failing <= totalPages ->
    (forall k, page <= k < failing ->
               exists img, capturePanelScreenshot (footer k) = Ok img) ->
    capturePanelScreenshot (footer failing) = Throw e ->
    loop (S n + extra)%nat page acc ticks = (Throw e, (ticks + n)%nat).
Proof.
  induction n as [|n IH]; intros page acc ticks failing e Hpage Hle Hok Hfail.
  - assert (page = failing) as -> by lia.
    cbn. replace (failing <=? totalPages) with true by (symmetry; lia).
    unfold gbind, captureSilently. rewrite Hfail.
    f_equal. lia.
  - destruct (Hok page ltac:(lia)) as [img Himg].
    change (S (S n) + extra)%nat with (S (S n + extra))%nat.
    cbn [footerLoop].
    replace (page <=? totalPages) with true by (symmetry; lia).
    unfold gbind at 1 2, captureSilently, progressCallback.
    rewrite Himg.
    assert (Hstep : page + 1 + Z.of_nat n = failing) by lia.
    assert (Hok' : forall k, page + 1 <= k < failing ->
              exists img, capturePanelScreenshot (footer k) = Ok img)
      by (intros k Hk; apply Hok; lia).
    rewrite (IH (page + 1) (acc ++ [img]) (S ticks) failing e Hstep Hle Hok' Hfail).
    f_equal. lia.
Qed.

End Footers.

(** C3 (amended). For every [totalPages >= 0], when no footer capture fails,
    [createFooterImages] produces one footer image for every page index
    from 0 to [totalPages] inclusive, in page order: [totalPages + 1]
    entries in total.  The loop ends on its own test. *)
Theorem createFooterImages_one_per_page `{Capture}
    (allowTableOfContents : bool) (organization title today : string)
    (totalPages : Z) (ticks : nat) :
  0 <= totalPages ->
  (forall page, 0 <= page <= totalPages ->
     exists img,
       capturePanelScreenshot
         (FooterElement (footerOf allowTableOfContents organization title
                                  today totalPages page)) = Ok img) ->
  exists footerImages,
    createFooterImages allowTableOfContents organization title today
                       totalPages ticks
    = (Ok footerImages, (ticks + Z.to_nat (totalPages + 1))%nat)
    /\ Z.of_nat (length footerImages) = totalPages + 1
    /\ (forall page img,
          0 <= page <= totalPages ->
          capturePanelScreenshot
            (FooterElement (footerOf allowTableOfContents organization title
                                     today totalPages page)) = Ok img ->
          footerImages !! Z.to_nat page = Some img)
    /\ (forall extra,
          footerLoop allowTableOfContents organization title today totalPages
                     (Z.to_nat (totalPages + 1) + extra) 0 [] ticks
          = createFooterImages allowTableOfContents organization title today
                               totalPages ticks).
Proof.
  intros Hpos Hok. unfold createFooterImages.
  destruct (footerLoop_succeeds allowTableOfContents organization title today
              totalPages (Z.to_nat (totalPages + 1)) 0 0 [] ticks)
    as (images & Hrun & Hlen & Hnth); [lia | exact Hok |].
  rewrite Nat.add_0_r in Hrun.
  exists images. split; [exact Hrun|]. split; [lia|]. split.
  - intros page img Hpage Hcap. apply Hnth; [lia|].
    rewrite Z.add_0_l, Z2Nat.id by lia. exact Hcap.
  - intros extra.
    destruct (footerLoop_succeeds allowTableOfContents organization title today
                totalPages (Z.to_nat (totalPages + 1)) extra 0 [] ticks)
      as (images' & Hrun' & Hlen' & Hnth'); [lia | exact Hok |].
    rewrite Hrun, Hrun'. f_equal. f_equal.
    apply list_eq. intros j.
    destruct (decide (j < Z.to_nat (totalPages + 1))%nat) as [Hj|Hj].
    + destruct (Hok (Z.of_nat j) ltac:(lia)) as [img Himg].
      transitivity (Some img); [apply Hnth' | symmetry; apply Hnth]; auto.
    + cbn [app]. rewrite !lookup_ge_None_2 by lia. reflexivity.
Qed.

Lemma createFooterImages_one_per_page_witness :
  exists footerImages,
    createFooterImages (H := steadyCapture) true "ACME" "Web traffic"
                       "2.11.2026" 6 0%nat
    = (Ok footerImages, (0 + Z.to_nat (6 + 1))%nat)
    /\ Z.of_nat (length footerImages) = 6 + 1
    /\ (forall page img,
          0 <= page <= 6 ->
          capturePanelScreenshot (Capture := steadyCapture)
            (FooterElement (footerOf true "ACME" "Web traffic" "2.11.2026" 6 page))
          = Ok img ->
          footerImages !! Z.to_nat page = Some img)
    /\ (forall extra,
          footerLoop (H := steadyCapture) true "ACME" "Web traffic" "2.11.2026" 6
                     (Z.to_nat (6 + 1) + extra) 0 [] 0%nat
          = createFooterImages (H := steadyCapture) true "ACME" "Web traffic"
                               "2.11.2026" 6 0%nat).
Proof.
  apply (createFooterImages_one_per_page (H := steadyCapture)).
  - lia.
  - intros page _. eexists. reflexivity.
Defined.

(** C3 as stated fails: for six pages the loop runs for the page indices 0
    to 6 and yields seven footer images, not eight. *)
Lemma createFooterImages_six_pages :
  exists footerImages,
    fst (createFooterImages (H := steadyCapture) true "ACME" "Web traffic"
                            "2.11.2026" 6 0%nat) = Ok footerImages
    /\ Z.of_nat (length footerImages) = 6 + 1
    /\ Z.of_nat (length footerImages) <> 6 + 2.
Proof. eexists. split; [vm_compute; reflexivity|]. split; [reflexivity|discriminate]. Qed.

(** ** Page breaks *)

Lemma rem2_even (n : Z) : (rem n 2 =? 0) = Z.even n.
Proof.
  unfold rem. rewrite Zeven_mod.
  pose proof (Z.rem_mod_eq_0 n 2 ltac:(lia)) as Hiff.
  destruct (Z.rem n 2 =? 0) eqn:Hr, (n mod 2 =? 0) eqn:Hm;
    try reflexivity; exfalso.
  - apply Z.eqb_eq in Hr. apply Hiff in Hr. apply Z.eqb_neq in Hm. contradiction.
  - apply Z.eqb_eq in Hm. apply Hiff in Hm. apply Z.eqb_neq in Hr. contradiction.
Qed.

(** C5. For every panel index and panel count, [addPageBreaks] appends a
    PageBreak marker after the panel's entries exactly when [index + 1] is
    even and the panel is not the last one; after the last panel no marker
    is appended, whatever the parity. *)
Theorem addPageBreaks_marker (visualizations : list VisualizationData)
    (index totalPanels : Z) :
  (Z.even (index + 1) = true /\ index <> totalPanels - 1 ->
     addPageBreaks visualizations index totalPanels
     = visualizations ++ [pageBreakMarker index])
  /\ (~ (Z.even (index + 1) = true /\ index <> totalPanels - 1) ->
        addPageBreaks visualizations index totalPanels = visualizations)
  /\ addPageBreaks visualizations (totalPanels - 1) totalPanels = visualizations
  /\ VisualizationData.type (pageBreakMarker index) = "PageBreak".
Proof.
  unfold addPageBreaks. rewrite !rem2_even.
  repeat split.
  - intros [-> Hne]. apply Z.eqb_neq in Hne. now rewrite Hne.
  - intros Hnot. destruct (Z.even (index + 1)); [|reflexivity].
    destruct (index =? totalPanels - 1) eqn:Heq; [reflexivity|].
    apply Z.eqb_neq in Heq. exfalso. apply Hnot. now split.
  - rewrite Z.eqb_refl. now rewrite andb_false_r.
Qed.

(** ** Phase history *)

Lemma pushDuration_length (history : list Z) (duration : Z) :
  (length history <= 10)%nat ->
  (length (pushDuration history duration) <= 10)%nat.
Proof.
  intros Hlen. unfold pushDuration. rewrite length_app. cbn.
  destruct (10 <=? Z.of_nat (length history)) eqn:Hfull.
  - apply Z.leb_le in Hfull. destruct history; cbn in *; lia.
  - apply Z.leb_gt in Hfull. lia.
Qed.

Lemma updateModalProgress_history (st : Service) :
  phaseHistory (updateModalProgress st) = phaseHistory st
  /\ now (updateModalProgress st) = now st.
Proof.
  unfold updateModalProgress, showModal.
  destruct (modalHandlers st); [|done].
  destruct (phaseTracker st); done.
Qed.

Lemma updateProgress_history (p : PhaseKey) (x : float) (st : Service) :
  phaseHistory (updateProgress p x st) = phaseHistory st
  /\ now (updateProgress p x st) = now st.
Proof.
  unfold updateProgress.
  destruct (updateModalProgress_history
              (set_lastPhaseProgress (calculateProgress p x) st)) as [-> ->].
  done.
Qed.

Lemma executePhase_records {T} (p : PhaseKey) (operation : Operation T)
    (st : Service) :
  let '(outcome, st1) := operation (phaseStarted p st) in
  let '(result, st') := executePhase p operation st in
  result = outcome
  /\ phaseHistory st' =
     <[p := pushDuration (getPhaseHistory st1 p) (now st1 - now st)]>
       (phaseHistory st1).
Proof.
  unfold executePhase. fold (phaseStarted p st).
  destruct (operation (phaseStarted p st)) as [[result|error] st1]; cbn.
  - split; [reflexivity|].
    destruct (updateProgress_history p 1 st1) as [Hh Hn].
    unfold getPhaseHistory. now rewrite Hh, Hn.
  - split; reflexivity.
Qed.

Lemma updatePhaseHistory_bounded (p : PhaseKey) (d : Z) (st : Service) :
  historyBounded st -> historyBounded (updatePhaseHistory p d st).
Proof.
  intros Hb q history. cbn.
  destruct (decide (p = q)) as [->|Hne].
  - rewrite lookup_insert_eq. intros [= <-].
    apply pushDuration_length. unfold getPhaseHistory.
    destruct (phaseHistory st !! q) as [h|] eqn:Hq; cbn; [|lia].
    exact (Hb q h Hq).
  - rewrite lookup_insert_ne by done. apply Hb.
Qed.

Lemma executePhase_bounded {T} (p : PhaseKey) (operation : Operation T)
    (st : Service) :
  keepsHistory operation ->
  historyBounded st ->
  historyBounded (snd (executePhase p operation st)).
Proof.
  intros Hkeep Hb.
  assert (Hstart : historyBounded (phaseStarted p st)).
  { intros q h. unfold phaseStarted.
    destruct (updateProgress_history p 0
                (set_phaseTracker
                   (mkPhaseTracking p (now st) (getPhaseHistoryRef st p)) st))
      as [-> _]. apply Hb. }
  assert (Hop : historyBounded (snd (operation (phaseStarted p st)))).
  { intros q h. rewrite Hkeep. apply Hstart. }
  unfold executePhase. fold (phaseStarted p st).
  destruct (operation (phaseStarted p st)) as [[result|error] st1]; cbn in *.
  - apply updatePhaseHistory_bounded.
    intros q h. destruct (updateProgress_history p 1 st1) as [-> _]. apply Hop.
  - now apply updatePhaseHistory_bounded.
Qed.

(** C6. A phase's duration history never exceeds 10 entries, and an
    insertion into a full history evicts the oldest entry first.  Every
    call of [executePhase] appends exactly one elapsed duration to the
    history of its phase, whether the operation succeeds or fails, and
    returns what the operation returned: a failure is rethrown after the
    duration is recorded. *)
Theorem executePhase_history
    (calls : list (PhaseKey * Operation unit)) (clock : Z) :
  Forall (fun call => keepsHistory (snd call)) calls ->
  historyBounded (executePhases calls (newService clock))
  /\ (forall oldest history duration,
        length history = 9%nat ->
        pushDuration (oldest :: history) duration = history ++ [duration])
  /\ (forall history duration,
        (length history < 10)%nat ->
        pushDuration history duration = history ++ [duration])
  /\ (forall p (operation : Operation unit) st,
        let '(outcome, st1) := operation (phaseStarted p st) in
        let '(result, st') := executePhase p operation st in
        result = outcome
        /\ phaseHistory st' =
           <[p := pushDuration (getPhaseHistory st1 p) (now st1 - now st)]>
             (phaseHistory st1)).
Proof.
  intros Hcalls. split; [|split; [|split]].
  - assert (Hnew : historyBounded (newService clock)).
    { intros p h. cbn. rewrite lookup_empty. discriminate. }
    revert Hcalls Hnew. generalize (newService clock) as st.
    induction calls as [|[p operation] rest IH]; intros st Hcalls Hb.
    + exact Hb.
    + cbn. inversion Hcalls as [|? ? Hkeep Hrest]; subst.
      apply IH; [exact Hrest|]. now apply executePhase_bounded.
  - intros oldest history duration Hlen. unfold pushDuration. cbn [length].
    replace (10 <=? Z.of_nat (S (length history))) with true
      by (symmetry; apply Z.leb_le; lia).
    reflexivity.
  - intros history duration Hlen. unfold pushDuration.
    replace (10 <=? Z.of_nat (length history)) with false
      by (symmetry; apply Z.leb_gt; lia).
    reflexivity.
  - intros p operation st. apply (executePhase_records p operation st).
Qed.

Lemma executePhase_history_witness :
  historyBounded (executePhases sampleCalls (newService 0))
  /\ phaseHistory (executePhases sampleCalls (newService 0)) !! data_gathering
     = Some [300; 400; 500; 600; 700; 800; 900; 1000; 1100; 1200].
Proof.
  split; [|vm_compute; reflexivity].
  apply (executePhase_history sampleCalls 0).
  unfold sampleCalls. repeat constructor.
Defined.

(** ** Validation of panels *)

Lemma or_else_truthy (o : option string) (d : string) :
  truthy d = true -> truthy (or_else o d) = true.
Proof.
  intros Hd. unfold or_else. destruct o as [s|]; [|exact Hd].
  destruct (truthy s) eqn:Hs; [exact Hs | exact Hd].
Qed.

Lemma validatePanels_entry_some (panel : Panel) :
  validatePanels_entry panel =
  Some (panel, or_else (or_opt (data_title panel) (titleText panel)) "[No Title]").
Proof.
  unfold validatePanels_entry. now rewrite or_else_truthy.
Qed.

Lemma validatePanels_map (panels : list Panel) :
  validatePanels panels =
  map (fun panel =>
         (panel, or_else (or_opt (data_title panel) (titleText panel)) "[No Title]"))
      panels.
Proof.
  unfold validatePanels. induction panels as [|panel rest IH]; [reflexivity|].
  cbn. rewrite validatePanels_entry_some. cbn. now rewrite IH.
Qed.

(** C9. [validatePanels] returns exactly one entry per input panel, in input
    order; the title is the [data-title] attribute, else the header text,
    else the literal [[No Title]].  No entry is ever [null], so the count
    from which [totalPages] is computed is the number of input panels. *)
Theorem validatePanels_one_per_panel (panels : list Panel) :
  map fst (validatePanels panels) = panels
  /\ length (validatePanels panels) = length panels
  /\ (forall panel, validatePanels_entry panel <> None)
  /\ (forall i panel,
        panels !! i = Some panel ->
        validatePanels panels !! i =
        Some (panel,
              match data_title panel, titleText panel with
              | Some t, _ => if truthy t then t
                             else match titleText panel with
                                  | Some h => if truthy h then h else "[No Title]"
                                  | None => "[No Title]"
                                  end
              | None, Some h => if truthy h then h else "[No Title]"
              | None, None => "[No Title]"
              end))
  /\ calculateTotalPages (Z.of_nat (length (validatePanels panels)))
     = calculateTotalPages (Z.of_nat (length panels)).
Proof.
  rewrite validatePanels_map. repeat split.
  - rewrite map_map. cbn. apply map_id.
  - apply length_map.
  - intros panel. now rewrite validatePanels_entry_some.
  - intros i panel Hi. rewrite list_lookup_fmap, Hi. cbn. f_equal. f_equal.
    unfold or_else, or_opt.
    destruct (data_title panel) as [t|], (titleText panel) as [h|];
      repeat case_match; congruence.
  - now rewrite length_map.
Qed.

(** ** No valid panel *)

(** C7. When no panel passes validation, [getVisualizationData] throws the
    no-valid-panels error and leaves the page as it found it: no style is
    snapshot or overwritten, [preparePanelDimensions] is not reached. *)
Theorem getVisualizationData_no_valid_panels `{Capture}
    (allowTableOfContents : bool) (organization : string)
    (dom : Dashboard) (st : PageState) :
  getValidPanels (panelElements dom) = [] ->
  getVisualizationData allowTableOfContents organization dom st
  = (Throw noValidPanels, st).
Proof.
  intros Hnone. unfold getVisualizationData. now rewrite Hnone.
Qed.

Lemma getVisualizationData_no_valid_panels_witness :
  getVisualizationData (H := steadyCapture) true "ACME"
                       (sampleDashboard [markdownPanel]) samplePageState
  = (Throw noValidPanels, samplePageState).
Proof.
  apply (getVisualizationData_no_valid_panels (H := steadyCapture)).
  reflexivity.
Defined.

(** ** The near-white snap *)

Lemma snapAt_pixel (pre : list Z) (r g b a : Z) (rest : list Z) :
  snapAt (pre ++ r :: g :: b :: a :: rest) (length pre) =
  pre ++ (let '(r', g', b', a') := snapPixel (r, g, b, a) in
          r' :: g' :: b' :: a' :: rest).
Proof.
  unfold snapAt, above240, snapPixel.
  rewrite !lookup_app_r by lia.
  replace (length pre - length pre)%nat with 0%nat by lia.
  replace (length pre + 1 - length pre)%nat with 1%nat by lia.
  replace (length pre + 2 - length pre)%nat with 2%nat by lia.
  cbn [lookup list_lookup].
  destruct ((240 <? r) && (240 <? g) && (240 <? b)); [|reflexivity].
  rewrite (insert_app_r_alt pre _ (length pre + 2)) by lia.
  rewrite (insert_app_r_alt pre _ (length pre + 1)) by lia.
  rewrite (insert_app_r_alt pre _ (length pre)) by lia.
  replace (length pre - length pre)%nat with 0%nat by lia.
  replace (length pre + 1 - length pre)%nat with 1%nat by lia.
  replace (length pre + 2 - length pre)%nat with 2%nat by lia.
  reflexivity.
Qed.

Lemma snapLoop_buffer (n : nat) :
  forall (fuel : nat) (pre rest : list Z),
    length rest = (4 * n)%nat -> (n <= fuel)%nat ->
    snapLoop fuel (length pre) (pre ++ rest) = pre ++ snapBuffer rest.
Proof.
  induction n as [|n IH]; intros fuel pre rest Hlen Hfuel.
  - destruct rest; [|discriminate]. cbn [snapBuffer]. rewrite app_nil_r.
    destruct fuel; [reflexivity|]. cbn [snapLoop].
    replace (length pre <? length pre)%nat with false
      by (symmetry; apply Nat.ltb_ge; lia).
    reflexivity.
  - destruct rest as [|r [|g [|b [|a rest]]]]; try (cbn in Hlen; lia).
    destruct fuel as [|fuel]; [lia|].
    cbn [snapLoop].
    replace (length pre <? length (pre ++ r :: g :: b :: a :: rest))%nat with true
      by (symmetry; apply Nat.ltb_lt; rewrite length_app; cbn; lia).
    rewrite snapAt_pixel. cbn [snapBuffer].
    destruct (snapPixel (r, g, b, a)) as [[[r' g'] b'] a'].
    specialize (IH fuel (pre ++ [r'; g'; b'; a']) rest).
    rewrite length_app in IH. cbn [length] in IH.
    rewrite <- !app_assoc in IH. cbn [app] in IH.
    rewrite IH; [reflexivity | cbn in Hlen; lia | lia].
Qed.

Lemma nearWhiteSnap_buffer (data : list Z) (n : nat) :
  length data = (4 * n)%nat -> nearWhiteSnap data = snapBuffer data.
Proof.
  intros Hlen. unfold nearWhiteSnap.
  apply (snapLoop_buffer n (length data) [] data Hlen). lia.
Qed.

Lemma pixelAt_cons (r g b a : Z) (rest : list Z) (k : nat) :
  pixelAt (r :: g :: b :: a :: rest) (S k) = pixelAt rest k.
Proof.
  unfold pixelAt.
  replace (4 * S k)%nat with (S (S (S (S (4 * k))))) by lia.
  replace (S (S (S (S (4 * k)))) + 1)%nat with (S (S (S (S (4 * k + 1))))) by lia.
  replace (S (S (S (S (4 * k)))) + 2)%nat with (S (S (S (S (4 * k + 2))))) by lia.
  replace (S (S (S (S (4 * k)))) + 3)%nat with (S (S (S (S (4 * k + 3))))) by lia.
  reflexivity.
Qed.

Lemma snapBuffer_length (n : nat) :
  forall data, length data = (4 * n)%nat -> length (snapBuffer data) = length data.
Proof.
  induction n as [|n IH]; intros data Hlen.
  - now destruct data.
  - destruct data as [|r [|g [|b [|a rest]]]]; try (cbn in Hlen; lia).
    cbn [snapBuffer]. destruct (snapPixel (r, g, b, a)) as [[[r' g'] b'] a'].
    cbn. rewrite IH; [reflexivity | cbn in Hlen; lia].
Qed.

Lemma snapBuffer_pixelAt (n : nat) :
  forall data k,
    length data = (4 * n)%nat ->
    pixelAt (snapBuffer data) k = snapPixel <$> pixelAt data k.
Proof.
  induction n as [|n IH]; intros data k Hlen.
  - destruct data; [|discriminate]. reflexivity.
  - destruct data as [|r [|g [|b [|a rest]]]]; try (cbn in Hlen; lia).
    cbn [snapBuffer].
    destruct (snapPixel (r, g, b, a)) as [[[r' g'] b'] a'] eqn:Hpx.
    destruct k as [|k].
    + change (pixelAt (r :: g :: b :: a :: rest) 0) with (Some (r, g, b, a)).
      change (snapPixel <$> Some (r, g, b, a)) with (Some (snapPixel (r, g, b, a))).
      now rewrite Hpx.
    + rewrite !pixelAt_cons. apply IH. cbn in Hlen. lia.
Qed.

(** C8. In the default capture profile the near-white snap maps every pixel
    whose red, green and blue channels are each above 240 to pure white and
    leaves every other pixel, and every alpha channel, unchanged: pixel
    (245,248,250) becomes (255,255,255), pixel (200,200,200) stays. *)
Theorem nearWhiteSnap_pixels (data : list Z) (n : nat) :
  length data = (4 * n)%nat ->
  length (postProcess DefaultProfile true data) = length data
  /\ (forall k r g b a,
        pixelAt data k = Some (r, g, b, a) ->
        pixelAt (postProcess DefaultProfile true data) k =
        Some (if decide (240 < r /\ 240 < g /\ 240 < b)
              then (255, 255, 255, a) else (r, g, b, a)))
  /\ postProcess DefaultProfile true [245; 248; 250; 255; 200; 200; 200; 255]
     = [255; 255; 255; 255; 200; 200; 200; 255].
Proof.
  intros Hlen. cbn [postProcess].
  split; [|split; [|reflexivity]].
  - rewrite (nearWhiteSnap_buffer data n Hlen). now apply (snapBuffer_length n).
  - intros k r g b a Hpx.
    rewrite (nearWhiteSnap_buffer data n Hlen), (snapBuffer_pixelAt n data k Hlen), Hpx.
    cbn. f_equal.
    destruct (240 <? r) eqn:Hr, (240 <? g) eqn:Hg, (240 <? b) eqn:Hb; cbn;
      rewrite ?Z.ltb_lt, ?Z.ltb_ge in *; case_decide; try reflexivity; lia.
Qed.

Lemma nearWhiteSnap_pixels_witness :
  length (postProcess DefaultProfile true [245; 248; 250; 255; 200; 200; 200; 255])
  = length [245; 248; 250; 255; 200; 200; 200; 255]
  /\ (forall k r g b a,
        pixelAt [245; 248; 250; 255; 200; 200; 200; 255] k = Some (r, g, b, a) ->
        pixelAt (postProcess DefaultProfile true
                   [245; 248; 250; 255; 200; 200; 200; 255]) k =
        Some (if decide (240 < r /\ 240 < g /\ 240 < b)
              then (255, 255, 255, a) else (r, g, b, a)))
  /\ postProcess DefaultProfile true [245; 248; 250; 255; 200; 200; 200; 255]
     = [255; 255; 255; 255; 200; 200; 200; 255].
Proof.
  apply (nearWhiteSnap_pixels [245; 248; 250; 255; 200; 200; 200; 255] 2).
  reflexivity.
Defined.

(** ** The tenant name on the cover page *)

Lemma capitalizeFirstLetter_empty `{StringPrototype} :
  capitalizeFirstLetter EmptyString = EmptyString.
Proof.
  unfold capitalizeFirstLetter. cbn.
  now rewrite toUpperCase_empty, toLowerCase_empty.
Qed.

Lemma retrieveTenantInfo_names `{StringPrototype} (dom : InfoDom)
    (names names' : Names) :
  retrieveTenantInfo dom names = Ok names' ->
  tenantName names' =
    capitalizeFirstLetter
      (or_else (option_map trim (tenantNameElement dom)) DEFAULT_TENANT_NAME)
  /\ completeName names' = tenantName names'
  /\ dashboardName names' = dashboardName names.
Proof.
  unfold retrieveTenantInfo, clickActionsMenu.
  destruct (actionsMenu dom); [|discriminate].
  cbn. intros [= <-]. cbn. auto.
Qed.

(** C10, as stated, fails when the details panel shows an organization
    name: the text drawn at the tenant-name position is then the formatted
    organization name, capitals included.  With the tenant ABC and the
    organization ABC the cover page shows ABC, not Abc; with the
    organization ACME Corp it shows ACME Corp. *)
Lemma capitalizeFirstLetter_cover_name_organization :
  match handleInformationRetrieval_names (H := Ascii7.ascii_prototype)
          (mkInfoDom true (Some "ABC") (Some "ABC") None "Web traffic")
          initialNames with
  | Ok names =>
      text <$> head (coverPageTexts
                       (mkTextPositions (mkTextPosition 20 150 28)
                                        (mkTextPosition 20 130 20)
                                        (mkTextPosition 20 20 12))
                       names "02.11.2026 @ 16:07")
  | Throw _ => None
  end = Some "ABC"
  /\ match handleInformationRetrieval_names (H := Ascii7.ascii_prototype)
            (mkInfoDom true (Some "ABC") (Some "ACME Corp") None "Web traffic")
            initialNames with
     | Ok names =>
         text <$> head (coverPageTexts
                          (mkTextPositions (mkTextPosition 20 150 28)
                                           (mkTextPosition 20 130 20)
                                           (mkTextPosition 20 20 12))
                          names "02.11.2026 @ 16:07")
     | Throw _ => None
     end = Some "ACME Corp"
  /\ capitalizeFirstLetter (H := Ascii7.ascii_prototype) "ABC" = "Abc".
Proof. repeat split; reflexivity. Qed.

(** C10 (amended). [capitalizeFirstLetter] returns the first character
    upper-cased followed by all remaining characters lower-cased, and the
    empty string for the empty string.  The tenant name the information
    retrieval stores has gone through it (ABC is stored as Abc).  The text
    drawn at the tenant-name position of the cover page is
    [formatOrganizationName] of the organization name when the details
    panel shows one, and of the stored tenant name otherwise: the tenant
    ABC, without an organization name, is drawn as Abc. *)
Theorem capitalizeFirstLetter_cover_name `{StringPrototype} :
  capitalizeFirstLetter EmptyString = EmptyString
  /\ (forall c rest,
        capitalizeFirstLetter (String c rest) =
        String.append (toUpperCase (String c EmptyString)) (toLowerCase rest))
  /\ (forall dom names names' textPositions formattedTimestamp,
        handleInformationRetrieval_names dom names = Ok names' ->
        tenantName names'
        = capitalizeFirstLetter
            (or_else (option_map trim (tenantNameElement dom))
                     DEFAULT_TENANT_NAME)
        /\ text <$> head (coverPageTexts textPositions names' formattedTimestamp)
           = Some (formatOrganizationName
                     (or_else (option_map trim (organizationElement dom))
                              (tenantName names'))))
  /\ (forall dom names names' textPositions formattedTimestamp,
        handleInformationRetrieval_names dom names = Ok names' ->
        or_else (option_map trim (organizationElement dom)) EmptyString
        = EmptyString ->
        text <$> head (coverPageTexts textPositions names' formattedTimestamp)
        = Some (formatOrganizationName
                  (capitalizeFirstLetter
                     (or_else (option_map trim (tenantNameElement dom))
                              DEFAULT_TENANT_NAME))))
  /\ capitalizeFirstLetter (H := Ascii7.ascii_prototype) "ABC" = "Abc"
  /\ (forall textPositions formattedTimestamp,
        match handleInformationRetrieval_names (H := Ascii7.ascii_prototype)
                (mkInfoDom true (Some "ABC") None None "Web traffic")
                initialNames with
        | Ok names =>
            text <$> head (coverPageTexts textPositions names formattedTimestamp)
        | Throw _ => None
        end = Some "Abc").
Proof.
  split; [apply capitalizeFirstLetter_empty|].
  split; [reflexivity|].
  assert (Hnames : forall dom names names',
            handleInformationRetrieval_names dom names = Ok names' ->
            tenantName names'
            = capitalizeFirstLetter
                (or_else (option_map trim (tenantNameElement dom))
                         DEFAULT_TENANT_NAME)
            /\ completeName names'
               = formatOrganizationName
                   (or_else (option_map trim (organizationElement dom))
                            (tenantName names'))).
  { intros dom names names' Hret.
    unfold handleInformationRetrieval_names in Hret.
    destruct (retrieveTenantInfo dom (retrieveDashboardInfo dom names))
      as [names1|] eqn:Hten; [|discriminate].
    injection Hret as <-.
    destruct (retrieveTenantInfo_names dom _ names1 Hten) as (Ht & _ & _).
    split; [exact Ht | reflexivity]. }
  split; [|split; [|split; [reflexivity|reflexivity]]].
  - intros dom names names' tp ts Hret.
    destruct (Hnames dom names names' Hret) as [Ht Hc].
    split; [exact Ht|]. cbn. now rewrite Hc.
  - intros dom names names' tp ts Hret Horg.
    destruct (Hnames dom names names' Hret) as [Ht Hc].
    cbn. rewrite Hc, Ht. f_equal. f_equal.
    unfold or_else in *.
    destruct (option_map trim (organizationElement dom)) as [o|]; [|reflexivity].
    destruct (truthy o) eqn:Ho; [|reflexivity].
    subst o. discriminate.
Qed.

Lemma capitalizeFirstLetter_cover_name_witness :
  "Abc"
  = capitalizeFirstLetter (H := Ascii7.ascii_prototype)
      (or_else (option_map (trim (StringPrototype := Ascii7.ascii_prototype))
                           (Some " ABC ")) DEFAULT_TENANT_NAME)
  /\ text <$> head (coverPageTexts
                      (mkTextPositions (mkTextPosition 20 150 28)
                                       (mkTextPosition 20 130 20)
                                       (mkTextPosition 20 20 12))
                      {| tenantName := "Abc"; completeName := "ACME Corp";
                         dashboardName := "Web traffic" |}
                      "02.11.2026 @ 16:07")
     = Some (formatOrganizationName
               (or_else (option_map (trim (StringPrototype := Ascii7.ascii_prototype))
                                    (Some " ACME Corp ")) "Abc")).
Proof.
  refine (proj1 (proj2 (proj2
            (capitalizeFirstLetter_cover_name (H := Ascii7.ascii_prototype))))
            (mkInfoDom true (Some " ABC ") (Some " ACME Corp ") None "Web traffic")
            initialNames
            {| tenantName := "Abc"; completeName := "ACME Corp";
               dashboardName := "Web traffic" |} _ _ _).
  reflexivity.
Defined.

(** ** Layout normalisation and its restore closure *)

(** C4, at a panel that matches two probes.  A panel with split series is
    styled by the [tsvbMetrics] loop and again by the [tvbSplitVis] loop;
    the second call stores the styles the first call wrote as the original
    ones, so the closure puts those back: the grid item stays hidden at the
    first target geometry.  The closure runs once, after a successful
    gathering as after a failed capture. *)
Theorem preparePanelDimensions_double_probe :
  let layout := preparePanelDimensions [splitSeriesPanel] samplePage in
  let restored := restoreLayout (originalStyles layout) (page layout) in
  styleOf samplePage 1%positive
  = Style.mk "10px" "20px" "300px" "200px" "absolute" EmptyString
  /\ styleOf (page layout) 1%positive
     = Style.mk "1600px" "955px" "955px" "540px" "absolute" "hidden"
  /\ styleOf restored 1%positive
     = Style.mk "320px" "637px" "637px" "200px" "absolute" "hidden"
  /\ styleOf restored 1%positive <> styleOf samplePage 1%positive
  /\ (let '(result, st) :=
        getVisualizationData (H := steadyCapture) true "ACME"
          (sampleDashboard [splitSeriesPanel]) samplePageState in
      (exists visualizations, result = Ok visualizations)
      /\ styles st = restored /\ restoreCalls st = 1%nat)
  /\ (let '(result, st) :=
        getVisualizationData (H := panelFailingCapture) true "ACME"
          (sampleDashboard [splitSeriesPanel]) samplePageState in
      (exists error, result = Throw error)
      /\ styles st = restored /\ restoreCalls st = 1%nat).
Proof.
  cbv zeta. repeat split; try (vm_compute; reflexivity).
  - vm_compute. discriminate.
  - vm_compute. eexists. reflexivity.
  - vm_compute. eexists. reflexivity.
Qed.

Lemma addPageBreaks_marker_witness :
  addPageBreaks [createMainVisualization "panel-8" "Requests" "data:,"] 1 5
  = [createMainVisualization "panel-8" "Requests" "data:,"; pageBreakMarker 1].
Proof.
  refine (proj1 (addPageBreaks_marker
                   [createMainVisualization "panel-8" "Requests" "data:,"] 1 5) _).
  split; [reflexivity | discriminate].
Defined.

(** ** Extra properties: the layout normaliser *)

Lemma forEachPanel_wellShaped (panels : list Panel) top left width height :
  Forall wellShaped (forEachPanel panels (geometry top left width height)).
Proof.
  unfold forEachPanel. apply Forall_fmap, Forall_forall. intros panel _.
  split; [reflexivity|]. cbn. eauto.
Qed.

Lemma layoutJobs_wellShaped (panels : list Panel) :
  Forall wellShaped (layoutJobs panels).
Proof.
  unfold layoutJobs. cbv zeta.
  repeat (apply Forall_app; split); apply forEachPanel_wellShaped.
Qed.

Lemma styleOf_assignTo (element el : Element) (styles : OriginalStyles.t)
    (page0 : gmap Element Style.t) :
  styleOf (assignTo element styles page0) el =
  if decide (element = el) then assignStyle (styleOf page0 el) styles
  else styleOf page0 el.
Proof.
  unfold assignTo, styleOf. case_decide as Heq.
  - subst. now rewrite lookup_insert_eq.
  - now rewrite lookup_insert_ne.
Qed.

Lemma restoreLayout_styleOf (originals : gmap Element OriginalStyles.t)
    (page0 : gmap Element Style.t) (el : Element) :
  styleOf (restoreLayout originals page0) el =
  match originals !! el with
  | Some styles => assignStyle (styleOf page0 el) styles
  | None => styleOf page0 el
  end.
Proof.
  unfold restoreLayout.
  apply (map_fold_weak_ind
           (fun r m => styleOf r el =
                       match m !! el with
                       | Some styles => assignStyle (styleOf page0 el) styles
                       | None => styleOf page0 el
                       end)).
  - now rewrite lookup_empty.
  - intros i styles m r Hnone IH. rewrite styleOf_assignTo.
    case_decide as Heq.
    + subst. rewrite lookup_insert_eq. rewrite IH, Hnone. reflexivity.
    + rewrite lookup_insert_ne by done. exact IH.
Qed.

Lemma assignStyle_rootSnapshot (style original : Style.t) :
  assignStyle style (rootSnapshot original) = original.
Proof. now destruct original. Qed.

Lemma assignStyle_embPanelSnapshot (original : Style.t) :
  assignStyle (assignStyle original fullSize) (embPanelSnapshot original)
  = original.
Proof. now destruct original. Qed.

Lemma runJobs_snapshotsExact (page0 : gmap Element Style.t)
    (jobs : list LayoutJob) :
  forall (l : Layout) (done : list Element),
    Forall wellShaped jobs ->
    NoDup (done ++ jobTargets jobs) ->
    snapshotsExact page0 l done ->
    snapshotsExact page0 (runJobs jobs l) (done ++ jobTargets jobs).
Proof.
  induction jobs as [|job jobs IH]; intros l done Hshape Hnodup Hinv.
  - cbn. now rewrite app_nil_r.
  - inversion Hshape as [|? ? [Hemb _] Hrest]; subst.
    unfold runJobs. cbn [fold_left]. fold (runJobs jobs).
    unfold jobTargets in *. cbn [flat_map] in *.
    unfold storeAndApplyStyles.
    destruct (grid_item (job_panel job)) as [root|];
      [destruct (embPanel (job_panel job)) as [emb|]|];
      try (cbn [app] in *; now apply IH).
    rewrite Hemb.
    change ([root; emb] ++ ?r) with ([root] ++ [emb] ++ r) in *.
    rewrite !app_assoc in *. rewrite <- (app_assoc done) in *.
    apply IH; [exact Hrest | exact Hnodup |].
    apply NoDup_app in Hnodup as (Hnd & _ & _).
    apply NoDup_app in Hnd as (_ & Hfresh & Hpair).
    assert (Hne : root <> emb).
    { apply NoDup_cons in Hpair as [Hnotin _]. set_solver. }
    assert (Hroot : root ∉ done) by (intros Hin; apply (Hfresh root Hin); set_solver).
    assert (Hembf : emb ∉ done) by (intros Hin; apply (Hfresh emb Hin); set_solver).
    destruct Hinv as [Hout Hin]. split.
    + intros el Hel. cbn.
      rewrite !styleOf_assignTo.
      assert (el <> root /\ el <> emb /\ el ∉ done) as (H1 & H2 & H3) by set_solver.
      rewrite !decide_False by done.
      rewrite !lookup_insert_ne by done. now apply Hout.
    + intros el Hel. cbn. rewrite !styleOf_assignTo.
      destruct (decide (emb = el)) as [->|Hne1].
      * rewrite lookup_insert_eq. eexists. split; [reflexivity|].
        rewrite decide_False by done.
        destruct (Hout el Hembf) as [-> _].
        apply assignStyle_embPanelSnapshot.
      * rewrite lookup_insert_ne by done.
        destruct (decide (root = el)) as [->|Hne2].
        -- rewrite lookup_insert_eq. eexists. split; [reflexivity|].
           destruct (Hout el Hroot) as [-> _].
           apply assignStyle_rootSnapshot.
        -- rewrite lookup_insert_ne by done. apply Hin. set_solver.
Qed.

(** X1. When no element is written by two calls of [storeAndApplyStyles]
    (every panel matches one probe, and the panels have their own grid item
    and body), the closure returned by [preparePanelDimensions] puts back
    the inline styles of every element exactly. *)
Theorem restoreLayout_exact (panels : list Panel)
    (page0 : gmap Element Style.t) (el : Element) :
  NoDup (jobTargets (layoutJobs panels)) ->
  let layout := preparePanelDimensions panels page0 in
  styleOf (restoreLayout (originalStyles layout) (page layout)) el
  = styleOf page0 el.
Proof.
  intros Hnodup layout.
  assert (Hinv : snapshotsExact page0 layout ([] ++ jobTargets (layoutJobs panels))).
  { apply runJobs_snapshotsExact.
    - apply layoutJobs_wellShaped.
    - exact Hnodup.
    - split; [intros; split; [reflexivity | apply lookup_empty]|].
      intros x Hx. set_solver. }
  cbn [app] in Hinv. destruct Hinv as [Hout Hin].
  rewrite restoreLayout_styleOf.
  destruct (decide (el ∈ jobTargets (layoutJobs panels))) as [Hel|Hel].
  - destruct (Hin el Hel) as (styles & -> & Hback). exact Hback.
  - destruct (Hout el Hel) as [Hsame ->]. exact Hsame.
Qed.

Lemma restoreLayout_exact_witness :
  styleOf (restoreLayout
             (originalStyles (preparePanelDimensions [barChartPanel] samplePage))
             (page (preparePanelDimensions [barChartPanel] samplePage)))
          4%positive
  = styleOf samplePage 4%positive.
Proof.
  apply (restoreLayout_exact [barChartPanel] samplePage 4%positive).
  vm_compute. repeat constructor; set_solver.
Defined.

Lemma runJobs_cons (job : LayoutJob) (jobs : list LayoutJob) (l : Layout) :
  runJobs (job :: jobs) l =
  runJobs jobs (storeAndApplyStyles (job_panel job) (job_rootStyles job)
                                    (job_embPanelStyles job) l).
Proof. reflexivity. Qed.

Lemma runJobs_frame (jobs : list LayoutJob) :
  forall (l : Layout) (el : Element),
    el ∉ jobTargets jobs ->
    styleOf (page (runJobs jobs l)) el = styleOf (page l) el
    /\ originalStyles (runJobs jobs l) !! el = originalStyles l !! el.
Proof.
  induction jobs as [|job jobs IH]; intros l el Hel; [done|].
  rewrite runJobs_cons.
  unfold jobTargets in Hel. cbn [flat_map] in Hel. fold (jobTargets jobs) in Hel.
  destruct (IH (storeAndApplyStyles (job_panel job) (job_rootStyles job)
                                    (job_embPanelStyles job) l) el)
    as [-> ->]; [set_solver|].
  unfold storeAndApplyStyles.
  destruct (grid_item (job_panel job)) as [root|]; [|done].
  destruct (embPanel (job_panel job)) as [emb|]; [|done].
  assert (root <> el /\ emb <> el) as [H1 H2] by set_solver.
  cbn. rewrite !styleOf_assignTo, !decide_False by done.
  now rewrite !lookup_insert_ne by done.
Qed.

(** X2. [preparePanelDimensions] and the closure it returns only touch the
    grid items and panel bodies of the panels that match a probe: the
    inline styles of every other element are the same after the
    normalisation, and after the restore. *)
Theorem preparePanelDimensions_frame (panels : list Panel)
    (page0 : gmap Element Style.t) (el : Element) :
  el ∉ jobTargets (layoutJobs panels) ->
  let layout := preparePanelDimensions panels page0 in
  styleOf (page layout) el = styleOf page0 el
  /\ styleOf (restoreLayout (originalStyles layout) (page layout)) el
     = styleOf page0 el.
Proof.
  intros Hel layout.
  destruct (runJobs_frame (layoutJobs panels)
              {| page := page0; originalStyles := ∅ |} el Hel) as [Hp Ho].
  fold (preparePanelDimensions panels page0) in Hp, Ho. fold layout in Hp, Ho.
  split; [exact Hp|].
  rewrite restoreLayout_styleOf, Ho. cbn. rewrite lookup_empty. exact Hp.
Qed.

Lemma preparePanelDimensions_frame_witness :
  styleOf (page (preparePanelDimensions [splitSeriesPanel] samplePage)) 4%positive
  = styleOf samplePage 4%positive
  /\ styleOf (restoreLayout
                (originalStyles (preparePanelDimensions [splitSeriesPanel] samplePage))
                (page (preparePanelDimensions [splitSeriesPanel] samplePage)))
             4%positive
     = styleOf samplePage 4%positive.
Proof.
  apply (preparePanelDimensions_frame [splitSeriesPanel] samplePage 4%positive).
  vm_compute. set_solver.
Defined.

Lemma storeAndApplyStyles_keeps_hidden (job : LayoutJob) (l : Layout)
    (el : Element) :
  wellShaped job ->
  Style.visibility (styleOf (page l) el) = "hidden" ->
  Style.position (styleOf (page l) el) = "absolute" ->
  let l' := storeAndApplyStyles (job_panel job) (job_rootStyles job)
                                (job_embPanelStyles job) l in
  Style.visibility (styleOf (page l') el) = "hidden"
  /\ Style.position (styleOf (page l') el) = "absolute".
Proof.
  intros [Hemb (t & lf & w & h & Hroot)] Hv Hp. cbv zeta.
  unfold storeAndApplyStyles.
  destruct (grid_item (job_panel job)) as [root|]; [|done].
  destruct (embPanel (job_panel job)) as [emb|]; [|done].
  rewrite Hemb, Hroot. cbn. rewrite !styleOf_assignTo.
  repeat case_decide; subst; cbn; auto.
Qed.

Lemma runJobs_keeps_hidden (jobs : list LayoutJob) :
  forall (l : Layout) (el : Element),
    Forall wellShaped jobs ->
    Style.visibility (styleOf (page l) el) = "hidden" ->
    Style.position (styleOf (page l) el) = "absolute" ->
    Style.visibility (styleOf (page (runJobs jobs l)) el) = "hidden"
    /\ Style.position (styleOf (page (runJobs jobs l)) el) = "absolute".
Proof.
  induction jobs as [|job jobs IH]; intros l el Hshape Hv Hp; [done|].
  inversion Hshape as [|? ? Hjob Hrest]; subst.
  rewrite runJobs_cons.
  destruct (storeAndApplyStyles_keeps_hidden job l el Hjob Hv Hp) as [Hv' Hp'].
  now apply IH.
Qed.

Lemma runJobs_hides (jobs : list LayoutJob) :
  forall (l : Layout) (job : LayoutJob) (root emb : Element),
    Forall wellShaped jobs ->
    job ∈ jobs ->
    grid_item (job_panel job) = Some root ->
    embPanel (job_panel job) = Some emb ->
    Style.visibility (styleOf (page (runJobs jobs l)) root) = "hidden"
    /\ Style.position (styleOf (page (runJobs jobs l)) root) = "absolute".
Proof.
  induction jobs as [|job0 jobs IH]; intros l job root emb Hshape Hin Hr He.
  - set_solver.
  - inversion Hshape as [|? ? Hjob Hrest]; subst.
    rewrite runJobs_cons.
    apply elem_of_cons in Hin as [->|Hin]; [|now apply (IH _ job root emb)].
    apply runJobs_keeps_hidden; [exact Hrest| |].
    all: destruct Hjob as [Hemb (t & lf & w & h & Hroot)];
      unfold storeAndApplyStyles; rewrite Hr, He, Hemb, Hroot; cbn;
      rewrite !styleOf_assignTo; repeat case_decide; subst; cbn; congruence.
Qed.

(** X3. While the captures run, the grid item of every panel that matched a
    probe (and has a grid item and a panel body) is hidden and absolutely
    positioned, also when the panel matched several probes or shares its
    grid item with another panel. *)
Theorem preparePanelDimensions_hides (panels : list Panel)
    (page0 : gmap Element Style.t) (job : LayoutJob) (root emb : Element) :
  job ∈ layoutJobs panels ->
  grid_item (job_panel job) = Some root ->
  embPanel (job_panel job) = Some emb ->
  Style.visibility (styleOf (page (preparePanelDimensions panels page0)) root)
  = "hidden"
  /\ Style.position (styleOf (page (preparePanelDimensions panels page0)) root)
     = "absolute".
Proof.
  intros Hin Hr He.
  apply (runJobs_hides (layoutJobs panels) _ job root emb);
    auto using layoutJobs_wellShaped.
Qed.

Lemma preparePanelDimensions_hides_witness :
  Style.visibility
    (styleOf (page (preparePanelDimensions [splitSeriesPanel; barChartPanel] samplePage))
             4%positive) = "hidden"
  /\ Style.position
       (styleOf (page (preparePanelDimensions [splitSeriesPanel; barChartPanel] samplePage))
                4%positive) = "absolute".
Proof.
  apply (preparePanelDimensions_hides [splitSeriesPanel; barChartPanel] samplePage
           (mkLayoutJob barChartPanel (geometry "540px" "964px" "948px" "384px") fullSize)
           4%positive 5%positive).
  - vm_compute. set_solver.
  - reflexivity.
  - reflexivity.
Defined.

(** ** Extra properties: footers and table of contents *)

(** X5. [createFooterImages] has no [catch]: the first footer capture that
    throws ends the loop, its error is what [createFooterImages] throws, and
    the progress callback has run once for each footer captured before. *)
Theorem createFooterImages_first_failure `{Capture}
    (allowTableOfContents : bool) (organization title today : string)
    (totalPages failing : Z) (e : Error) (ticks : nat) :
  0 <= failing <= totalPages ->
  (forall page, 0 <= page < failing ->
     exists img,
       capturePanelScreenshot
         (FooterElement (footerOf allowTableOfContents organization title
                                  today totalPages page)) = Ok img) ->
  capturePanelScreenshot
    (FooterElement (footerOf allowTableOfContents organization title
                             today totalPages failing)) = Throw e ->
  createFooterImages allowTableOfContents organization title today
                     totalPages ticks
  = (Throw e, (ticks + Z.to_nat failing)%nat).
Proof.
  intros Hrange Hok Hfail. unfold createFooterImages.
  replace (Z.to_nat (totalPages + 1))
    with (S (Z.to_nat failing) + Z.to_nat (totalPages - failing))%nat by lia.
  apply (footerLoop_fails allowTableOfContents organization title today
           totalPages (Z.to_nat failing) _ 0 [] ticks failing e);
    auto; lia.
Qed.

Lemma createFooterImages_first_failure_witness :
  createFooterImages (H := footerFailingAt 2) true "ACME" "Web traffic"
                     "2.11.2026" 6 0%nat
  = (Throw (mkError "Unable to find element in cloned iframe" None),
     (0 + Z.to_nat 2)%nat).
Proof.
  apply (createFooterImages_first_failure (H := footerFailingAt 2) true "ACME"
           "Web traffic" "2.11.2026" 6 2).
  - lia.
  - intros page Hpage. exists "data:image/png;base64,AAAA". cbn.
    replace (page =? 2) with false by (symmetry; apply Z.eqb_neq; lia).
    reflexivity.
  - reflexivity.
Defined.

Lemma calculateTotalPages_floor (N : Z) :
  0 < N -> calculateTotalPages N = 4 + N / 2.
Proof.
  intros HN. unfold calculateTotalPages, Math_ceil_div.
  replace (0 <? N) with true by (symmetry; lia).
  pose proof (Z.div_mod (- (N - 1)) 2 ltac:(lia)).
  pose proof (Z.mod_pos_bound (- (N - 1)) 2 ltac:(lia)).
  pose proof (Z.div_mod N 2 ltac:(lia)).
  pose proof (Z.mod_pos_bound N 2 ltac:(lia)).
  lia.
Qed.

Lemma tocSections_lookup_panel (validPanels : list (Panel * string))
    (totalPages : Z) (i : nat) (panel : Panel) (title : string) :
  validPanels !! i = Some (panel, title) ->
  tocSections validPanels totalPages !! (2 + i)%nat
  = Some (title, 3 + (Z.of_nat i + 1) / 2).
Proof.
  intros Hi. unfold tocSections.
  change (2 + i)%nat with (S (S i)).
  change (([?a; ?b] ++ ?l) !! S (S i)) with (l !! i).
  rewrite lookup_app_l by (rewrite length_imap; eapply lookup_lt_Some; eauto).
  rewrite list_lookup_imap, Hi. reflexivity.
Qed.

(** X7. The table of contents of a report with [N] validated panels has
    [N + 3] lines: the cover page on page 1, the contents on page 2, panel
    [i] on page [3 + floor ((i + 1) / 2)], and the appendix on the last page.
    With [totalPages = calculateTotalPages N] every panel's page lies after
    the contents and before the appendix. *)
Theorem tocSections_pages (validPanels : list (Panel * string)) :
  let N := Z.of_nat (length validPanels) in
  let totalPages := calculateTotalPages N in
  let sections := tocSections validPanels totalPages in
  Z.of_nat (length sections) = N + 3
  /\ sections !! 0%nat = Some ("Cover Page", 1)
  /\ sections !! 1%nat = Some ("Report Contents", 2)
  /\ sections !! (2 + length validPanels)%nat = Some ("Appendix", totalPages)
  /\ (forall i panel title,
        validPanels !! i = Some (panel, title) ->
        sections !! (2 + i)%nat = Some (title, 3 + (Z.of_nat i + 1) / 2)
        /\ 2 < 3 + (Z.of_nat i + 1) / 2 < totalPages).
Proof.
  cbv zeta. repeat split.
  - unfold tocSections. rewrite !length_app, length_imap. cbn. lia.
  - unfold tocSections.
    change (2 + length validPanels)%nat with (S (S (length validPanels))).
    change (([?a; ?b] ++ ?l) !! S (S ?n)) with (l !! n).
    rewrite lookup_app_r by (rewrite length_imap; lia).
    rewrite length_imap, Nat.sub_diag. reflexivity.
  - now apply (tocSections_lookup_panel _ _ i panel).
  - pose proof (Z.div_pos (Z.of_nat i + 1) 2 ltac:(lia) ltac:(lia)). lia.
  - apply lookup_lt_Some in H.
    rewrite calculateTotalPages_floor by lia.
    pose proof (Z.div_le_mono (Z.of_nat i + 1) (Z.of_nat (length validPanels)) 2
                  ltac:(lia) ltac:(lia)).
    lia.
Qed.

(** ** Extra properties: the entries of the panels *)

Lemma processPanel_ok `{Capture} (totalPanels index : Z) (panel : Panel)
    (screenshot : string) (ticks : nat) :
  capturePanelScreenshot (PanelElement panel) = Ok screenshot ->
  processPanel totalPanels index panel ticks
  = (Ok (panelEntries totalPanels index panel screenshot), S (S ticks)).
Proof.
  intros Hcap.
  unfold processPanel, gbind, captureWithProgress, progressCallback,
    createDataTitleVisualization, catch, captureSilently, ret, panelEntries.
  rewrite Hcap.
  destruct (capturePanelScreenshot
              (DataTitleElement (or_else (data_title panel) "[No Title]")));
    reflexivity.
Qed.

Lemma processPanel_throw `{Capture} (totalPanels index : Z) (panel : Panel)
    (e : Error) (ticks : nat) :
  capturePanelScreenshot (PanelElement panel) = Throw e ->
  processPanel totalPanels index panel ticks = (Throw e, S ticks).
Proof.
  intros Hcap. unfold processPanel, gbind, captureWithProgress.
  now rewrite Hcap.
Qed.

Lemma processPanelsFrom_ok `{Capture} (totalPanels : Z) (panels : list Panel) :
  forall (index : Z) (ticks : nat),
    (forall panel, panel ∈ panels ->
       exists img, capturePanelScreenshot (PanelElement panel) = Ok img) ->
    exists entries,
      processPanelsFrom totalPanels index panels ticks
      = (Ok entries, (ticks + 2 * length panels)%nat)
      /\ length entries = length panels
      /\ forall (i : nat) panel img,
           panels !! i = Some panel ->
           capturePanelScreenshot (PanelElement panel) = Ok img ->
           entries !! i
           = Some (panelEntries totalPanels (index + Z.of_nat i) panel img).
Proof.
  induction panels as [|panel rest IH]; intros index ticks Hok.
  - exists []. cbn. repeat split; [f_equal; lia | intros; discriminate].
  - destruct (Hok panel ltac:(set_solver)) as [img Himg].
    destruct (IH (index + 1) (S (S ticks))) as (entries & Hrun & Hlen & Hnth).
    { intros p Hp. apply Hok. set_solver. }
    exists (panelEntries totalPanels index panel img :: entries).
    split; [|split].
    + cbn [processPanelsFrom]. unfold gbind at 1.
      rewrite (processPanel_ok _ _ _ img) by exact Himg.
      unfold gbind at 1. rewrite Hrun. unfold ret. f_equal. cbn. lia.
    + cbn. now rewrite Hlen.
    + intros [|i] p img' Hp Hcap.
      * cbn in Hp. injection Hp as <-. rewrite Z.add_0_r.
        cbn. congruence.
      * cbn in Hp. cbn.
        replace (index + Z.of_nat (S i)) with (index + 1 + Z.of_nat i) by lia.
        now apply Hnth.
Qed.

(** X8. When every panel screenshot succeeds, [processVisualizationPanels]
    returns one list of entries per panel, in panel order, and has called
    the progress callback twice per panel.  The list of panel [i] holds the
    title entry when the title capture succeeded, then the main entry with
    the panel's id, title and screenshot, then a page break when [i + 1] is
    even and the panel is not the last. *)
Theorem processVisualizationPanels_entries `{Capture} (panels : list Panel)
    (ticks : nat) :
  (forall panel, panel ∈ panels ->
     exists img, capturePanelScreenshot (PanelElement panel) = Ok img) ->
  exists entries,
    processVisualizationPanels panels ticks
    = (Ok entries, (ticks + 2 * length panels)%nat)
    /\ length entries = length panels
    /\ forall (i : nat) panel img,
         panels !! i = Some panel ->
         capturePanelScreenshot (PanelElement panel) = Ok img ->
         entries !! i
         = Some (panelEntries (Z.of_nat (length panels)) (Z.of_nat i) panel img).
Proof.
  intros Hok. unfold processVisualizationPanels.
  destruct (processPanelsFrom_ok (Z.of_nat (length panels)) panels 0 ticks Hok)
    as (entries & Hrun & Hlen & Hnth).
  exists entries. repeat split; auto.
Qed.

Lemma processVisualizationPanels_entries_witness :
  exists entries,
    processVisualizationPanels (H := steadyCapture)
                               [barChartPanel; splitSeriesPanel] 0%nat
    = (Ok entries, (0 + 2 * length [barChartPanel; splitSeriesPanel])%nat)
    /\ length entries = length [barChartPanel; splitSeriesPanel]
    /\ forall (i : nat) panel img,
         [barChartPanel; splitSeriesPanel] !! i = Some panel ->
         capturePanelScreenshot (Capture := steadyCapture) (PanelElement panel)
         = Ok img ->
         entries !! i
         = Some (panelEntries (H := steadyCapture)
                   (Z.of_nat (length [barChartPanel; splitSeriesPanel]))
                   (Z.of_nat i) panel img).
Proof.
  apply (processVisualizationPanels_entries (H := steadyCapture)).
  intros panel _. eexists. reflexivity.
Defined.

(** X9. A failed capture of a panel's title is not fatal: the panel still
    yields its main entry (and its page break), only the title entry is
    missing. *)
Theorem processPanel_title_failure `{Capture} (totalPanels index : Z)
    (panel : Panel) (screenshot : string) (e : Error) (ticks : nat) :
  capturePanelScreenshot (PanelElement panel) = Ok screenshot ->
  capturePanelScreenshot
    (DataTitleElement (or_else (data_title panel) "[No Title]")) = Throw e ->
  processPanel totalPanels index panel ticks
  = (Ok (addPageBreaks
           [createMainVisualization (getPanelId panel) (getPanelTitle panel)
                                    screenshot]
           index totalPanels),
     S (S ticks)).
Proof.
  intros Hcap Htitle. rewrite (processPanel_ok _ _ _ screenshot) by exact Hcap.
  unfold panelEntries. now rewrite Htitle.
Qed.

(** A capture that fails on title elements only. *)
Lemma processPanel_title_failure_witness :
  processPanel
    (H := {| capturePanelScreenshot := fun target =>
               match target with
               | DataTitleElement _ => Throw (mkError "capture failed" None)
               | _ => Ok "data:image/png;base64,AAAA"
               end |})
    2 0 barChartPanel 0%nat
  = (Ok (addPageBreaks
           [createMainVisualization (getPanelId barChartPanel)
              (getPanelTitle barChartPanel) "data:image/png;base64,AAAA"]
           0 2),
     2%nat).
Proof.
  apply (processPanel_title_failure
           (H := {| capturePanelScreenshot := fun target =>
                      match target with
                      | DataTitleElement _ => Throw (mkError "capture failed" None)
                      | _ => Ok "data:image/png;base64,AAAA"
                      end |})
           2 0 barChartPanel "data:image/png;base64,AAAA"
           (mkError "capture failed" None)); reflexivity.
Defined.

Lemma processPanelsFrom_throw `{Capture} (totalPanels : Z) (panels : list Panel) :
  forall (index : Z) (ticks : nat),
    (exists panel e, panel ∈ panels
                     /\ capturePanelScreenshot (PanelElement panel) = Throw e) ->
    exists panel e,
      panel ∈ panels
      /\ capturePanelScreenshot (PanelElement panel) = Throw e
      /\ fst (processPanelsFrom totalPanels index panels ticks) = Throw e.
Proof.
  induction panels as [|panel rest IH]; intros index ticks (p & e & Hin & Hfail).
  - set_solver.
  - cbn [processPanelsFrom]. unfold gbind at 1.
    destruct (capturePanelScreenshot (PanelElement panel)) as [img|e0] eqn:Hcap.
    + rewrite (processPanel_ok _ _ _ img) by exact Hcap.
      assert (Hrest : exists panel e, panel ∈ rest
                 /\ capturePanelScreenshot (PanelElement panel) = Throw e).
      { exists p, e. split; [|exact Hfail].
        apply elem_of_cons in Hin as [->|Hin]; [congruence | exact Hin]. }
      destruct (IH (index + 1) (S (S ticks)) Hrest) as (p' & e' & Hin' & Hf' & Hrun).
      exists p', e'. split; [set_solver|]. split; [exact Hf'|].
      unfold gbind.
      destruct (processPanelsFrom totalPanels (index + 1) rest (S (S ticks)))
        as [[entries|err] t]; cbn in *; [discriminate | exact Hrun].
    + rewrite (processPanel_throw _ _ _ e0) by exact Hcap.
      exists panel, e0. split; [set_solver|]. split; [exact Hcap | reflexivity].
Qed.

(** X10. A failed panel screenshot is fatal: if the screenshot of some panel
    throws, [processVisualizationPanels] throws the error of a panel whose
    screenshot failed. *)
Theorem processVisualizationPanels_failure `{Capture} (panels : list Panel)
    (ticks : nat) :
  (exists panel e, panel ∈ panels
                   /\ capturePanelScreenshot (PanelElement panel) = Throw e) ->
  exists panel e,
    panel ∈ panels
    /\ capturePanelScreenshot (PanelElement panel) = Throw e
    /\ fst (processVisualizationPanels panels ticks) = Throw e.
Proof. apply processPanelsFrom_throw. Qed.

Lemma processVisualizationPanels_failure_witness :
  exists panel e,
    panel ∈ [barChartPanel]
    /\ capturePanelScreenshot (Capture := panelFailingCapture) (PanelElement panel)
       = Throw e
    /\ fst (processVisualizationPanels (H := panelFailingCapture)
              [barChartPanel] 0%nat) = Throw e.
Proof.
  apply (processVisualizationPanels_failure (H := panelFailingCapture)).
  exists barChartPanel. eexists. split; [set_solver | reflexivity].
Defined.

(** ** Extra properties: the pages of the rendered report *)

Lemma chunk2_ind {A} (P : list A -> Prop) :
  P [] -> (forall a, P [a]) ->
  (forall a b rest, P rest -> P (a :: b :: rest)) ->
  forall l, P l.
Proof.
  intros Hnil Hone Hstep l.
  assert (H : P l /\ forall a, P (a :: l)).
  { induction l as [|b l [IH1 IH2]]; [split; [exact Hnil | exact Hone]|].
    split; [apply IH2|]. intros a. apply Hstep, IH1. }
  exact (proj1 H).
Qed.

Lemma chunk2_concat {A} (l : list A) : concat (chunk2 l) = l.
Proof.
  induction l as [|a|a b rest IH] using chunk2_ind; [done | done |].
  cbn. now rewrite IH.
Qed.

Lemma chunk2_length {A} (l : list A) :
  Z.of_nat (length (chunk2 l)) = (Z.of_nat (length l) + 1) / 2.
Proof.
  induction l as [|a|a b rest IH] using chunk2_ind; [done | done |].
  cbn [chunk2 length]. rewrite !Nat2Z.inj_succ, IH.
  replace (Z.succ (Z.succ (Z.of_nat (length rest))) + 1)
    with ((Z.of_nat (length rest) + 1) + 1 * 2) by lia.
  rewrite Z.div_add by lia. lia.
Qed.

Lemma chunk2_sizes {A} (l : list A) :
  Forall (fun run => (1 <= length run <= 2)%nat) (chunk2 l).
Proof.
  induction l as [|a|a b rest IH] using chunk2_ind; cbn.
  - constructor.
  - repeat constructor.
  - constructor; [cbn; lia | exact IH].
Qed.

Lemma chunk2_step {A} (l : list A) :
  l <> [] -> chunk2 l = take 2 l :: chunk2 (drop 2 l).
Proof. destruct l as [|a [|b rest]]; done. Qed.

Lemma pagesLoop_chunk2 {A} (remainingPairs : list A) (fuel : nat) :
  forall (i : nat) (pages : list (list A)),
    (length (drop i remainingPairs) <= fuel)%nat ->
    pagesLoop fuel i remainingPairs pages
    = pages ++ chunk2 (drop i remainingPairs).
Proof.
  induction fuel as [|fuel IH]; intros i pages Hfuel.
  - destruct (drop i remainingPairs); [|cbn in Hfuel; lia].
    cbn. now rewrite app_nil_r.
  - cbn [pagesLoop]. rewrite length_drop in Hfuel.
    destruct (i <? length remainingPairs)%nat eqn:Hi.
    + apply Nat.ltb_lt in Hi.
      rewrite IH by (rewrite length_drop; lia).
      rewrite (chunk2_step (drop i remainingPairs)).
      * rewrite drop_drop, <- app_assoc. reflexivity.
      * intros Hnil. apply (f_equal length) in Hnil.
        rewrite length_drop in Hnil. cbn in Hnil. lia.
    + apply Nat.ltb_ge in Hi. rewrite drop_ge by lia.
      cbn. now rewrite app_nil_r.
Qed.

Lemma buildPages_chunk2 {A} (first : A) (remainingPairs : list A) :
  buildPages (first :: remainingPairs) = [first] :: chunk2 remainingPairs.
Proof.
  unfold buildPages. rewrite pagesLoop_chunk2 by (rewrite drop_0; lia).
  now rewrite drop_0.
Qed.

(** X11. The pages [PdfDocument] makes of the title/visualization pairs: no
    pair is lost, duplicated or moved; the first page holds exactly the
    first pair and every later page one or two pairs; and the number of
    content pages is the [contentPages] of [calculateTotalPages], that is,
    [calculateTotalPages (pairs) - 3]. *)
Theorem buildPages_layout {A} (pairs : list A) :
  concat (buildPages pairs) = pairs
  /\ Z.of_nat (length (buildPages pairs))
     = calculateTotalPages (Z.of_nat (length pairs)) - 3
  /\ head (buildPages pairs) = (fun first => [first]) <$> head pairs
  /\ Forall (fun pagePairs => (1 <= length pagePairs <= 2)%nat)
            (buildPages pairs).
Proof.
  destruct pairs as [|first remainingPairs]; [repeat split; constructor|].
  rewrite buildPages_chunk2. repeat split.
  - cbn. now rewrite chunk2_concat.
  - cbn [length]. rewrite Nat2Z.inj_succ, chunk2_length.
    rewrite calculateTotalPages_floor by lia.
    rewrite Nat2Z.inj_succ. lia.
  - constructor; [cbn; lia | apply chunk2_sizes].
Qed.

Lemma hasType_title_not_visualization (viz : VisualizationData) :
  hasType "visualizationTitle" viz = true ->
  hasType "Visualization" viz = false.
Proof.
  unfold hasType. intros H. apply String.eqb_eq in H. now rewrite H.
Qed.

Lemma isPairEntry_cases (viz : VisualizationData) :
  isPairEntry viz = true ->
  hasType "visualizationTitle" viz = false ->
  hasType "Visualization" viz = true.
Proof. unfold isPairEntry. intros H Hn. now rewrite Hn in H. Qed.

Lemma pairStep_invariant (entries : list VisualizationData) :
  forall pairs currentPair,
    Forall (fun viz => isPairEntry viz = true) entries ->
    Forall wellFormedPair pairs ->
    pendingTitle currentPair ->
    let '(pairs', currentPair') :=
      fold_left pairStep entries (pairs, currentPair) in
    Forall wellFormedPair pairs'
    /\ pendingTitle currentPair'
    /\ filter (fun viz => hasType "Visualization" viz = true) (concat pairs')
       = filter (fun viz => hasType "Visualization" viz = true) (concat pairs)
         ++ filter (fun viz => hasType "Visualization" viz = true) entries.
Proof.
  induction entries as [|viz entries IH]; intros pairs cur Hall Hpairs Hcur.
  - cbn. now rewrite app_nil_r.
  - inversion Hall as [|? ? Hviz Hrest]; subst.
    cbn [fold_left]. unfold pairStep at 2.
    destruct (hasType "visualizationTitle" viz) eqn:Htitle.
    + pose proof (hasType_title_not_visualization viz Htitle) as Hnv.
      destruct Hcur as [->|(t & -> & Ht)].
      * cbn [length]. change (0 <? Z.of_nat 0) with false. cbv iota.
        specialize (IH pairs [viz] Hrest Hpairs).
        destruct (fold_left pairStep entries (pairs, [viz])) as [pairs' cur'].
        destruct IH as (H1 & H2 & H3); [right; eauto|].
        repeat split; auto. rewrite H3.
        rewrite filter_cons, decide_False by (rewrite Hnv; discriminate).
        reflexivity.
      * cbn [length]. change (0 <? Z.of_nat 1) with true. cbv iota.
        specialize (IH (pairs ++ [[t]]) [viz] Hrest).
        destruct (fold_left pairStep entries (pairs ++ [[t]], [viz]))
          as [pairs' cur'].
        destruct IH as (H1 & H2 & H3).
        { apply Forall_app. split; [exact Hpairs|].
          repeat constructor. exists t. split; [exact Ht | now left]. }
        { right. eauto. }
        repeat split; auto. rewrite H3.
        rewrite concat_app, filter_app. cbn [concat app].
        rewrite (filter_cons _ t), decide_False
          by (rewrite (hasType_title_not_visualization t Ht); discriminate).
        rewrite filter_nil, app_nil_r.
        rewrite (filter_cons _ viz), decide_False by (rewrite Hnv; discriminate).
        reflexivity.
    + pose proof (isPairEntry_cases viz Hviz Htitle) as Hv.
      assert (Hgood : exists t, hasType "visualizationTitle" t = true
                /\ (if Z.of_nat (length cur) =? 0 then [autoTitle viz] else cur)
                   = [t]).
      { destruct Hcur as [->|(t & -> & Ht)]; [exists (autoTitle viz) | exists t];
          split; auto. }
      destruct Hgood as (t & Ht & ->).
      specialize (IH (pairs ++ [[t] ++ [viz]]) [] Hrest).
      destruct (fold_left pairStep entries (pairs ++ [[t] ++ [viz]], []))
        as [pairs' cur'].
      destruct IH as (H1 & H2 & H3).
      { apply Forall_app. split; [exact Hpairs|].
        repeat constructor. exists t. split; [exact Ht|]. right.
        exists viz. split; [exact Hv | reflexivity]. }
      { now left. }
      repeat split; auto. rewrite H3.
      rewrite concat_app, filter_app. cbn [concat app].
      rewrite !filter_cons, filter_nil.
      rewrite (decide_False (P := hasType "Visualization" t = true))
        by (rewrite (hasType_title_not_visualization t Ht); discriminate).
      rewrite !(decide_True (P := hasType "Visualization" viz = true)) by exact Hv.
      rewrite <- app_assoc. reflexivity.
Qed.

(** X12. The pairing of [PdfDocument] loses no visualization: the
    visualization entries of the pairs, read in order, are the visualization
    entries of the input, in order.  Every pair is a title entry followed
    by at most one visualization; entries of any other type (page breaks,
    footers, ...) never reach a pair. *)
Theorem buildPairs_visualizations (visualizations : list VisualizationData) :
  Forall wellFormedPair (buildPairs visualizations)
  /\ filter (fun viz => hasType "Visualization" viz = true)
            (concat (buildPairs visualizations))
     = filter (fun viz => hasType "Visualization" viz = true) visualizations
  /\ buildPairs (filter (fun viz => hasType "PageBreak" viz = false)
                        visualizations)
     = buildPairs visualizations.
Proof.
  unfold buildPairs.
  pose proof (pairStep_invariant
                (filter (fun viz => isPairEntry viz = true) visualizations)
                [] []) as Hinv.
  destruct (fold_left pairStep _ ([], [])) as [pairs cur] eqn:Hfold.
  destruct Hinv as (H1 & _ & H3).
  { apply Forall_forall. intros viz Hin. apply list_elem_of_filter in Hin; tauto. }
  { constructor. }
  { now left. }
  split; [exact H1|]. split.
  - cbn [fst]. rewrite H3. cbn [concat filter]. rewrite filter_nil. cbn [app].
    rewrite list_filter_filter. apply list_filter_iff.
    intros viz. split; [tauto|]. intros Hv. split; [exact Hv|].
    unfold isPairEntry. rewrite Hv. apply orb_true_r.
  - rewrite list_filter_filter.
    rewrite (list_filter_iff _ (fun viz => isPairEntry viz = true));
      [now rewrite Hfold|].
    intros viz. split; [tauto|]. intros Hp. split; [exact Hp|].
    unfold isPairEntry, hasType in *.
    destruct (String.eqb (VisualizationData.type viz) "PageBreak") eqn:Hb;
      [|reflexivity].
    apply String.eqb_eq in Hb. rewrite Hb in Hp. discriminate.
Qed.

(** ** Extra properties: a successful data gathering *)








(** ** Extra properties: from the gathered entries to the merged PDF *)


Lemma filter_all {A} (P : A -> Prop) `{forall x, Decision (P x)} (l : list A) :
  Forall P l -> filter P l = l.
Proof.
  induction 1 as [|x l Hx _ IH]; [reflexivity|].
  now rewrite filter_cons, decide_True, IH.
Qed.













Lemma inOrder_app (a b : list (Result unit)) :
  inOrder (a ++ b) = bind (inOrder a) (fun _ => inOrder b).
Proof.
  induction a as [|[[]|e] a IH]; cbn; [reflexivity | exact IH | reflexivity].
Qed.

Lemma inOrder_ok (calls : list (Result unit)) :
  inOrder calls = Ok tt <-> Forall (fun call => call = Ok tt) calls.
Proof.
  induction calls as [|[[]|e] calls IH]; cbn.
  - split; [constructor | reflexivity].
  - rewrite IH. split; [now constructor | now inversion 1].
  - split; [discriminate | inversion 1; discriminate].
Qed.

Lemma inOrder_first_throw (calls : list (Result unit)) (i : nat) (e : Error) :
  calls !! i = Some (Throw e) ->
  (forall j, (j < i)%nat -> calls !! j = Some (Ok tt)) ->
  inOrder calls = Throw e.
Proof.
  revert i. induction calls as [|call calls IH]; intros i Hi Hbefore.
  - discriminate.
  - destruct i as [|i]; cbn in Hi.
    + injection Hi as ->. reflexivity.
    + pose proof (Hbefore 0%nat ltac:(lia)) as H0. cbn in H0.
      injection H0 as ->. cbn. apply (IH i Hi).
      intros j Hj. exact (Hbefore (S j) ltac:(lia)).
Qed.

Lemma mergePdfContent_inOrder `{PdfLib} (textPositions : TextPositions)
    (names : Names) (formattedTimestamp : string) :
  mergePdfContent textPositions names formattedTimestamp
  = bind (inOrder (pdfLibCalls textPositions names formattedTimestamp))
         (fun _ =>
            Ok ([TemplatePage 0
                   (coverPageTexts textPositions names formattedTimestamp)]
                ++ map ReportPage (seq 0 (pageCount ReportDocument))
                ++ [TemplatePage 1 []])).
Proof.
  unfold mergePdfContent, addCoverPage, addReportPages, addFinalPage,
    pdfLibCalls.
  cbn [app inOrder].
  destruct (copyPages TemplateDocument [0%nat]) as [[]|?]; [|reflexivity].
  destruct (embedFont HelveticaBold) as [[]|?]; [|reflexivity].
  destruct (embedFont Helvetica) as [[]|?]; [|reflexivity].
  cbn [bind]. rewrite inOrder_app.
  destruct (inOrder (map drawText _)) as [[]|?]; [|reflexivity].
  cbn [bind inOrder].
  destruct (copyPages ReportDocument _) as [[]|?]; [|reflexivity].
  cbn [bind].
  destruct (copyPages TemplateDocument [1%nat]) as [[]|?]; reflexivity.
Qed.

(** X15. [mergePdfContent] succeeds exactly when every call it makes into
    pdf-lib succeeds: the copy of template page 0, the two fonts, the three
    texts of the cover page (complete name, dashboard name, timestamp), the
    copy of the report pages and the copy of template page 1.  The merged
    document is then the cover page with the three texts drawn on it,
    every page of the report in order, and template page 1: the report's
    pages plus two; the template has at least two pages.  Otherwise the
    error of the first failing call is thrown, and no document is returned;
    a template of fewer than two pages always ends this way. *)
Theorem mergePdfContent_pages `{PdfLib} (textPositions : TextPositions)
    (names : Names) (formattedTimestamp : string) :
  let texts := coverPageTexts textPositions names formattedTimestamp in
  let calls := pdfLibCalls textPositions names formattedTimestamp in
  let merged := [TemplatePage 0 texts]
                ++ map ReportPage (seq 0 (pageCount ReportDocument))
                ++ [TemplatePage 1 []] in
  (Forall (fun call => call = Ok tt) calls ->
   mergePdfContent textPositions names formattedTimestamp = Ok merged)
  /\ (forall pages,
        mergePdfContent textPositions names formattedTimestamp = Ok pages ->
        Forall (fun call => call = Ok tt) calls
        /\ pages = merged
        /\ length pages = (pageCount ReportDocument + 2)%nat
        /\ (2 <= pageCount TemplateDocument)%nat)
  /\ (forall i e,
        calls !! i = Some (Throw e) ->
        (forall j, (j < i)%nat -> calls !! j = Some (Ok tt)) ->
        mergePdfContent textPositions names formattedTimestamp = Throw e)
  /\ ((pageCount TemplateDocument < 2)%nat ->
      exists e,
        mergePdfContent textPositions names formattedTimestamp = Throw e)
  /\ map text texts = [completeName names; dashboardName names;
                       formattedTimestamp].
Proof.
  intros texts calls merged.
  rewrite mergePdfContent_inOrder. fold texts calls merged.
  assert (Hok : forall pages,
            bind (inOrder calls) (fun _ => Ok merged) = Ok pages ->
            Forall (fun call => call = Ok tt) calls /\ pages = merged).
  { intros pages Hmerge.
    destruct (inOrder calls) as [[]|e] eqn:Hcalls; [|discriminate].
    apply inOrder_ok in Hcalls. cbn in Hmerge. now injection Hmerge as <-. }
  assert (Htemplate : Forall (fun call => call = Ok tt) calls ->
                      (2 <= pageCount TemplateDocument)%nat).
  { intros Hall. subst calls. unfold pdfLibCalls in Hall.
    rewrite !Forall_app in Hall. destruct Hall as (_ & _ & Hlast).
    inversion Hlast as [|? ? _ Hfinal]; subst.
    inversion Hfinal as [|? ? Hcopy _]; subst.
    apply copyPages_in_range in Hcopy.
    inversion Hcopy; subst. lia. }
  split; [|split; [|split; [|split]]].
  - intros Hall. apply inOrder_ok in Hall. now rewrite Hall.
  - intros pages Hmerge. destruct (Hok pages Hmerge) as [Hall ->].
    split; [exact Hall|]. split; [reflexivity|].
    split; [|exact (Htemplate Hall)].
    subst merged. rewrite !length_app, length_map, length_seq. cbn. lia.
  - intros i e Hi Hbefore.
    now rewrite (inOrder_first_throw calls i e Hi Hbefore).
  - intros Hshort.
    destruct (inOrder calls) as [[]|e] eqn:Hcalls; [|now exists e].
    apply inOrder_ok, Htemplate in Hcalls. lia.
  - reflexivity.
Qed.

Lemma mergePdfContent_pages_witness :
  mergePdfContent (H := samplePdfLib 2 4)
    (mkTextPositions (mkTextPosition 20 140 42) (mkTextPosition 20 120 28)
                     (mkTextPosition 20 55 28))
    initialNames "02.11.2026 @ 16:07"
  = Ok ([TemplatePage 0
           (coverPageTexts
              (mkTextPositions (mkTextPosition 20 140 42)
                               (mkTextPosition 20 120 28)
                               (mkTextPosition 20 55 28))
              initialNames "02.11.2026 @ 16:07")]
        ++ map ReportPage (seq 0 4) ++ [TemplatePage 1 []]).
Proof.
  refine (proj1 (mergePdfContent_pages (H := samplePdfLib 2 4) _ initialNames
                   "02.11.2026 @ 16:07") _).
  repeat constructor.
Defined.

(** ** Extra properties: the five phases *)

Lemma showModal_fields (m : ModalMessage) (t : ModalType) (x : float)
    (st : Service) :
  phaseHistory (showModal m t x st) = phaseHistory st
  /\ now (showModal m t x st) = now st
  /\ modalHandlers (showModal m t x st) = modalHandlers st
  /\ scheduledDismissals (showModal m t x st) = scheduledDismissals st
  /\ (modalHandlers st = true ->
      shownModals (showModal m t x st) = shownModals st ++ [mkModalCall m t x]).
Proof.
  unfold showModal. destruct (modalHandlers st) eqn:Hm; cbn; auto.
  repeat split; auto. discriminate.
Qed.

Lemma handleInitialization_keepsHistory : keepsHistory handleInitialization.
Proof. intros st. cbn. apply showModal_fields. Qed.

Lemma handleSuccess_keepsHistory : keepsHistory handleSuccess.
Proof. intros st. cbn. apply showModal_fields. Qed.

Lemma phaseStarted_history (p : PhaseKey) (st : Service) :
  phaseHistory (phaseStarted p st) = phaseHistory st
  /\ now (phaseStarted p st) = now st.
Proof.
  unfold phaseStarted.
  destruct (updateProgress_history p 0
              (set_phaseTracker
                 (mkPhaseTracking p (now st) (getPhaseHistoryRef st p)) st))
    as [-> ->].
  done.
Qed.

Lemma executePhase_history_step {T} (p : PhaseKey) (operation : Operation T)
    (st : Service) :
  keepsHistory operation ->
  exists duration,
    phaseHistory (snd (executePhase p operation st))
    = <[p := pushDuration (getPhaseHistory st p) duration]> (phaseHistory st)
    /\ fst (executePhase p operation st) = fst (operation (phaseStarted p st)).
Proof.
  intros Hkeep.
  pose proof (executePhase_records p operation st) as Hrec.
  pose proof (Hkeep (phaseStarted p st)) as Hk.
  destruct (operation (phaseStarted p st)) as [outcome st1].
  destruct (executePhase p operation st) as [result st'].
  destruct Hrec as [-> Hh]. cbn in *.
  destruct (phaseStarted_history p st) as [Hs _].
  exists (now st1 - now st). split; [|reflexivity].
  rewrite Hh. unfold getPhaseHistory. now rewrite Hk, Hs.
Qed.

Lemma handleError_history (e : Error) (st : Service) :
  phaseHistory (handleError e st) = phaseHistory st
  /\ scheduledDismissals (handleError e st) = scheduledDismissals st ++ [3000]
  /\ (modalHandlers st = true ->
      last (shownModals (handleError e st))
      = Some (mkModalCall
                (if truthy (message e) then ErrorText (message e)
                 else PhaseMessageOf data_gathering)
                ErrorModal 0)).
Proof.
  unfold handleError, scheduleModalDismissal. cbn.
  destruct (showModal_fields
              (if truthy (message e) then ErrorText (message e)
               else PhaseMessageOf data_gathering) ErrorModal 0 st)
    as (Hh & _ & _ & Hd & Hs).
  repeat split; [exact Hh | now rewrite Hd |].
  intros Hm. rewrite (Hs Hm). apply last_snoc.
Qed.

(** X16. A run of [generatePdfReport] in which the three handlers succeed
    executes the five phases: the history of every phase has received
    exactly one new duration. *)
Theorem generatePdfReport_records_every_phase {D}
    (handleDataCollection : Operation D)
    (handleInformationRetrieval : Operation unit)
    (handlePdfGeneration : D -> Operation unit) (st : Service) :
  keepsHistory handleDataCollection -> alwaysSucceeds handleDataCollection ->
  keepsHistory handleInformationRetrieval ->
  alwaysSucceeds handleInformationRetrieval ->
  (forall d, keepsHistory (handlePdfGeneration d)
             /\ alwaysSucceeds (handlePdfGeneration d)) ->
  forall p,
    exists duration,
      phaseHistory
        (generatePdfReport handleDataCollection handleInformationRetrieval
                           handlePdfGeneration st) !! p
      = Some (pushDuration (getPhaseHistory st p) duration).
Proof.
  intros Hk1 Hs1 Hk2 Hs2 Hpdf p. unfold generatePdfReport.
  destruct (executePhase_history_step initialization handleInitialization st
              handleInitialization_keepsHistory) as (d0 & Hh0 & Hr0).
  destruct (executePhase initialization handleInitialization st) as [r0 st0].
  cbn in Hh0, Hr0. subst r0.
  destruct (executePhase_history_step data_gathering handleDataCollection st0 Hk1)
    as (d1 & Hh1 & Hr1).
  destruct (Hs1 (phaseStarted data_gathering st0)) as (dash & ? & Hop1).
  rewrite Hop1 in Hr1.
  destruct (executePhase data_gathering handleDataCollection st0) as [r1 st1].
  cbn in Hh1, Hr1. subst r1.
  destruct (executePhase_history_step info_retrieval handleInformationRetrieval
              st1 Hk2) as (d2 & Hh2 & Hr2).
  destruct (Hs2 (phaseStarted info_retrieval st1)) as (? & ? & Hop2).
  rewrite Hop2 in Hr2.
  destruct (executePhase info_retrieval handleInformationRetrieval st1) as [r2 st2].
  cbn in Hh2, Hr2. subst r2.
  destruct (Hpdf dash) as [Hk3 Hs3].
  destruct (executePhase_history_step pdf_generation (handlePdfGeneration dash)
              st2 Hk3) as (d3 & Hh3 & Hr3).
  destruct (Hs3 (phaseStarted pdf_generation st2)) as (? & ? & Hop3).
  rewrite Hop3 in Hr3.
  destruct (executePhase pdf_generation (handlePdfGeneration dash) st2) as [r3 st3].
  cbn in Hh3, Hr3. subst r3.
  destruct (executePhase_history_step success handleSuccess st3
              handleSuccess_keepsHistory) as (d4 & Hh4 & Hr4).
  destruct (executePhase success handleSuccess st3) as [r4 st4].
  cbn in Hh4, Hr4. subst r4. cbn.
  rewrite Hh4.
  unfold getPhaseHistory in *. rewrite Hh3, Hh2, Hh1, Hh0.
  destruct p; [exists d0 | exists d1 | exists d2 | exists d3 | exists d4];
    rewrite ?lookup_insert_eq, ?(lookup_insert_ne _ _ _ _ ltac:(discriminate));
    repeat (rewrite lookup_insert_ne by discriminate);
    rewrite ?lookup_insert_eq; cbn;
    repeat (rewrite lookup_insert_ne by discriminate); reflexivity.
Qed.

Lemma timedOperation_keeps (ms : Z) (outcome : Result unit) :
  keepsHistory (timedOperation ms outcome).
Proof. intros st. reflexivity. Qed.

Lemma timedCollection_keeps (ms : Z) (outcome : Result (list VisualizationData)) :
  keepsHistory (timedCollection ms outcome).
Proof. intros st. reflexivity. Qed.

Lemma generatePdfReport_records_every_phase_witness :
  exists duration,
    phaseHistory
      (generatePdfReport (timedCollection 4000 (Ok []))
                         (timedOperation 300 (Ok tt))
                         (fun _ => timedOperation 900 (Ok tt))
                         (newService 0)) !! pdf_generation
    = Some (pushDuration (getPhaseHistory (newService 0) pdf_generation)
                         duration).
Proof.
  refine (generatePdfReport_records_every_phase
            (timedCollection 4000 (Ok [])) (timedOperation 300 (Ok tt))
            (fun _ => timedOperation 900 (Ok tt)) (newService 0)
            _ _ _ _ _ pdf_generation).
  - apply timedCollection_keeps.
  - intros st. eexists _, _. reflexivity.
  - apply timedOperation_keeps.
  - intros st. eexists _, _. reflexivity.
  - intros _. split; [apply timedOperation_keeps|].
    intros st. eexists _, _. reflexivity.
Defined.

Lemma updateProgress_dismissals (p : PhaseKey) (x : float) (st : Service) :
  scheduledDismissals (updateProgress p x st) = scheduledDismissals st.
Proof.
  unfold updateProgress, updateModalProgress. cbn.
  destruct (modalHandlers st); [|reflexivity].
  destruct (phaseTracker st); [|reflexivity].
  unfold showModal. cbn. now destruct (modalHandlers st).
Qed.

Lemma phaseStarted_dismissals (p : PhaseKey) (st : Service) :
  scheduledDismissals (phaseStarted p st) = scheduledDismissals st.
Proof. unfold phaseStarted. now rewrite updateProgress_dismissals. Qed.

Lemma executePhase_unfold {T} (p : PhaseKey) (operation : Operation T)
    (st : Service) :
  executePhase p operation st
  = match operation (phaseStarted p st) with
    | (Ok result, st1) =>
        (Ok result,
         updatePhaseHistory p (now st1 - now st) (updateProgress p 1 st1))
    | (Throw error, st1) =>
        (Throw error, updatePhaseHistory p (now st1 - now st) st1)
    end.
Proof.
  unfold executePhase. fold (phaseStarted p st).
  destruct (operation (phaseStarted p st)) as [[result|error] st1];
    [|reflexivity].
  cbv zeta. now rewrite (proj2 (updateProgress_history p 1 st1)).
Qed.

(** X17. When the data collection throws, [generatePdfReport] stops there:
    the phases after it are not executed (their histories are untouched),
    the duration of the failed phase is on record, and the error goes to
    [handleError] exactly once.  Counted from the state in which the data
    collection ended, the run shows exactly one more modal, the error modal
    with the error's message (or, if it has none, the data-gathering
    message) at progress 0, and none without modal handlers; and it sets
    exactly one more dismissal timer, of 3000 ms.  No timer was set before
    the data collection started. *)
Theorem generatePdfReport_stops_at_failure {D}
    (handleDataCollection : Operation D)
    (handleInformationRetrieval : Operation unit)
    (handlePdfGeneration : D -> Operation unit) (e : Error) (st : Service) :
  keepsHistory handleDataCollection ->
  alwaysThrows handleDataCollection e ->
  let final := generatePdfReport handleDataCollection
                 handleInformationRetrieval handlePdfGeneration st in
  let started :=
    phaseStarted data_gathering
      (snd (executePhase initialization handleInitialization st)) in
  let collected := snd (handleDataCollection started) in
  (forall p, p ∈ [info_retrieval; pdf_generation; success] ->
             phaseHistory final !! p = phaseHistory st !! p)
  /\ phaseHistory final !! data_gathering
     = Some (pushDuration (getPhaseHistory st data_gathering)
                          (now collected - now started))
  /\ shownModals final
     = shownModals collected
       ++ (if modalHandlers collected
           then [mkModalCall
                   (if truthy (message e) then ErrorText (message e)
                    else PhaseMessageOf data_gathering)
                   ErrorModal 0]
           else [])
  /\ scheduledDismissals final = scheduledDismissals collected ++ [3000]
  /\ scheduledDismissals started = scheduledDismissals st.
Proof.
  intros Hk1 Hthrow final started collected.
  assert (Hfinal : final
            = handleError e
                (updatePhaseHistory data_gathering
                   (now collected - now started) collected)).
  { subst final collected started. unfold generatePdfReport.
    rewrite (executePhase_unfold initialization). cbn [handleInitialization].
    cbv beta iota. rewrite (executePhase_unfold data_gathering).
    set (st0 := updatePhaseHistory initialization _ _).
    change (snd (Ok tt, st0)) with st0.
    destruct (Hthrow (phaseStarted data_gathering st0)) as (st1 & Hop).
    rewrite Hop. cbn [snd]. f_equal. f_equal.
    now rewrite (proj2 (phaseStarted_history data_gathering st0)). }
  destruct (executePhase_history_step initialization handleInitialization st
              handleInitialization_keepsHistory) as (d0 & Hh0 & _).
  assert (Hhs : phaseHistory started
                = <[initialization :=
                      pushDuration (getPhaseHistory st initialization) d0]>
                    (phaseHistory st)).
  { subst started. now rewrite (proj1 (phaseStarted_history _ _)). }
  assert (Hhc : phaseHistory collected = phaseHistory started)
    by (subst collected; apply Hk1).
  split; [|split; [|split; [|split]]].
  - intros p Hp. rewrite Hfinal.
    rewrite (proj1 (handleError_history _ _)). cbn.
    assert (p <> data_gathering /\ p <> initialization) as [H1 H2]
      by (apply list_elem_of_In in Hp; cbn in Hp;
          destruct Hp as [<- | [<- | [<- | []]]]; split; discriminate).
    rewrite lookup_insert_ne by done. rewrite Hhc, Hhs.
    now rewrite lookup_insert_ne by done.
  - rewrite Hfinal. rewrite (proj1 (handleError_history _ _)). cbn.
    rewrite lookup_insert_eq. unfold getPhaseHistory.
    rewrite Hhc, Hhs. now rewrite lookup_insert_ne by discriminate.
  - rewrite Hfinal. unfold handleError, scheduleModalDismissal, showModal.
    cbn. destruct (modalHandlers collected); cbn; [reflexivity|].
    now rewrite app_nil_r.
  - rewrite Hfinal. unfold handleError, scheduleModalDismissal, showModal.
    cbn. destruct (modalHandlers collected); reflexivity.
  - subst started. rewrite phaseStarted_dismissals, executePhase_unfold.
    unfold handleInitialization.
    cbn -[updateProgress showModal phaseStarted calculateProgress].
    rewrite updateProgress_dismissals.
    rewrite (proj1 (proj2 (proj2 (proj2 (showModal_fields _ _ _ _))))).
    apply phaseStarted_dismissals.
Qed.

Lemma generatePdfReport_stops_at_failure_witness :
  let service := setModalHandlers (newService 0) in
  let final := generatePdfReport
                 (timedCollection 4000 (Throw noValidPanels))
                 (timedOperation 300 (Ok tt))
                 (fun _ => timedOperation 900 (Ok tt)) service in
  let started :=
    phaseStarted data_gathering
      (snd (executePhase initialization handleInitialization service)) in
  let collected :=
    snd (timedCollection 4000 (Throw noValidPanels) started) in
  (forall p, p ∈ [info_retrieval; pdf_generation; success] ->
             phaseHistory final !! p = phaseHistory service !! p)
  /\ phaseHistory final !! data_gathering
     = Some (pushDuration (getPhaseHistory service data_gathering)
                          (now collected - now started))
  /\ shownModals final
     = shownModals collected
       ++ (if modalHandlers collected
           then [mkModalCall
                   (if truthy (message noValidPanels)
                    then ErrorText (message noValidPanels)
                    else PhaseMessageOf data_gathering)
                   ErrorModal 0]
           else [])
  /\ scheduledDismissals final = scheduledDismissals collected ++ [3000]
  /\ scheduledDismissals started = scheduledDismissals service.
Proof.
  apply (generatePdfReport_stops_at_failure
           (timedCollection 4000 (Throw noValidPanels))
           (timedOperation 300 (Ok tt))
           (fun _ => timedOperation 900 (Ok tt)) noValidPanels
           (setModalHandlers (newService 0))).
  - apply timedCollection_keeps.
  - intros st. eexists. reflexivity.
Defined.

(** X18. The progress bar is continuous across the phases: a run starts at
    0 percent, every phase starts at the percentage the phase before it
    ended with, and the last phase ends at 100 percent (5, 70, 90, 95 and
    100 at the ends of the phases). *)
Theorem calculateProgress_phase_boundaries :
  calculateProgress initialization 0 = 0%float
  /\ calculateProgress success 1 = 100%float
  /\ (forall i p q,
        phaseKeys !! i = Some p -> phaseKeys !! S i = Some q ->
        calculateProgress q 0 = calculateProgress p 1)
  /\ map (fun p => calculateProgress p 1) phaseKeys
     = [5; 70; 90; 95; 100]%float.
Proof.
  split; [vm_compute; reflexivity|].
  split; [vm_compute; reflexivity|].
  split; [|vm_compute; reflexivity].
  intros i p q Hp Hq.
  do 4 (destruct i as [|i];
        [cbn in Hp, Hq; injection Hp as <-; injection Hq as <-;
         vm_compute; reflexivity|]).
  destruct i; discriminate.
Qed.

(** ** Extra properties: cleanup after a capture *)

Lemma removeChild_absent (node : positive) (children : list positive) :
  Forall (fun child => (child < node)%positive) children ->
  removeChild node children = children.
Proof.
  intros Hall. unfold removeChild. apply filter_all.
  eapply Forall_impl; [exact Hall|]. intros child Hlt; cbn in *; lia.
Qed.

Lemma removeChild_last (node : positive) (children : list positive) :
  Forall (fun child => (child < node)%positive) children ->
  removeChild node (children ++ [node]) = children.
Proof.
  intros Hall. unfold removeChild. rewrite filter_app.
  rewrite (filter_all _ children)
    by (eapply Forall_impl; [exact Hall|]; intros child Hlt; cbn in *; lia).
  rewrite filter_cons, decide_False by auto. now rewrite app_nil_r.
Qed.

(** X19. Cleanup after [capturePanelScreenshot].  Whatever branch is taken
    and whether [html2canvas] resolves or rejects, the inline visibility of
    the captured element is what it was before the call, [onProgress] (when
    given) has been called exactly once, and a rejection is rethrown as it
    is.  In the time-series, metric and default branches no clone is left
    in the document.  In the arc branch the first clone stays attached to
    [document.body]: the variable that held it is reassigned to the second
    clone, which is the only one removed. *)
Theorem captureSteps_cleanup (profile : CaptureProfile) (onProgress : bool)
    (render : Result Canvas) (toDataURL : list Z -> string)
    (dom : CaptureDom) :
  nodesKnown dom ->
  let result := fst (captureSteps profile onProgress render toDataURL dom) in
  let dom' := snd (captureSteps profile onProgress render toDataURL dom) in
  elementVisibility dom' = elementVisibility dom
  /\ onProgressCalls dom'
     = (onProgressCalls dom + if onProgress then 1 else 0)%nat
  /\ result
     = match render with
       | Ok canvas =>
           Ok (toDataURL (postProcess profile (has2dContext canvas)
                                      (pixels canvas)))
       | Throw error => Throw error
       end
  /\ (profile <> ArcProfile -> bodyChildren dom' = bodyChildren dom)
  /\ (profile = ArcProfile ->
      bodyChildren dom' = bodyChildren dom ++ [nextNode dom])
  /\ nodesKnown dom'.
Proof.
  intros Hknown. unfold nodesKnown in *.
  assert (Hfirst : Forall (fun child => (child < Pos.succ (nextNode dom))%positive)
                          (bodyChildren dom ++ [nextNode dom])).
  { apply Forall_app. split.
    - eapply Forall_impl; [exact Hknown|]. intros child Hlt; cbn in *; lia.
    - repeat constructor. lia. }
  destruct profile; cbn.
  - (* arc *)
    rewrite (removeChild_last _ _ Hfirst).
    rewrite bool_decide_false.
    2:{ intros Hin. rewrite Forall_forall in Hfirst.
        specialize (Hfirst _ Hin). lia. }
    repeat split; try (destruct onProgress; lia); try done.
    cbn. eapply Forall_impl; [exact Hfirst|]. intros child Hlt; cbn in *; lia.
  - rewrite bool_decide_true by set_solver.
    rewrite (removeChild_last _ _ Hknown).
    repeat split; try (destruct onProgress; lia); try done.
    cbn. eapply Forall_impl; [exact Hknown|]. intros child Hlt; cbn in *; lia.
  - rewrite bool_decide_true by set_solver.
    rewrite (removeChild_last _ _ Hknown).
    repeat split; try (destruct onProgress; lia); try done.
    cbn. eapply Forall_impl; [exact Hknown|]. intros child Hlt; cbn in *; lia.
  - rewrite bool_decide_true by set_solver.
    rewrite (removeChild_last _ _ Hknown).
    repeat split; try (destruct onProgress; lia); try done.
    cbn. eapply Forall_impl; [exact Hknown|]. intros child Hlt; cbn in *; lia.
Qed.

Lemma captureSteps_cleanup_witness :
  let dom := mkCaptureDom "visible" [] 1%positive 0 in
  let render := Throw (mkError "Tainted canvases may not be exported" None) in
  let result := fst (captureSteps ArcProfile true render (fun _ => "data:,") dom) in
  let dom' := snd (captureSteps ArcProfile true render (fun _ => "data:,") dom) in
  elementVisibility dom' = elementVisibility dom
  /\ onProgressCalls dom' = (onProgressCalls dom + 1)%nat
  /\ result = Throw (mkError "Tainted canvases may not be exported" None)
  /\ (ArcProfile <> ArcProfile -> bodyChildren dom' = bodyChildren dom)
  /\ (ArcProfile = ArcProfile ->
      bodyChildren dom' = bodyChildren dom ++ [nextNode dom])
  /\ nodesKnown dom'.
Proof.
  apply (captureSteps_cleanup ArcProfile true
           (Throw (mkError "Tainted canvases may not be exported" None))
           (fun _ => "data:,") (mkCaptureDom "visible" [] 1%positive 0)).
  constructor.
Defined.

(** ** Extra properties: names *)

(** X20. [retrieveTenantInfo] fails exactly when the actions menu is
    missing, with the message [Tenant information retrieval failed] and the
    click error as cause; the names are then not updated.  When it succeeds
    and the tenant element is missing or blank, the tenant name is the
    capitalised default [Private]. *)
Theorem retrieveTenantInfo_outcomes `{StringPrototype} (dom : InfoDom)
    (names : Names) :
  (actionsMenu dom = false ->
     retrieveTenantInfo dom names
     = Throw (mkError "Tenant information retrieval failed"
                      (Some "Element not found: actionsMenu"))
     /\ handleInformationRetrieval_names dom names
        = Throw (mkError "Tenant information retrieval failed"
                         (Some "Element not found: actionsMenu")))
  /\ (actionsMenu dom = true ->
      exists names', retrieveTenantInfo dom names = Ok names'
        /\ (or_else (option_map trim (tenantNameElement dom)) EmptyString
            = EmptyString ->
            tenantName names' = capitalizeFirstLetter "Private"
            /\ completeName names' = capitalizeFirstLetter "Private")).
Proof.
  split; intros Hmenu.
  - unfold handleInformationRetrieval_names, retrieveTenantInfo, clickActionsMenu.
    now rewrite Hmenu.
  - unfold retrieveTenantInfo, clickActionsMenu. rewrite Hmenu. cbn.
    eexists. split; [reflexivity|]. cbn. intros Hblank.
    assert (Hdef : or_else (option_map trim (tenantNameElement dom))
                     DEFAULT_TENANT_NAME = "Private").
    { unfold or_else in *.
      destruct (option_map trim (tenantNameElement dom)) as [t|]; [|reflexivity].
      destruct (truthy t) eqn:Ht; [|reflexivity]. subst t. discriminate. }
    now rewrite Hdef.
Qed.

Lemma retrieveTenantInfo_outcomes_witness :
  retrieveTenantInfo (H := Ascii7.ascii_prototype)
    (mkInfoDom false (Some "ABC") None None "Web traffic") initialNames
  = Throw (mkError "Tenant information retrieval failed"
                   (Some "Element not found: actionsMenu"))
  /\ handleInformationRetrieval_names (H := Ascii7.ascii_prototype)
       (mkInfoDom false (Some "ABC") None None "Web traffic") initialNames
     = Throw (mkError "Tenant information retrieval failed"
                      (Some "Element not found: actionsMenu")).
Proof.
  refine (proj1 (retrieveTenantInfo_outcomes (H := Ascii7.ascii_prototype)
                   (mkInfoDom false (Some "ABC") None None "Web traffic")
                   initialNames) _).
  reflexivity.
Defined.

(** ** Extra properties: the near-white snap, again *)

Lemma snapPixel_idempotent (px : Z * Z * Z * Z) :
  snapPixel (snapPixel px) = snapPixel px.
Proof.
  destruct px as [[[r g] b] a]. unfold snapPixel.
  destruct ((240 <? r) && (240 <? g) && (240 <? b)) eqn:Hc; [reflexivity|].
  now rewrite Hc.
Qed.

Lemma snapBuffer_idempotent (data : list Z) :
  snapBuffer (snapBuffer data) = snapBuffer data.
Proof.
  assert (H : forall n (l : list Z), (length l <= n)%nat ->
                snapBuffer (snapBuffer l) = snapBuffer l).
  { induction n as [|n IH]; intros l Hlen.
    - destruct l; [reflexivity | cbn in Hlen; lia].
    - destruct l as [|r [|g [|b [|a rest]]]]; try reflexivity.
      cbn [snapBuffer].
      pose proof (snapPixel_idempotent (r, g, b, a)) as Hidem.
      destruct (snapPixel (r, g, b, a)) as [[[r' g'] b'] a'].
      cbn [snapBuffer]. rewrite Hidem.
      rewrite IH by (cbn in Hlen; lia). reflexivity. }
  apply (H (length data)). lia.
Qed.

(** X22. The near-white snap is idempotent on an RGBA buffer: snapping an
    image that has been snapped changes nothing; and it only ever raises a
    channel. *)
Theorem nearWhiteSnap_idempotent (data : list Z) (n : nat) :
  length data = (4 * n)%nat ->
  nearWhiteSnap (nearWhiteSnap data) = nearWhiteSnap data
  /\ (Forall (fun v => v <= 255) data ->
      Forall2 Z.le data (nearWhiteSnap data)).
Proof.
  intros Hlen.
  rewrite (nearWhiteSnap_buffer data n Hlen).
  rewrite (nearWhiteSnap_buffer (snapBuffer data) n)
    by (rewrite (snapBuffer_length n); assumption).
  split; [apply snapBuffer_idempotent|].
  clear Hlen. revert data.
  assert (H : forall m (l : list Z), (length l <= m)%nat ->
                Forall (fun v => v <= 255) l -> Forall2 Z.le l (snapBuffer l)).
  { induction m as [|m IH]; intros l Hlen Hmax.
    - destruct l; [constructor | cbn in Hlen; lia].
    - destruct l as [|r [|g [|b [|a rest]]]];
        try (apply Forall2_same_length_lookup; split; [reflexivity|];
             intros i x y Hx Hy; cbn in Hy; rewrite Hx in Hy;
             injection Hy as <-; lia).
      cbn [snapBuffer]. unfold snapPixel.
      inversion Hmax as [|? ? Hr Hmax1]; subst.
      inversion Hmax1 as [|? ? Hg Hmax2]; subst.
      inversion Hmax2 as [|? ? Hb Hmax3]; subst.
      inversion Hmax3 as [|? ? Ha Hmax4]; subst.
      destruct ((240 <? r) && (240 <? g) && (240 <? b));
        repeat (constructor; [lia|]); apply IH; auto; cbn in Hlen; lia. }
  intros data. apply (H (length data)). lia.
Qed.

Lemma nearWhiteSnap_idempotent_witness :
  nearWhiteSnap (nearWhiteSnap [245; 248; 250; 255; 200; 250; 250; 0])
  = nearWhiteSnap [245; 248; 250; 255; 200; 250; 250; 0]
  /\ (Forall (fun v => v <= 255) [245; 248; 250; 255; 200; 250; 250; 0] ->
      Forall2 Z.le [245; 248; 250; 255; 200; 250; 250; 0]
              (nearWhiteSnap [245; 248; 250; 255; 200; 250; 250; 0])).
Proof.
  apply (nearWhiteSnap_idempotent [245; 248; 250; 255; 200; 250; 250; 0] 2).
  reflexivity.
Defined.

(** ** Extra properties: the asset cache *)

(** X6. The logo is fetched at most once while it is cached: after a
    [getLogo] that returned a non-empty logo, every further [getLogo]
    returns the same logo without sending a request, whatever the server
    would answer; after [clearCache] the next [getLogo] sends a request
    again.  A failed request is reported as [Failed to fetch logo: ...] and
    caches nothing. *)
Theorem getLogo_cache (response : Result string) (service : AssetService) :
  (forall data service',
     getLogo response service = (Ok data, service') ->
     truthy data = true ->
     (forall response', getLogo response' service' = (Ok data, service'))
     /\ (forall response',
           requests (snd (getLogo response' (clearCache service')))
           = requests service'
             ++ ["/api/canvas_report_data_analyzer/assets/logo"]))
  /\ (forall error service',
        getLogo response service = (Throw error, service') ->
        exists cause,
          response = Throw cause
          /\ message error
             = String.append "Failed to fetch logo: " (message cause)
          /\ logoCache service' = logoCache service).
Proof.
  split.
  - intros data service' Hget Htruthy.
    assert (Hcache : logoCache service' = Some data).
    { unfold getLogo in Hget.
      destruct (logoCache service) as [cached|] eqn:Hc;
        [destruct (truthy cached) eqn:Ht|];
        destruct response; try discriminate;
        injection Hget as <- <-; cbn; congruence. }
    split.
    + intros response'. unfold getLogo. now rewrite Hcache, Htruthy.
    + intros response'. unfold getLogo, clearCache. cbn.
      destruct response'; reflexivity.
  - intros error service' Hget. unfold getLogo in Hget.
    destruct (logoCache service) as [cached|] eqn:Hc;
      [destruct (truthy cached) eqn:Ht|];
      destruct response as [data|cause]; try discriminate;
      injection Hget as <- <-; exists cause; cbn; auto.
Qed.

Lemma getLogo_cache_witness :
  (forall response',
     getLogo response'
       (mkAssetService (Some "iVBORw0KGgo=") None
          ["/api/canvas_report_data_analyzer/assets/logo"])
     = (Ok "iVBORw0KGgo=",
        mkAssetService (Some "iVBORw0KGgo=") None
          ["/api/canvas_report_data_analyzer/assets/logo"]))
  /\ (forall response',
        requests
          (snd (getLogo response'
                  (clearCache
                     (mkAssetService (Some "iVBORw0KGgo=") None
                        ["/api/canvas_report_data_analyzer/assets/logo"]))))
        = requests
            (mkAssetService (Some "iVBORw0KGgo=") None
               ["/api/canvas_report_data_analyzer/assets/logo"])
          ++ ["/api/canvas_report_data_analyzer/assets/logo"]).
Proof.
  refine (proj1 (getLogo_cache (Ok "iVBORw0KGgo=") (mkAssetService None None []))
            "iVBORw0KGgo="
            (mkAssetService (Some "iVBORw0KGgo=") None
               ["/api/canvas_report_data_analyzer/assets/logo"]) _ _);
    reflexivity.
Defined.

(** ** Extra properties: the organization name *)

Lemma string_length_append (a b : string) :
  String.length (String.append a b) = (String.length a + String.length b)%nat.
Proof.
  induction a as [|c a IH]; [reflexivity|].
  change (S (String.length (String.append a b))
          = S (String.length a + String.length b)).
  now f_equal.
Qed.

Lemma string_split_at (s : string) :
  forall (n : nat) (c : ascii),
    String.get n s = Some c ->
    s = String.append (substring 0 n s)
          (String c (substring (S n) (String.length s - S n) s))
    /\ String.length (substring 0 n s) = n
    /\ (n < String.length s)%nat.
Proof.
  induction s as [|d s IH]; intros n c Hget; [destruct n; discriminate|].
  destruct n as [|n].
  - cbn in Hget. injection Hget as <-. cbn.
    rewrite Nat.sub_0_r.
    assert (Hall : forall t, substring 0 (String.length t) t = t)
      by (induction t as [|e t IHt]; cbn; [reflexivity | now rewrite IHt]).
    rewrite Hall. repeat split. lia.
  - cbn in Hget. destruct (IH n c Hget) as (Heq & Hlen & Hlt).
    cbn [substring String.length String.append].
    replace (S (String.length s) - S (S n))%nat
      with (String.length s - S n)%nat by lia.
    split; [rewrite Heq at 1; reflexivity|].
    split; [now rewrite Hlen | lia].
Qed.

Lemma lastIndexOfSpace_from_found (s : string) :
  forall (i fromIndex : Z),
    0 <= i ->
    let r := lastIndexOfSpace_from s i fromIndex in
    r = -1
    \/ (i <= r <= fromIndex
        /\ String.get (Z.to_nat (r - i)) s = Some " "%char).
Proof.
  induction s as [|c s IH]; intros i fromIndex Hi; cbn; [now left|].
  destruct (fromIndex <? i) eqn:Hfrom; [now left|].
  apply Z.ltb_ge in Hfrom.
  destruct (IH (i + 1) fromIndex ltac:(lia)) as [Hnone|[Hrange Hget]];
    cbv zeta in *.
  - rewrite Hnone. cbn.
    destruct (Ascii.eqb c " ") eqn:Hc; [|now left].
    apply Ascii.eqb_eq in Hc. subst c. right.
    split; [lia|]. now rewrite Z.sub_diag.
  - replace (0 <=? lastIndexOfSpace_from s (i + 1) fromIndex) with true
      by (symmetry; apply Z.leb_le; lia).
    right. split; [lia|].
    replace (Z.to_nat (lastIndexOfSpace_from s (i + 1) fromIndex - i))
      with (S (Z.to_nat (lastIndexOfSpace_from s (i + 1) fromIndex - (i + 1))))
      by lia.
    exact Hget.
Qed.

(** X21. [formatOrganizationName] keeps the characters of the sanitized
    name and their number.  The result is the sanitized name itself, or
    the sanitized name is longer than 29 characters and one of its spaces,
    at an index of at most 29, is replaced by a line break: the first line
    is then at most 29 characters long.  A sanitized name of at most 29
    characters is therefore returned as it is. *)
Theorem formatOrganizationName_layout (fullText : string) :
  let sanitized := filterString allowedInName fullText in
  String.length (formatOrganizationName fullText) = String.length sanitized
  /\ (formatOrganizationName fullText = sanitized
      \/ exists first rest,
           sanitized = String.append first (String " " rest)
           /\ formatOrganizationName fullText
              = String.append first (String.append newline rest)
           /\ (String.length first <= 29)%nat
           /\ (29 < String.length sanitized)%nat).
Proof.
  intros sanitized. unfold formatOrganizationName. fold sanitized.
  unfold MAX_TENANT_NAME_LENGTH.
  destruct (Z.of_nat (String.length sanitized) <=? 29) eqn:Hshort.
  - split; [reflexivity | now left].
  - apply Z.leb_gt in Hshort.
    destruct (lastIndexOfSpace sanitized 29 =? -1) eqn:Hidx.
    + split; [reflexivity | now left].
    + apply Z.eqb_neq in Hidx. unfold lastIndexOfSpace in *.
      destruct (lastIndexOfSpace_from_found sanitized 0 29 ltac:(lia))
        as [Hnone|[Hrange Hget]]; [contradiction|].
      cbv zeta in Hrange, Hget. rewrite Z.sub_0_r in Hget.
      set (idx := Z.to_nat (lastIndexOfSpace_from sanitized 0 29)) in *.
      destruct (string_split_at sanitized idx " "%char Hget)
        as (Hsplit & Hlen & Hlt).
      replace (idx + 1)%nat with (S idx) by lia.
      set (first := substring 0 idx sanitized) in *.
      set (rest := substring (S idx) (String.length sanitized - S idx)
                     sanitized) in *.
      assert (Hsize : String.length sanitized
                      = (String.length first + S (String.length rest))%nat).
      { rewrite Hsplit at 1. now rewrite string_length_append. }
      split.
      * rewrite !string_length_append. cbn. lia.
      * right. exists first, rest. split; [exact Hsplit|].
        split; [reflexivity|]. rewrite Hlen. split; lia.
Qed.

(** ** Extra properties: the panel captures interleaved *)

Lemma assignStyle_visibility_same (style : Style.t) :
  assignStyle style (visibilityOnly (Style.visibility style)) = style.
Proof. now destruct style. Qed.

Lemma styleOf_setVisibility (element el : Element) (value : string)
    (page0 : gmap Element Style.t) :
  styleOf (setVisibility element value page0) el =
  if decide (element = el)
  then assignStyle (styleOf page0 el) (visibilityOnly value)
  else styleOf page0 el.
Proof. apply styleOf_assignTo. Qed.

Lemma taskState_page `{Capture} (totalPanels : Z)
    (base page1 page2 : gmap Element Style.t) (i : nat) (panel : Panel)
    (task : PanelTask) :
  styleOf page2 (panel_element panel) = styleOf page1 (panel_element panel) ->
  taskState totalPanels base page1 i panel task ->
  taskState totalPanels base page2 i panel task.
Proof. intros Heq. destruct task; cbn; rewrite Heq; auto. Qed.

Lemma sum_list_insert {A} (f : A -> nat) (l : list A) :
  forall (i : nat) (x y : A),
    l !! i = Some x ->
    (sum_list (map f (<[i := y]> l)) + f x = sum_list (map f l) + f y)%nat.
Proof.
  induction l as [|a l IH]; intros i x y Hi; [discriminate|].
  destruct i as [|i]; simpl in *.
  - injection Hi as ->. lia.
  - pose proof (IH i x y Hi). lia.
Qed.

(** One step of one callback. *)
Lemma resumePanel_step `{Capture} (totalPanels : Z)
    (base page0 : gmap Element Style.t) (i : nat) (panel : Panel)
    (task : PanelTask) (ticks : nat) :
  taskState totalPanels base page0 i panel task ->
  let '(task', page', ticks') :=
    resumePanel totalPanels (Z.of_nat i) panel task page0 ticks in
  taskState totalPanels base page' i panel task'
  /\ (forall el, el <> panel_element panel ->
                 styleOf page' el = styleOf page0 el)
  /\ (ticks' + ticksOf task = ticks + ticksOf task')%nat
  /\ (finished task -> task' = task).
Proof.
  intros Hstate.
  destruct task as [|v|v|screenshot|visualizations|error]; cbn in *.
  - split; [|split; [|split]].
    + split; [now rewrite Hstate|].
      rewrite styleOf_setVisibility, decide_True by done. now rewrite Hstate.
    + intros el Hel. now rewrite styleOf_setVisibility, decide_False.
    + lia.
    + contradiction.
  - split; [exact Hstate|]. split; [reflexivity|]. split; [lia | contradiction].
  - destruct Hstate as [Hv Hpage].
    assert (Hback : styleOf (setVisibility (panel_element panel) v page0)
                            (panel_element panel)
                    = styleOf base (panel_element panel)).
    { rewrite styleOf_setVisibility, decide_True by done.
      rewrite Hpage, Hv.
      now destruct (styleOf base (panel_element panel)). }
    assert (Hframe : forall el, el <> panel_element panel ->
              styleOf (setVisibility (panel_element panel) v page0) el
              = styleOf page0 el).
    { intros el Hel. now rewrite styleOf_setVisibility, decide_False. }
    destruct (capturePanelScreenshot (PanelElement panel)) as [img|e] eqn:Hcap;
      cbn; (split; [|split; [exact Hframe | split; [lia | contradiction]]]);
      split; auto.
  - destruct Hstate as [Hpage Hcap].
    unfold createDataTitleVisualization, catch, gbind, captureSilently, ret.
    destruct (capturePanelScreenshot
                (DataTitleElement (or_else (data_title panel) "[No Title]")))
      as [titleScreenshot|e] eqn:Htitle; cbn;
      (split; [|split; [reflexivity | split; [lia | contradiction]]]);
      (split; [exact Hpage|]);
      exists screenshot; (split; [exact Hcap|]);
      unfold panelEntries; now rewrite Htitle.
  - split; [exact Hstate|]. split; [reflexivity|]. split; [lia | reflexivity].
  - split; [exact Hstate|]. split; [reflexivity|]. split; [lia | reflexivity].
Qed.


Lemma fulfilled_lookup (tasks : list PanelTask)
    (visualizations : list (list VisualizationData)) (i : nat)
    (task : PanelTask) :
  mapM fulfilled tasks = Some visualizations ->
  tasks !! i = Some task ->
  exists v, task = Fulfilled v /\ visualizations !! i = Some v.
Proof.
  intros Hall Hi. apply mapM_Some_1 in Hall.
  destruct (Forall2_lookup_l _ _ _ _ _ Hall Hi) as (v & Hv & Hf).
  exists v. split; [|exact Hv]. destruct task; cbn in Hf; congruence.
Qed.

Lemma resume_invariant `{Capture} (panels : list Panel)
    (base : gmap Element Style.t) (ticks0 : nat) (i : nat) (b : Batch) :
  NoDup (panel_element <$> panels) ->
  batchInvariant panels base ticks0 b ->
  batchInvariant panels base ticks0 (resume panels i b).
Proof.
  intros Hnodup Hinv. unfold resume.
  destruct (panels !! i) as [panel|] eqn:Hpanel; [|exact Hinv].
  destruct (batch_tasks b !! i) as [task|] eqn:Htask; [|exact Hinv].
  destruct Hinv as (Hlen & Htasks & Hframe & Hticks & Hpromise).
  pose proof (resumePanel_step (Z.of_nat (length panels)) base (batch_page b)
                i panel task (batch_ticks b)
                (Htasks i panel task Hpanel Htask)) as Hstep.
  destruct (resumePanel (Z.of_nat (length panels)) (Z.of_nat i) panel task
                        (batch_page b) (batch_ticks b))
    as [[task' page'] ticks'].
  destruct Hstep as (Hstate' & Hother & Hcount & Hfinished).
  assert (Hi : (i < length (batch_tasks b))%nat)
    by (eapply lookup_lt_Some; exact Htask).
  unfold batchInvariant. cbn [batch_page batch_ticks batch_tasks batch_promise].
  split; [now rewrite length_insert|].
  split; [|split; [|split]].
  - intros j panelj taskj Hpj Htj.
    destruct (decide (i = j)) as [<-|Hne].
    + rewrite list_lookup_insert_eq in Htj by exact Hi.
      injection Htj as <-. replace panelj with panel by congruence.
      exact Hstate'.
    + rewrite list_lookup_insert_ne in Htj by done.
      apply (taskState_page _ _ (batch_page b)); [|now apply Htasks].
      apply Hother. intros Heq. apply Hne.
      eapply NoDup_lookup; [exact Hnodup | |].
      * rewrite list_lookup_fmap, Hpanel. reflexivity.
      * rewrite list_lookup_fmap, Hpj. cbn. now rewrite Heq.
  - intros el Hel. rewrite Hother; [now apply Hframe|].
    intros ->. apply Hel. apply list_elem_of_fmap_2.
    eapply list_elem_of_lookup_2. exact Hpanel.
  - pose proof (sum_list_insert ticksOf (batch_tasks b) i task task' Htask).
    lia.
  - unfold settle. destruct (batch_promise b) as [[visualizations|e]|].
    + destruct (fulfilled_lookup _ _ i task Hpromise Htask) as (v & -> & _).
      rewrite (Hfinished I). now rewrite list_insert_id.
    + exact Hpromise.
    + destruct Hpromise as [Hnone _].
      assert (Hkeep : forall task0, (forall e, task0 <> Rejected e) ->
                match Ok <$> mapM fulfilled (<[i:=task0]> (batch_tasks b)) with
                | Some (Ok visualizations) =>
                    mapM fulfilled (<[i:=task0]> (batch_tasks b))
                    = Some visualizations
                | Some (Throw e) =>
                    exists panel0,
                      panel0 ∈ panels
                      /\ capturePanelScreenshot (PanelElement panel0) = Throw e
                | None =>
                    Forall (fun task => forall e, task <> Rejected e)
                           (<[i:=task0]> (batch_tasks b))
                    /\ mapM fulfilled (<[i:=task0]> (batch_tasks b)) = None
                end).
      { intros task0 Hnot.
        destruct (mapM fulfilled (<[i:=task0]> (batch_tasks b))) eqn:Hall;
          cbn; [reflexivity|].
        split; [|reflexivity]. now apply Forall_insert. }
      destruct task' as [|v|v|screenshot|visualizations|error];
        try (apply Hkeep; discriminate).
      exists panel. split; [eapply list_elem_of_lookup_2; exact Hpanel|].
      apply Hstate'.
Qed.

Lemma runSchedule_invariant `{Capture} (panels : list Panel)
    (base : gmap Element Style.t) (ticks0 : nat) (schedule : list nat) :
  NoDup (panel_element <$> panels) ->
  forall b,
    batchInvariant panels base ticks0 b ->
    batchInvariant panels base ticks0 (runSchedule panels schedule b).
Proof.
  intros Hnodup. unfold runSchedule.
  induction schedule as [|i schedule IH]; intros b Hinv; [exact Hinv|].
  cbn. apply IH. now apply resume_invariant.
Qed.

Lemma startBatch_invariant `{Capture} (panels : list Panel)
    (page0 : gmap Element Style.t) (ticks : nat) :
  batchInvariant panels page0 ticks (startBatch panels page0 ticks).
Proof.
  unfold batchInvariant, startBatch. cbn.
  split; [apply length_map|].
  split; [|split; [reflexivity|split]].
  - intros i panel task _ Htask.
    assert (task = AwaitingImport) as ->.
    { change (map (fun _ : Panel => AwaitingImport) panels)
        with ((fun _ : Panel => AwaitingImport) <$> panels) in Htask.
      rewrite list_lookup_fmap in Htask.
      destruct (panels !! i); cbn in Htask; congruence. }
    reflexivity.
  - assert (sum_list (map ticksOf (map (fun _ : Panel => AwaitingImport) panels))
            = 0%nat) as ->; [|lia].
    induction panels as [|p panels IH]; [reflexivity | exact IH].
  - destruct panels as [|panel panels]; [reflexivity|].
    split; [|reflexivity].
    apply Forall_forall. intros task Hin e.
    apply list_elem_of_In, in_map_iff in Hin as (p & <- & _). discriminate.
Qed.


(** The snapshot [preparePanelDimensions] keeps of an element that is not
    a grid item has no visibility: it is the snapshot of a panel body. *)
Lemma runJobs_snapshot_visibility (roots : list Element)
    (jobs : list LayoutJob) :
  Forall (fun job => forall root,
            grid_item (job_panel job) = Some root -> root ∈ roots) jobs ->
  forall l : Layout,
    (forall el styles, originalStyles l !! el = Some styles -> el ∉ roots ->
                       OriginalStyles.visibility styles = None) ->
    forall el styles,
      originalStyles (runJobs jobs l) !! el = Some styles -> el ∉ roots ->
      OriginalStyles.visibility styles = None.
Proof.
  induction 1 as [|job jobs Hjob _ IH]; intros l Hl; [exact Hl|].
  rewrite runJobs_cons. apply IH.
  intros el styles Hlookup Hel. unfold storeAndApplyStyles in Hlookup.
  destruct (grid_item (job_panel job)) as [root|] eqn:Hroot; [|eauto].
  destruct (embPanel (job_panel job)) as [emb|]; [|eauto].
  cbn in Hlookup.
  destruct (decide (emb = el)) as [->|Hemb].
  - rewrite lookup_insert_eq in Hlookup. now injection Hlookup as <-.
  - rewrite lookup_insert_ne in Hlookup by done.
    rewrite lookup_insert_ne in Hlookup; [eauto|].
    intros ->. apply Hel. now apply Hjob.
Qed.

Lemma preparePanelDimensions_snapshot_visibility (panels : list Panel)
    (page0 : gmap Element Style.t) (el : Element)
    (styles : OriginalStyles.t) :
  originalStyles (preparePanelDimensions panels page0) !! el = Some styles ->
  el ∉ gridItems panels ->
  OriginalStyles.visibility styles = None.
Proof.
  unfold preparePanelDimensions.
  apply (runJobs_snapshot_visibility (gridItems panels)).
  - apply Forall_forall. intros job Hjob root Hroot.
    unfold gridItems. apply list_elem_of_omap. eauto.
  - intros el' styles' Hlookup. cbn in Hlookup.
    now rewrite lookup_empty in Hlookup.
Qed.

Lemma restoreLayout_invariant `{Capture} (panels : list Panel)
    (originals : gmap Element OriginalStyles.t)
    (base : gmap Element Style.t) (ticks0 : nat) (b : Batch) :
  (forall panel styles,
     panel ∈ panels -> originals !! panel_element panel = Some styles ->
     OriginalStyles.visibility styles = None) ->
  batchInvariant panels base ticks0 b ->
  batchInvariant panels (restoreLayout originals base) ticks0
                 (withPage (restoreLayout originals (batch_page b)) b).
Proof.
  intros Hvis (Hlen & Htasks & Hframe & Hticks & Hpromise).
  unfold batchInvariant. cbn [withPage batch_page batch_ticks batch_tasks batch_promise].
  split; [exact Hlen|]. split; [|split; [|split; assumption]].
  - intros i panel task Hpanel Htask.
    pose proof (Htasks i panel task Hpanel Htask) as Hstate.
    assert (Hin : panel ∈ panels) by (eapply list_elem_of_lookup_2; eauto).
    assert (Hsame : styleOf (batch_page b) (panel_element panel)
                    = styleOf base (panel_element panel) ->
                    styleOf (restoreLayout originals (batch_page b))
                            (panel_element panel)
                    = styleOf (restoreLayout originals base)
                              (panel_element panel)).
    { intros Heq. rewrite !restoreLayout_styleOf. now rewrite Heq. }
    assert (Hhidden : forall v,
              v = Style.visibility (styleOf base (panel_element panel))
              /\ styleOf (batch_page b) (panel_element panel)
                 = assignStyle (styleOf base (panel_element panel))
                               (visibilityOnly "hidden") ->
              v = Style.visibility
                    (styleOf (restoreLayout originals base)
                             (panel_element panel))
              /\ styleOf (restoreLayout originals (batch_page b))
                         (panel_element panel)
                 = assignStyle
                     (styleOf (restoreLayout originals base)
                              (panel_element panel))
                     (visibilityOnly "hidden")).
    { intros v [-> Hpage]. rewrite !restoreLayout_styleOf, Hpage.
      destruct (originals !! panel_element panel) as [styles|] eqn:Horig;
        [|split; reflexivity].
      pose proof (Hvis panel styles Hin Horig) as Hnone.
      destruct styles as [t l w h p vis]. cbn in Hnone. subst vis.
      split; reflexivity. }
    destruct task; cbn in *.
    + now apply Hsame.
    + now apply Hhidden.
    + now apply Hhidden.
    + destruct Hstate as [Hpage Hrest]. split; [now apply Hsame | exact Hrest].
    + destruct Hstate as [Hpage Hrest]. split; [now apply Hsame | exact Hrest].
    + destruct Hstate as [Hpage Hrest]. split; [now apply Hsame | exact Hrest].
  - intros el Hel. rewrite !restoreLayout_styleOf. now rewrite (Hframe el Hel).
Qed.

Lemma resume_finished `{Capture} (panels : list Panel) (i : nat) (b : Batch) :
  Forall finished (batch_tasks b) -> batch_promise b <> None ->
  resume panels i b = b.
Proof.
  intros Hall Hsettled. unfold resume.
  destruct (panels !! i) as [panel|]; [|reflexivity].
  destruct (batch_tasks b !! i) as [task|] eqn:Htask; [|reflexivity].
  pose proof (Forall_lookup_1 _ _ _ _ Hall Htask) as Hfin.
  destruct b as [pg ticks tasks promise]. cbn in *.
  destruct promise as [outcome|]; [|contradiction].
  destruct task; try contradiction; cbn; now rewrite list_insert_id.
Qed.

Lemma runSchedule_finished `{Capture} (panels : list Panel)
    (schedule : list nat) (b : Batch) :
  Forall finished (batch_tasks b) -> batch_promise b <> None ->
  runSchedule panels schedule b = b.
Proof.
  intros Hall Hsettled. unfold runSchedule.
  induction schedule as [|i schedule IH]; [reflexivity|].
  cbn. now rewrite resume_finished.
Qed.

Lemma resume_stage `{Capture} (panels : list Panel) (i j : nat) (b : Batch)
    (task : PanelTask) :
  length (batch_tasks b) = length panels ->
  batch_tasks b !! j = Some task ->
  exists task',
    batch_tasks (resume panels i b) !! j = Some task'
    /\ (4 <= stage task'
        \/ stage task + (if decide (i = j) then 1 else 0) <= stage task')%nat.
Proof.
  intros Hlen Hj. unfold resume.
  destruct (panels !! i) as [panel|] eqn:Hpanel.
  2:{ exists task. split; [exact Hj|].
      case_decide as Hij; [|lia]. subst j.
      apply lookup_lt_Some in Hj. apply lookup_ge_None in Hpanel. lia. }
  destruct (batch_tasks b !! i) as [taski|] eqn:Hi.
  2:{ exists task. split; [exact Hj|].
      case_decide as Hij; [congruence | lia]. }
  destruct (resumePanel _ _ panel taski (batch_page b) (batch_ticks b))
    as [[task' page'] ticks'] eqn:Hstep.
  cbn [batch_tasks].
  destruct (decide (i = j)) as [->|Hne].
  - rewrite list_lookup_insert_eq by (eapply lookup_lt_Some; eauto).
    exists task'. split; [reflexivity|].
    replace taski with task in * by congruence.
    unfold resumePanel in Hstep.
    destruct task; cbn in *;
      repeat match type of Hstep with
             | context [match ?x with _ => _ end] => destruct x
             end;
      injection Hstep as <- _ _; cbn; lia.
  - rewrite list_lookup_insert_ne by done.
    exists task. split; [exact Hj | lia].
Qed.

Lemma resume_length `{Capture} (panels : list Panel) (i : nat) (b : Batch) :
  length (batch_tasks (resume panels i b)) = length (batch_tasks b).
Proof.
  unfold resume.
  destruct (panels !! i); [|reflexivity].
  destruct (batch_tasks b !! i); [|reflexivity].
  destruct (resumePanel _ _ _ _ _ _) as [[? ?] ?]. cbn. apply length_insert.
Qed.

Lemma runSchedule_stage `{Capture} (panels : list Panel) (schedule : list nat)
    (j : nat) :
  forall (b : Batch) (task : PanelTask),
    length (batch_tasks b) = length panels ->
    batch_tasks b !! j = Some task ->
    exists task',
      batch_tasks (runSchedule panels schedule b) !! j = Some task'
      /\ (4 <= stage task'
          \/ stage task + length (filter (fun i => i = j) schedule)
             <= stage task')%nat.
Proof.
  unfold runSchedule.
  induction schedule as [|i schedule IH]; intros b task Hlen Hj.
  - exists task. split; [exact Hj | cbn; lia].
  - cbn [fold_left].
    destruct (resume_stage panels i j b task Hlen Hj) as (task1 & Hj1 & Hs1).
    destruct (IH (resume panels i b) task1) as (task' & Hj' & Hs');
      [now rewrite resume_length | exact Hj1 |].
    exists task'. split; [exact Hj'|].
    destruct (decide (i = j)) as [Hij|Hij].
    + rewrite filter_cons_True by exact Hij. cbn [length]. lia.
    + rewrite filter_cons_False by exact Hij. lia.
Qed.

Lemma runSchedule_length `{Capture} (panels : list Panel)
    (schedule : list nat) :
  forall b, length (batch_tasks (runSchedule panels schedule b))
            = length (batch_tasks b).
Proof.
  unfold runSchedule.
  induction schedule as [|i schedule IH]; intros b; [reflexivity|].
  cbn. now rewrite IH, resume_length.
Qed.

Lemma completeSchedule_finished `{Capture} (panels : list Panel)
    (schedule : list nat) (b : Batch) :
  length (batch_tasks b) = length panels ->
  completeSchedule panels schedule ->
  Forall finished (batch_tasks (runSchedule panels schedule b)).
Proof.
  intros Hlen Hcomplete. apply Forall_lookup. intros j task' Hj'.
  assert (Hlt : (j < length panels)%nat).
  { apply lookup_lt_Some in Hj'. now rewrite runSchedule_length, Hlen in Hj'. }
  destruct (lookup_lt_is_Some_2 (batch_tasks b) j ltac:(lia)) as [task Hj].
  destruct (runSchedule_stage panels schedule j b task Hlen Hj)
    as (task'' & Hj'' & Hstage).
  replace task'' with task' in * by congruence.
  pose proof (Hcomplete j Hlt).
  destruct task'; cbn in *; (exact I || lia).
Qed.


Lemma resume_idle `{Capture} (panels : list Panel) (i : nat) (b : Batch) :
  batch_tasks b = [] -> resume panels i b = b.
Proof.
  intros Hnone. unfold resume. rewrite Hnone.
  now destruct (panels !! i).
Qed.

Lemma runSchedule_idle `{Capture} (panels : list Panel) (schedule : list nat)
    (b : Batch) :
  batch_tasks b = [] -> runSchedule panels schedule b = b.
Proof.
  intros Hnone. unfold runSchedule.
  induction schedule as [|i schedule IH]; [reflexivity|].
  cbn. now rewrite resume_idle.
Qed.

Lemma batchInvariant_finished_page `{Capture} (panels : list Panel)
    (base : gmap Element Style.t) (ticks0 : nat) (b : Batch) :
  batchInvariant panels base ticks0 b ->
  (forall i panel task,
     panels !! i = Some panel -> batch_tasks b !! i = Some task ->
     ~ capturing task) ->
  forall el, styleOf (batch_page b) el = styleOf base el.
Proof.
  intros (Hlen & Htasks & Hframe & _ & _) Hquiet el.
  destruct (decide (el ∈ panel_element <$> panels)) as [Hin|Hout];
    [|now apply Hframe].
  apply list_elem_of_fmap in Hin as (panel & -> & Hin).
  apply list_elem_of_lookup in Hin as [i Hi].
  destruct (lookup_lt_is_Some_2 (batch_tasks b) i) as [task Htask].
  { rewrite Hlen. eapply lookup_lt_Some. exact Hi. }
  pose proof (Htasks i panel task Hi Htask) as Hstate.
  pose proof (Hquiet i panel task Hi Htask) as Hq.
  destruct task; cbn in *; try tauto.
Qed.

Lemma finished_not_capturing (tasks : list PanelTask) :
  Forall finished tasks ->
  forall i task, tasks !! i = Some task -> ~ capturing task.
Proof.
  intros Hall i task Hi. pose proof (Forall_lookup_1 _ _ _ _ Hall Hi).
  now destruct task.
Qed.

(** What the invariant says at the moment [getVisualizationData] throws. *)
Lemma batchInvariant_thrown `{Capture} (panels : list Panel)
    (restored : gmap Element Style.t) (ticks0 : nat) (b : Batch) (e : Error) :
  NoDup (panel_element <$> panels) ->
  batchInvariant panels restored ticks0 b ->
  batch_promise b = Some (Throw e) ->
  (forall i panel task,
     panels !! i = Some panel -> batch_tasks b !! i = Some task ->
     capturing task ->
     styleOf (batch_page b) (panel_element panel)
     = assignStyle (styleOf restored (panel_element panel))
                   (visibilityOnly "hidden"))
  /\ (forall el,
        (forall i panel task,
           panels !! i = Some panel -> batch_tasks b !! i = Some task ->
           panel_element panel = el -> ~ capturing task) ->
        styleOf (batch_page b) el = styleOf restored el)
  /\ (forall afterReturn,
        completeSchedule panels afterReturn ->
        forall el,
          styleOf (batch_page (runSchedule panels afterReturn b)) el
          = styleOf restored el).
Proof.
  intros Hnodup Hinv Hpromise.
  pose proof Hinv as (Hlen & Htasks & Hframe & _ & _).
  split; [|split].
  - intros i panel task Hi Htask Hcap.
    pose proof (Htasks i panel task Hi Htask) as Hstate.
    destruct task; cbn in *; try contradiction; apply Hstate.
  - intros el Hquiet.
    destruct (decide (el ∈ panel_element <$> panels)) as [Hin|Hout];
      [|now apply Hframe].
    apply list_elem_of_fmap in Hin as (panel & -> & Hin).
    apply list_elem_of_lookup in Hin as [i Hi].
    destruct (lookup_lt_is_Some_2 (batch_tasks b) i) as [task Htask].
    { rewrite Hlen. eapply lookup_lt_Some. exact Hi. }
    pose proof (Htasks i panel task Hi Htask) as Hstate.
    pose proof (Hquiet i panel task Hi Htask eq_refl) as Hq.
    destruct task; cbn in *; try tauto.
  - intros afterReturn Hcomplete.
    apply (batchInvariant_finished_page panels restored ticks0).
    + now apply runSchedule_invariant.
    + intros i panel task _. apply finished_not_capturing.
      now apply completeSchedule_finished.
Qed.


Lemma preparePanelDimensions_nil (page0 : gmap Element Style.t) :
  preparePanelDimensions [] page0 = {| page := page0; originalStyles := ∅ |}.
Proof. reflexivity. Qed.

(** X4. What a failed run leaves behind.  When [getVisualizationData]
    throws, the restore closure has run, but the captures [Promise.all] has
    left running still hold their panels hidden: for every schedule of the
    waits, with distinct panel elements none of which is a grid item, at
    the moment of the throw
    - the element of every panel whose capture is still running has the
      inline style the restore closure gives it, except that its
      visibility is [hidden];
    - every other element has the inline style the restore closure gives
      it;
    - once the callbacks left running have all ended, every element has
      the inline style the restore closure gives it. *)
Theorem getVisualizationData_scheduled_failure `{Capture}
    (allowTableOfContents : bool) (organization : string) (dom : Dashboard)
    (beforeFinally duringFinally : list nat) (st : PageState) :
  let panels := getValidPanels (panelElements dom) in
  let layout := preparePanelDimensions panels (styles st) in
  let restored := restoreLayout (originalStyles layout) (page layout) in
  NoDup (panel_element <$> panels) ->
  (forall panel, panel ∈ panels -> panel_element panel ∉ gridItems panels) ->
  forall e st' tasks,
    getVisualizationData_scheduled allowTableOfContents organization dom
      beforeFinally duringFinally st = Some (Throw e, st', tasks) ->
    (forall i panel task,
       panels !! i = Some panel -> tasks !! i = Some task ->
       capturing task ->
       styleOf (styles st') (panel_element panel)
       = assignStyle (styleOf restored (panel_element panel))
                     (visibilityOnly "hidden")
       /\ Style.visibility (styleOf (styles st') (panel_element panel))
          = "hidden")
    /\ (forall el,
          (forall i panel task,
             panels !! i = Some panel -> tasks !! i = Some task ->
             panel_element panel = el -> ~ capturing task) ->
          styleOf (styles st') el = styleOf restored el)
    /\ (forall afterReturn,
          completeSchedule panels afterReturn ->
          forall el,
            styleOf (batch_page (runSchedule panels afterReturn
                                   (leftRunning e st' tasks))) el
            = styleOf restored el).
Proof.
  intros panels layout restored Hnodup Hgrid e st' tasks Hrun.
  assert (Hgoal : forall b ticks0,
            batchInvariant panels restored ticks0 b ->
            batch_promise b = Some (Throw e) ->
            styles st' = batch_page b -> progressTicks st' = batch_ticks b ->
            tasks = batch_tasks b ->
            (forall i panel task,
               panels !! i = Some panel -> tasks !! i = Some task ->
               capturing task ->
               styleOf (styles st') (panel_element panel)
               = assignStyle (styleOf restored (panel_element panel))
                             (visibilityOnly "hidden")
               /\ Style.visibility (styleOf (styles st') (panel_element panel))
                  = "hidden")
            /\ (forall el,
                  (forall i panel task,
                     panels !! i = Some panel -> tasks !! i = Some task ->
                     panel_element panel = el -> ~ capturing task) ->
                  styleOf (styles st') el = styleOf restored el)
            /\ (forall afterReturn,
                  completeSchedule panels afterReturn ->
                  forall el,
                    styleOf (batch_page (runSchedule panels afterReturn
                                           (leftRunning e st' tasks))) el
                    = styleOf restored el)).
  { intros b ticks0 Hinv Hpromise Hstyles Hticks Htasks.
    assert (Hleft : leftRunning e st' tasks = b).
    { unfold leftRunning. rewrite Hstyles, Hticks, Htasks, <- Hpromise.
      now destruct b. }
    destruct (batchInvariant_thrown panels restored ticks0 b e Hnodup Hinv
                Hpromise) as (H1 & H2 & H3).
    rewrite Hleft, Hstyles, Htasks.
    split; [|split; [exact H2 | exact H3]].
    intros i panel task Hi Htask Hcap.
    rewrite (H1 i panel task Hi Htask Hcap). split; reflexivity. }
  assert (Hquiet : forall page1 ticks1 tasks1,
            (forall el, styleOf page1 el = styleOf restored el) ->
            Forall finished tasks1 ->
            styles st' = page1 -> progressTicks st' = ticks1 ->
            tasks = tasks1 ->
            (forall i panel task,
               panels !! i = Some panel -> tasks !! i = Some task ->
               capturing task ->
               styleOf (styles st') (panel_element panel)
               = assignStyle (styleOf restored (panel_element panel))
                             (visibilityOnly "hidden")
               /\ Style.visibility (styleOf (styles st') (panel_element panel))
                  = "hidden")
            /\ (forall el,
                  (forall i panel task,
                     panels !! i = Some panel -> tasks !! i = Some task ->
                     panel_element panel = el -> ~ capturing task) ->
                  styleOf (styles st') el = styleOf restored el)
            /\ (forall afterReturn,
                  completeSchedule panels afterReturn ->
                  forall el,
                    styleOf (batch_page (runSchedule panels afterReturn
                                           (leftRunning e st' tasks))) el
                    = styleOf restored el)).
  { intros page1 ticks1 tasks1 Hpage Hfin Hstyles Hticks Htasks.
    split; [|split].
    - intros i panel task _ Htask Hcap. exfalso.
      rewrite Htasks in Htask.
      exact (finished_not_capturing tasks1 Hfin i task Htask Hcap).
    - intros el _. rewrite Hstyles. apply Hpage.
    - intros afterReturn _ el.
      rewrite runSchedule_finished; cbn;
        [rewrite Hstyles; apply Hpage | now rewrite Htasks | discriminate]. }
  unfold getVisualizationData_scheduled in Hrun. fold panels in Hrun.
  destruct (Z.of_nat (length panels) =? 0) eqn:Hzero.
  { injection Hrun as <- <- <-.
    assert (Hnil : panels = [])
      by (apply Z.eqb_eq in Hzero; destruct panels; [done | cbn in Hzero; lia]).
    apply (Hquiet (styles st) (progressTicks st) []); auto.
    intros el. subst restored layout. rewrite Hnil.
    rewrite preparePanelDimensions_nil. cbn.
    unfold restoreLayout. now rewrite map_fold_empty. }
  fold layout in Hrun.
  destruct ((do title <- processDashboardTitle dom ;
             do timeRangeImage <- captureTimeRange dom ;
             ret (title, timeRangeImage)) (progressTicks st))
    as [[[[titleText dashboardTitleImage] timeRangeImage]|error] ticks]
    eqn:Hheader.
  - set (b := runSchedule panels beforeFinally
                (startBatch panels (page layout) ticks)) in *.
    assert (Hinv : batchInvariant panels (page layout) ticks b)
      by (apply runSchedule_invariant;
          [exact Hnodup | apply startBatch_invariant]).
    assert (Hvis : forall panel styles,
              panel ∈ panels ->
              originalStyles layout !! panel_element panel = Some styles ->
              OriginalStyles.visibility styles = None).
    { intros panel styles Hin Hlookup.
      eapply preparePanelDimensions_snapshot_visibility; [exact Hlookup|].
      now apply Hgrid. }
    destruct (batch_promise b) as [[panelVisualizations|error]|] eqn:Hpromise;
      [| |discriminate].
    + destruct ((do footerImages <-
                   createFooterImages allowTableOfContents organization
                     titleText (today dom)
                     (calculateTotalPages
                        (Z.of_nat (length (validatePanels panels)))) ;
                 assembleFinalVisualizations dashboardTitleImage
                   timeRangeImage panelVisualizations footerImages
                   (validatePanels panels)
                   (calculateTotalPages
                      (Z.of_nat (length (validatePanels panels)))))
                  (batch_ticks b)) as [result ticks'] eqn:Hfooters.
      assert (Hfin : Forall finished (batch_tasks b)).
      { destruct Hinv as (_ & _ & _ & _ & Hp). rewrite Hpromise in Hp.
        apply mapM_Some_1 in Hp. apply Forall_lookup. intros i task Hi.
        destruct (Forall2_lookup_l _ _ _ _ _ Hp Hi) as (v & _ & Hv).
        destruct task; cbn in Hv; try discriminate; exact I. }
      rewrite runSchedule_finished in Hrun;
        [|exact Hfin | cbn; discriminate].
      cbn in Hrun. injection Hrun as -> <- <-.
      apply (Hquiet (restoreLayout (originalStyles layout) (batch_page b))
                    ticks' (batch_tasks b)); auto.
      intros el. subst restored. rewrite !restoreLayout_styleOf.
      rewrite (batchInvariant_finished_page panels (page layout) ticks b Hinv);
        [reflexivity|].
      intros i panel task _. now apply finished_not_capturing.
    + set (final := runSchedule panels duringFinally
                      (withPage (restoreLayout (originalStyles layout)
                                               (batch_page b)) b)) in *.
      injection Hrun as -> <- <-.
      apply (Hgoal final ticks); try reflexivity.
      * apply runSchedule_invariant; [exact Hnodup|].
        now apply restoreLayout_invariant.
      * assert (Hkeep : forall schedule b0,
                  batch_promise b0 = Some (Throw e) ->
                  batch_promise (runSchedule panels schedule b0)
                  = Some (Throw e)).
        { unfold runSchedule.
          induction schedule as [|i schedule IH]; intros b0 Hb0; [exact Hb0|].
          cbn. apply IH. unfold resume.
          destruct (panels !! i); [|exact Hb0].
          destruct (batch_tasks b0 !! i); [|exact Hb0].
          destruct (resumePanel _ _ _ _ _ _) as [[? ?] ?]. cbn.
          now rewrite Hb0. }
        apply Hkeep. exact Hpromise.
  - rewrite runSchedule_idle in Hrun by reflexivity.
    cbn in Hrun. injection Hrun as <- <- <-.
    apply (Hquiet (restoreLayout (originalStyles layout) (page layout))
                  ticks []); auto.
Qed.


Lemma getVisualizationData_scheduled_failure_witness :
  exists e st' tasks,
    getVisualizationData_scheduled (H := failingOnPanel 3%positive) true "ACME"
      (sampleDashboard [barChartPanel; markdownPanel; splitSeriesPanel])
      [0; 1; 0; 1; 1]%nat [] samplePageState
    = Some (Throw e, st', tasks)
    /\ tasks !! 0%nat = Some (AwaitingCanvas EmptyString)
    /\ Style.visibility (styleOf (styles samplePageState)
                                 (panel_element barChartPanel)) = EmptyString
    /\ Style.visibility (styleOf (styles st') (panel_element barChartPanel))
       = "hidden".
Proof.
  destruct (getVisualizationData_scheduled (H := failingOnPanel 3%positive)
              true "ACME"
              (sampleDashboard [barChartPanel; markdownPanel; splitSeriesPanel])
              [0; 1; 0; 1; 1]%nat [] samplePageState)
    as [[[[visualizations|e] st'] tasks]|] eqn:Hrun;
    [vm_compute in Hrun; discriminate | | vm_compute in Hrun; discriminate].
  assert (Htask : tasks !! 0%nat = Some (AwaitingCanvas EmptyString)).
  { pose proof Hrun as Hvalue. vm_compute in Hvalue.
    injection Hvalue as _ _ <-. reflexivity. }
  exists e, st', tasks. split; [reflexivity|]. split; [exact Htask|].
  split; [reflexivity|].
  refine (proj2 (proj1 (getVisualizationData_scheduled_failure
                   (H := failingOnPanel 3%positive) true "ACME"
                   (sampleDashboard
                      [barChartPanel; markdownPanel; splitSeriesPanel])
                   [0; 1; 0; 1; 1]%nat [] samplePageState _ _ e st' tasks Hrun)
                0%nat barChartPanel (AwaitingCanvas EmptyString)
                eq_refl Htask I)).
  - vm_compute. repeat constructor; set_solver.
  - intros panel Hin. vm_compute in Hin |- *.
    apply list_elem_of_In in Hin. cbn in Hin.
    destruct Hin as [<- | [<- | []]]; cbn; set_solver.
Defined.


(** *** The schedule does not matter when every capture succeeds *)

Lemma captureAll_unfold `{Capture} (allowTableOfContents : bool)
    (organization : string) (dom : Dashboard) (panels : list Panel)
    (ticks0 : nat) :
  captureAll allowTableOfContents organization dom panels ticks0
  = match (do title <- processDashboardTitle dom ;
           do timeRangeImage <- captureTimeRange dom ;
           ret (title, timeRangeImage)) ticks0 with
    | (Throw error, ticks) => (Throw error, ticks)
    | (Ok ((titleText, dashboardTitleImage), timeRangeImage), ticks) =>
        match processVisualizationPanels panels ticks with
        | (Throw error, ticks) => (Throw error, ticks)
        | (Ok panelVisualizations, ticks) =>
            (do footerImages <-
               createFooterImages allowTableOfContents organization
                 titleText (today dom)
                 (calculateTotalPages
                    (Z.of_nat (length (validatePanels panels)))) ;
             assembleFinalVisualizations dashboardTitleImage
               timeRangeImage panelVisualizations footerImages
               (validatePanels panels)
               (calculateTotalPages
                  (Z.of_nat (length (validatePanels panels))))) ticks
        end
    end.
Proof.
  unfold captureAll, gbind, ret.
  destruct (processDashboardTitle dom ticks0) as [[[titleText image]|e] t1];
    [|reflexivity].
  cbv beta iota.
  destruct (captureTimeRange dom t1) as [[range|e] t2]; [|reflexivity].
  cbv beta iota.
  destruct (processVisualizationPanels panels t2) as [[pv|e] t3];
    reflexivity.
Qed.

Lemma ticksOf_fulfilled (tasks : list PanelTask)
    (visualizations : list (list VisualizationData)) :
  mapM fulfilled tasks = Some visualizations ->
  sum_list (map ticksOf tasks) = (2 * length tasks)%nat.
Proof.
  intros Hall. apply mapM_Some_1 in Hall.
  induction Hall as [|task v tasks vs Hv _ IH]; [reflexivity|].
  destruct task; cbn in Hv; try discriminate.
  simpl. rewrite IH. lia.
Qed.

(** A batch that has fulfilled holds what the captures give when run in
    array order. *)
Lemma batch_fulfilled `{Capture} (panels : list Panel)
    (base : gmap Element Style.t) (ticks0 : nat) (b : Batch)
    (visualizations : list (list VisualizationData)) :
  batchInvariant panels base ticks0 b ->
  batch_promise b = Some (Ok visualizations) ->
  processVisualizationPanels panels ticks0
  = (Ok visualizations, batch_ticks b)
  /\ Forall finished (batch_tasks b).
Proof.
  intros (Hlen & Htasks & _ & Hticks & Hpromise) Hp. rewrite Hp in Hpromise.
  assert (Hok : forall panel, panel ∈ panels ->
            exists img, capturePanelScreenshot (PanelElement panel) = Ok img).
  { intros panel Hin. apply list_elem_of_lookup in Hin as [i Hi].
    destruct (lookup_lt_is_Some_2 (batch_tasks b) i) as [task Htask].
    { rewrite Hlen. eapply lookup_lt_Some. exact Hi. }
    destruct (fulfilled_lookup _ _ i task Hpromise Htask) as (v & -> & _).
    destruct (Htasks i panel _ Hi Htask) as (_ & img & Himg & _). eauto. }
  unfold processVisualizationPanels.
  destruct (processPanelsFrom_ok (Z.of_nat (length panels)) panels 0 ticks0 Hok)
    as (entries & Hrun & Hsize & Hnth).
  assert (Hsame : entries = visualizations).
  { apply list_eq_same_length with (length panels);
      [apply length_mapM in Hpromise; lia | exact Hsize |].
    intros i x y Hi Hx Hy.
    destruct (lookup_lt_is_Some_2 panels i Hi) as [panel Hpanel].
    destruct (lookup_lt_is_Some_2 (batch_tasks b) i) as [task Htask];
      [lia|].
    destruct (fulfilled_lookup _ _ i task Hpromise Htask) as (v & -> & Hv).
    destruct (Htasks i panel _ Hpanel Htask) as (_ & img & Himg & ->).
    rewrite (Hnth i panel img Hpanel Himg) in Hx.
    rewrite Z.add_0_l in Hx. congruence. }
  split.
  - rewrite Hrun, Hsame. f_equal.
    rewrite Hticks, (ticksOf_fulfilled _ _ Hpromise). lia.
  - apply Forall_lookup. intros i task Htask.
    destruct (fulfilled_lookup _ _ i task Hpromise Htask) as (v & -> & _).
    exact I.
Qed.

(** A batch that has rejected: the captures run in array order throw
    too. *)
Lemma batch_rejected `{Capture} (panels : list Panel)
    (base : gmap Element Style.t) (ticks0 : nat) (b : Batch) (e : Error) :
  batchInvariant panels base ticks0 b ->
  batch_promise b = Some (Throw e) ->
  exists e', fst (processVisualizationPanels panels ticks0) = Throw e'.
Proof.
  intros (_ & _ & _ & _ & Hpromise) Hp. rewrite Hp in Hpromise.
  destruct Hpromise as (panel & Hin & Hfail).
  destruct (processPanelsFrom_throw (Z.of_nat (length panels)) panels 0 ticks0)
    as (_ & e' & _ & _ & Hthrow); [eauto|].
  exists e'. exact Hthrow.
Qed.

(** After a complete schedule [Promise.all] has settled. *)
Lemma completeSchedule_settled `{Capture} (panels : list Panel)
    (base : gmap Element Style.t) (ticks0 : nat) (schedule : list nat) :
  NoDup (panel_element <$> panels) ->
  completeSchedule panels schedule ->
  batch_promise (runSchedule panels schedule (startBatch panels base ticks0))
  <> None.
Proof.
  intros Hnodup Hcomplete Hnone.
  pose proof (runSchedule_invariant panels base ticks0 schedule Hnodup _
                (startBatch_invariant panels base ticks0))
    as (_ & _ & _ & _ & Hpromise).
  rewrite Hnone in Hpromise. destruct Hpromise as [Hnot Hpending].
  pose proof (completeSchedule_finished panels schedule
                (startBatch panels base ticks0)
                ltac:(apply length_map) Hcomplete) as Hfin.
  apply mapM_None_1, Exists_exists in Hpending as (task & Hin & Hnof).
  pose proof (proj1 (Forall_forall _ _) Hfin task Hin) as Hf.
  pose proof (proj1 (Forall_forall _ _) Hnot task Hin) as Hn.
  destruct task; cbn in *; try contradiction; try discriminate.
  now apply (Hn error).
Qed.


Lemma getVisualizationData_scheduled_cases `{Capture}
    (allowTableOfContents : bool) (organization : string) (dom : Dashboard)
    (beforeFinally duringFinally : list nat) (st : PageState) :
  let panels := getValidPanels (panelElements dom) in
  let sequential :=
    getVisualizationData allowTableOfContents organization dom st in
  NoDup (panel_element <$> panels) ->
  match getVisualizationData_scheduled allowTableOfContents organization dom
          beforeFinally duringFinally st with
  | None => ~ completeSchedule panels beforeFinally
  | Some (Ok visualizations, st', tasks) =>
      fst sequential = Ok visualizations
      /\ progressTicks st' = progressTicks (snd sequential)
      /\ (forall el,
            styleOf (styles st') el = styleOf (styles (snd sequential)) el)
      /\ Forall finished tasks
  | Some (Throw e, st', tasks) => exists e', fst sequential = Throw e'
  end.
Proof.
  intros panels sequential Hnodup. subst sequential.
  unfold getVisualizationData_scheduled, getVisualizationData. fold panels.
  destruct (Z.of_nat (length panels) =? 0) eqn:Hzero; [cbn; eauto|].
  cbv zeta. rewrite captureAll_unfold.
  set (layout := preparePanelDimensions panels (styles st)).
  destruct ((do title <- processDashboardTitle dom ;
             do timeRangeImage <- captureTimeRange dom ;
             ret (title, timeRangeImage)) (progressTicks st))
    as [[[[titleText dashboardTitleImage] timeRangeImage]|error] ticks]
    eqn:Hheader.
  2:{ cbv beta iota. cbn. eauto. }
  set (b := runSchedule panels beforeFinally
              (startBatch panels (page layout) ticks)).
  assert (Hinv : batchInvariant panels (page layout) ticks b)
    by (apply runSchedule_invariant;
        [exact Hnodup | apply startBatch_invariant]).
  destruct (batch_promise b) as [[panelVisualizations|error]|] eqn:Hpromise.
  - destruct (batch_fulfilled panels (page layout) ticks b panelVisualizations
                Hinv Hpromise) as [Hseq Hfin].
    rewrite Hseq.
    destruct ((do footerImages <-
                 createFooterImages allowTableOfContents organization
                   titleText (today dom)
                   (calculateTotalPages
                      (Z.of_nat (length (validatePanels panels)))) ;
               assembleFinalVisualizations dashboardTitleImage
                 timeRangeImage panelVisualizations footerImages
                 (validatePanels panels)
                 (calculateTotalPages
                    (Z.of_nat (length (validatePanels panels)))))
                (batch_ticks b)) as [result ticks'] eqn:Hfooters.
    cbv beta iota.
    rewrite runSchedule_finished; [|exact Hfin | cbn; discriminate].
    cbn. destruct result as [visualizations|e]; [|eauto].
    split; [reflexivity|]. split; [reflexivity|]. split; [|exact Hfin].
    intros el. rewrite !restoreLayout_styleOf.
    rewrite (batchInvariant_finished_page panels (page layout) ticks b Hinv);
      [reflexivity|].
    intros i panel task _. now apply finished_not_capturing.
  - destruct (batch_rejected panels (page layout) ticks b error Hinv Hpromise)
      as [e' He'].
    destruct (processVisualizationPanels panels ticks) as [[pv|e''] t];
      cbn in He'; [discriminate|].
    cbn. eauto.
  - intros Hcomplete.
    exact (completeSchedule_settled panels (page layout) ticks beforeFinally
             Hnodup Hcomplete Hpromise).
Qed.

(** X23. The order in which the browser ends the waits of the panel
    captures does not matter to a run that succeeds.  With distinct panel
    elements, for every schedule: if [getVisualizationData] returns, it
    returns the entries, has made the calls of the progress callback and
    leaves the inline styles that the captures give when run one after the
    other in array order, and no capture is left running; if it throws,
    the run in array order throws too.  A schedule that resumes every
    callback four times lets [Promise.all] settle, so that
    [getVisualizationData] returns or throws. *)
Theorem getVisualizationData_scheduled_agrees `{Capture}
    (allowTableOfContents : bool) (organization : string) (dom : Dashboard)
    (st : PageState) :
  let panels := getValidPanels (panelElements dom) in
  let sequential :=
    getVisualizationData allowTableOfContents organization dom st in
  NoDup (panel_element <$> panels) ->
  (forall beforeFinally duringFinally,
     completeSchedule panels beforeFinally ->
     getVisualizationData_scheduled allowTableOfContents organization dom
       beforeFinally duringFinally st <> None)
  /\ (forall beforeFinally duringFinally visualizations st' tasks,
        getVisualizationData_scheduled allowTableOfContents organization dom
          beforeFinally duringFinally st
        = Some (Ok visualizations, st', tasks) ->
        fst sequential = Ok visualizations
        /\ progressTicks st' = progressTicks (snd sequential)
        /\ (forall el,
              styleOf (styles st') el = styleOf (styles (snd sequential)) el)
        /\ Forall finished tasks)
  /\ (forall beforeFinally duringFinally e st' tasks,
        getVisualizationData_scheduled allowTableOfContents organization dom
          beforeFinally duringFinally st
        = Some (Throw e, st', tasks) ->
        exists e', fst sequential = Throw e').
Proof.
  intros panels sequential Hnodup.
  split; [|split].
  - intros beforeFinally duringFinally Hcomplete Hnone.
    pose proof (getVisualizationData_scheduled_cases allowTableOfContents
                  organization dom beforeFinally duringFinally st Hnodup)
      as Hcases.
    rewrite Hnone in Hcases. exact (Hcases Hcomplete).
  - intros beforeFinally duringFinally visualizations st' tasks Hrun.
    pose proof (getVisualizationData_scheduled_cases allowTableOfContents
                  organization dom beforeFinally duringFinally st Hnodup)
      as Hcases.
    rewrite Hrun in Hcases. exact Hcases.
  - intros beforeFinally duringFinally e st' tasks Hrun.
    pose proof (getVisualizationData_scheduled_cases allowTableOfContents
                  organization dom beforeFinally duringFinally st Hnodup)
      as Hcases.
    rewrite Hrun in Hcases. exact Hcases.
Qed.

Lemma getVisualizationData_scheduled_agrees_witness :
  getVisualizationData_scheduled (H := steadyCapture) true "ACME"
    (sampleDashboard [barChartPanel; markdownPanel; splitSeriesPanel])
    [1; 0; 1; 0; 0; 1; 1; 0]%nat [] samplePageState
  <> None.
Proof.
  refine (proj1 (getVisualizationData_scheduled_agrees (H := steadyCapture)
                   true "ACME"
                   (sampleDashboard
                      [barChartPanel; markdownPanel; splitSeriesPanel])
                   samplePageState _)
                [1; 0; 1; 0; 0; 1; 1; 0]%nat [] _).
  - vm_compute. repeat constructor; set_solver.
  - intros i Hi. vm_compute in Hi.
    destruct i as [|[|i]]; [vm_compute; lia | vm_compute; lia | lia].
Defined.
